(** * MediGuide: a shallow embedding of the chat service

    The development follows the Python sources:
    - [main.py]: [load_llm], [load_resources], [get_current_user],
      [register], [login], [get_conversations], [get_messages],
      [chat_endpoint];
    - [database.py]: [serialize_doc], [get_user], [create_user],
      [get_user_conversations], [get_conversation_by_id],
      [create_conversation], [add_message_to_conversation];
    - [auth.py]: [verify_password], [get_password_hash],
      [create_access_token], [verify_token];
    - [memory_llm.py]: [create_chunks], [get_embed];
    - [app.py]: the session state, the callbacks and the two views.

    Python [str] is modelled by [string], holding the UTF-8 encoding of
    the text: [len] and slices count code points, not bytes.  Exceptions
    are modelled by the type [Exn], and every function that prints,
    reads the clock, talks to MongoDB or to the remote model by a
    computation in the state-and-exception monad [M].

    What lives outside the repository is gathered in the record [World],
    over which the theorems quantify: environment variables, the
    constructors and loaders of the libraries, the embedding model, the
    remote model, the clock, the ObjectId generator and the text
    splitter.  The calls to pymongo and bson are given their documented
    meaning on a collection kept as a finite map from [_id] to document.
    The endpoints of [main.py] are first modelled from the point where
    FastAPI has resolved their dependencies, and then as routes, with
    the dependencies FastAPI resolves for them. *)

From Stdlib Require Import QArith Ascii String.
From stdpp Require Import gmap strings list sorting pretty.

(** ** Exceptions and results *)

Inductive Exn : Type :=
| ValueError (msg : string)
| HTTPException (status_code : nat) (detail : string)
| LibraryError (cls : string) (msg : string).

(** [str(e)] *)
Definition str_exn (e : Exn) : string :=
  match e with
  | ValueError msg => msg
  | HTTPException code detail => pretty code +:+ ": " +:+ detail
  | LibraryError _ msg => msg
  end.

Inductive Result (A : Type) : Type :=
| Ok (a : A)
| Raise (e : Exn).
Arguments Ok {A} a.
Arguments Raise {A} e.

(** ** Objects built by the libraries *)

(** The keyword arguments of [ChatOpenAI(...)]; the client object is
    identified with them. *)
Record LLM : Type := {
  model : string;
  openai_api_key : string;
  openai_api_base : string;
  temperature : Q;
  max_tokens : nat;
}.

Record Embedder : Type := { model_name : string }.

(** A chunk with the metadata the PDF loader attaches to it. *)
Record Document : Type := {
  page_content : string;
  source : string;
  page : nat;
}.

(** Embedding vectors; the float32 components are read as fixed-point
    integers. *)
Definition Vec : Type := list Z.

(** A FAISS store: the embedder handed to the loader, the dimension of
    the index ([index.d]) and its rows, each with the chunk the docstore
    keeps for it. *)
Record VectorStore : Type := {
  vs_embeddings : Embedder;
  vs_d : nat;
  vs_entries : list (Vec * Document);
}.

(** ** The world outside the repository *)

Record World : Type := {
  (** [os.getenv] *)
  getenv : string -> option string;
  (** [ChatOpenAI(...)]: [Some e] when the constructor raises [e] *)
  ChatOpenAI_raises : LLM -> option Exn;
  (** [HuggingFaceEmbeddings(model_name=...)] *)
  HuggingFaceEmbeddings_raises : string -> option Exn;
  (** [FAISS.load_local(folder, embeddings, allow_dangerous_deserialization)] *)
  FAISS_load_local : string -> Embedder -> bool -> Result VectorStore;
  (** [embeddings.embed_query(text)] *)
  embed_query : Embedder -> string -> Result Vec;
  (** the remote model's answer to the prompt of the [n]-th call *)
  llm_call : LLM -> nat -> string -> Result string;
  (** [datetime.utcnow()], by number of earlier readings *)
  utcnow : nat -> Z;
  (** the bytes drawn for the [n]-th generated ObjectId *)
  new_object_id : nat -> N;
  (** [RecursiveCharacterTextSplitter(chunk_size, chunk_overlap).split_documents] *)
  split_documents : nat -> nat -> list Document -> list Document;
}.

Definition ChatOpenAI (w : World) (cfg : LLM) : Result LLM :=
  match ChatOpenAI_raises w cfg with
  | Some e => Raise e
  | None => Ok cfg
  end.

Definition HuggingFaceEmbeddings (w : World) (name : string) : Result Embedder :=
  match HuggingFaceEmbeddings_raises w name with
  | Some e => Raise e
  | None => Ok {| model_name := name |}
  end.

(** ** Persistent data: messages and conversations *)

Record Message : Type := {
  role : string;
  content : string;
  timestamp : Z;
}.

(** A document of [conversations_collection]; its [_id] is the key under
    which the collection stores it. *)
Record ConvDoc : Type := {
  username : string;
  title : string;
  messages : list Message;
  created_at : Z;
}.

(** [PromptTemplate(template, input_variables=["context", "question"])]:
    the template text cut at its two placeholders. *)
Record PromptTemplate : Type := {
  before_context : string;
  before_question : string;
  after_question : string;
}.

(** A [RetrievalQA] chain, as [from_chain_type] is given it;
    [retriever_k] is the [search_kwargs] of [db.as_retriever]. *)
Record RetrievalQA : Type := {
  chain_llm : LLM;
  chain_type : string;
  retriever_db : VectorStore;
  retriever_k : nat;
  return_source_documents : bool;
  chain_prompt : PromptTemplate;
}.

(** ** Program state *)

Record State : Type := {
  qa_chain : option RetrievalQA;
  conversations : gmap N ConvDoc;
  stdout : list string;
  model_calls : list string;
  clock_reads : nat;
  ids_made : nat;
}.

Definition set_qa_chain (c : option RetrievalQA) (s : State) : State :=
  {| qa_chain := c; conversations := conversations s; stdout := stdout s;
     model_calls := model_calls s; clock_reads := clock_reads s;
     ids_made := ids_made s |}.

Definition set_conversations (m : gmap N ConvDoc) (s : State) : State :=
  {| qa_chain := qa_chain s; conversations := m; stdout := stdout s;
     model_calls := model_calls s; clock_reads := clock_reads s;
     ids_made := ids_made s |}.

Definition set_stdout (l : list string) (s : State) : State :=
  {| qa_chain := qa_chain s; conversations := conversations s; stdout := l;
     model_calls := model_calls s; clock_reads := clock_reads s;
     ids_made := ids_made s |}.

Definition set_model_calls (l : list string) (s : State) : State :=
  {| qa_chain := qa_chain s; conversations := conversations s;
     stdout := stdout s; model_calls := l; clock_reads := clock_reads s;
     ids_made := ids_made s |}.

Definition set_clock_reads (n : nat) (s : State) : State :=
  {| qa_chain := qa_chain s; conversations := conversations s;
     stdout := stdout s; model_calls := model_calls s; clock_reads := n;
     ids_made := ids_made s |}.

Definition set_ids_made (n : nat) (s : State) : State :=
  {| qa_chain := qa_chain s; conversations := conversations s;
     stdout := stdout s; model_calls := model_calls s;
     clock_reads := clock_reads s; ids_made := n |}.

(** The state of a freshly imported [main] module: [qa_chain = None]. *)
Definition initial_state (db : gmap N ConvDoc) : State :=
  {| qa_chain := None; conversations := db; stdout := [];
     model_calls := []; clock_reads := 0; ids_made := 0 |}.

(** ** The state-and-exception monad *)

Definition M (A : Type) : Type := State -> State * Result A.

Global Instance M_ret : MRet M := fun A a s => (s, Ok a).

Global Instance M_bind : MBind M := fun A B f c s =>
  match c s with
  | (s', Ok a) => f a s'
  | (s', Raise e) => (s', Raise e)
  end.

Definition raise {A : Type} (e : Exn) : M A := fun s => (s, Raise e).

(** [try: body except Exception as e: handler(e)] *)
Definition try_except {A : Type} (body : M A) (handler : Exn -> M A) : M A :=
  fun s =>
    match body s with
    | (s', Ok a) => (s', Ok a)
    | (s', Raise e) => handler e s'
    end.

Definition lift_result {A : Type} (r : Result A) : M A := fun s => (s, r).

Definition print (line : string) : M unit :=
  fun s => (set_stdout (stdout s ++ [line]) s, Ok tt).

Definition datetime_utcnow (w : World) : M Z :=
  fun s => (set_clock_reads (S (clock_reads s)) s, Ok (utcnow w (clock_reads s))).

(** ** [main.load_llm] *)

(** Truth value of an [Optional[str]]: [None] and [""] are falsy. *)
Definition truthy (key : option string) : bool :=
  match key with
  | None => false
  | Some "" => false
  | Some _ => true
  end.

Definition llm_config (key : string) : LLM :=
  {| model := "llama-3.1-8b-instant";
     openai_api_key := key;
     openai_api_base := "https://api.groq.com/openai/v1";
     temperature := (7 # 10)%Q;
     max_tokens := 512 |}.

Definition no_llm_message : string :=
  "Both GROQ API keys failed or are missing. Cannot load LLM.".

(** The [for key in [...]] loop of [load_llm], over any list of keys. *)
Fixpoint load_llm_from (w : World) (keys : list (option string)) : M LLM :=
  match keys with
  | [] => raise (ValueError no_llm_message)
  | key :: rest =>
      match key with
      | Some k =>
          if truthy key then
            match ChatOpenAI w (llm_config k) with
            | Ok llm => mret llm
            | Raise e =>
                print ("GROQ API key failed: " +:+ str_exn e);;
                load_llm_from w rest
            end
          else load_llm_from w rest
      | None => load_llm_from w rest
      end
  end.

Definition load_llm (w : World) : M LLM :=
  load_llm_from w [getenv w "PRIMARY_GROQ_API_KEY"; getenv w "FALLBACK_GROQ_API_KEY"].

(** ** The prompt template of [load_resources] *)

Definition newline : string := String "010"%char "".
Definition dquote : string := String "034"%char "".
Definition indent : string := "            ".

(** ["\n".join(lines)] *)
Fixpoint join (sep : string) (lines : list string) : string :=
  match lines with
  | [] => ""
  | [l] => l
  | l :: rest => l +:+ sep +:+ join sep rest
  end.

(** The lines of [raw_prompt] up to the placeholder [{context}]. *)
Definition raw_prompt_before_context : list string :=
  [ "";
    indent +:+ "You are a compassionate, knowledgeable, and trustworthy medical assistant, like a kind doctor speaking directly to the patient.";
    indent +:+ "Your role is to give **accurate**, **polite**, and **helpful** medical answers based on the provided context, and to communicate in a way the patient feels understood and cared for.";
    "";
    indent +:+ "— Always respond in a warm, polite, and respectful tone, similar to how a doctor calmly explains to a patient.";
    indent +:+ "- Your task is to provide **accurate**, **concise**, and **fact-based** answers based solely on the information provided in the context.";
    indent +:+ "— If the patient's question is in Hindi, respond entirely in Hindi.";
    indent +:+ "— If it's in English, respond in English.";
    indent +:+ "— If the question is mixed (Hinglish), respond in **natural Hinglish** — use a friendly, simple mix of Hindi and English, like how people speak in daily conversation (e.g., " +:+ dquote +:+ "aapko rest lena chahiye and you should consult a doctor immediately" +:+ dquote +:+ ", etc.).";
    indent +:+ "— Always answer every question to the best of your ability, using only the given context only.";
    indent +:+ "— Avoid robotic or overly formal tone — sound like a real, kind doctor.";
    indent +:+ "— Always try to help. If the context lacks full information, respond gently and share basic, widely accepted medical guidance.";
    indent +:+ "— Do NOT generate facts beyond the provided context unless they are basic, well-established medical facts.";
    indent +:+ "— Never hallucinate or speculate.";
    indent +:+ "— **Format your answers in short, clear, point-wise or numbered format**, so the patient can easily follow.";
    indent +:+ "— If sources are mentioned in the context, refer to them briefly and respectfully.";
    "";
    indent +:+ "---";
    "";
    indent +:+ "Context:";
    indent ].

(** From [{context}] to the placeholder [{question}]. *)
Definition raw_prompt_before_question : list string :=
  [ "";
    "";
    indent +:+ "Question:";
    indent ].

(** From [{question}] to the end of the template. *)
Definition raw_prompt_after_question : list string :=
  [ "";
    "";
    indent +:+ "---";
    "";
    indent +:+ "Final Answer:";
    "        " ].

Definition raw_prompt : PromptTemplate :=
  {| before_context := join newline raw_prompt_before_context;
     before_question := join newline raw_prompt_before_question;
     after_question := join newline raw_prompt_after_question |}.

(** [prompt.format(context=..., question=...)] *)
Definition format_prompt (p : PromptTemplate) (context question : string) : string :=
  before_context p +:+ context +:+ before_question p +:+ question +:+ after_question p.

(** ** Python strings

    A [str] is held as its UTF-8 encoding: a code point is a byte that
    is not a continuation byte ([10xxxxxx]), together with the
    continuation bytes that follow it.  [len] and slicing count code
    points, as Python does. *)

Definition is_continuation (c : ascii) : bool :=
  let n := N_of_ascii c in ((128 <=? n) && (n <? 192))%N.

(** [len(s)] *)
Fixpoint len (s : string) : nat :=
  match s with
  | EmptyString => 0
  | String c rest => (if is_continuation c then 0 else 1) + len rest
  end.

(** [s[:n]] *)
Fixpoint str_take (n : nat) (s : string) : string :=
  match s with
  | EmptyString => EmptyString
  | String c rest =>
      if is_continuation c then String c (str_take n rest)
      else match n with
           | O => EmptyString
           | S n' => String c (str_take n' rest)
           end
  end.

Definition is_ascii (s : string) : bool :=
  forallb (fun c => (N_of_ascii c <? 128)%N) (list_ascii_of_string s).

Definition hex_digit (d : N) : ascii :=
  ascii_of_N (if (d <? 10)%N then 48 + d else 87 + d)%N.

(** The value of a hexadecimal digit, in either case. *)
Definition hex_value (c : ascii) : option N :=
  let n := N_of_ascii c in
  if ((48 <=? n) && (n <=? 57))%N then Some (n - 48)%N
  else if ((97 <=? n) && (n <=? 102))%N then Some (n - 87)%N
  else if ((65 <=? n) && (n <=? 70))%N then Some (n - 55)%N
  else None.

(** The [digits] lowest hexadecimal digits of [n], most significant
    first, in front of [acc]. *)
Fixpoint hex_of (digits : nat) (n : N) (acc : string) : string :=
  match digits with
  | O => acc
  | S d => hex_of d (n / 16)%N (String (hex_digit (n mod 16)%N) acc)
  end.

Definition squote : ascii := "039"%char.
Definition backslash : ascii := "092"%char.

Definition contains (c : ascii) (s : string) : bool :=
  existsb (Ascii.eqb c) (list_ascii_of_string s).

(** How [repr] writes one character of a [str] between the quotes
    [quote].  Characters outside ASCII are copied, which is what Python
    does with the printable ones. *)
Definition repr_char (quote c : ascii) : string :=
  let n := N_of_ascii c in
  if Ascii.eqb c quote || Ascii.eqb c backslash then String backslash (String c "")
  else if (n =? 9)%N then String backslash "t"
  else if (n =? 10)%N then String backslash "n"
  else if (n =? 13)%N then String backslash "r"
  else if ((n <? 32) || (n =? 127))%N then String backslash (String "x" (hex_of 2 n ""))
  else String c "".

Fixpoint repr_chars (quote : ascii) (s : string) : string :=
  match s with
  | EmptyString => EmptyString
  | String c rest => repr_char quote c +:+ repr_chars quote rest
  end.

(** [repr(s)] for a [str]: in single quotes, or in double quotes when
    [s] holds a single quote and no double quote. *)
Definition repr (s : string) : string :=
  let quote := if contains squote s && negb (contains "034"%char s)
               then "034"%char else squote in
  String quote (repr_chars quote s +:+ String quote "").

(** ** [bson.ObjectId]

    An ObjectId is twelve bytes, kept here as a number below [2^96];
    [str(oid)] is its 24 lower-case hexadecimal digits.  [ObjectId(s)]
    hands a [str] of 24 characters to [bytes.fromhex] and raises
    [InvalidId] when the length is another or [bytes.fromhex] raises. *)

(** [Py_ISSPACE]: the ASCII white space [bytes.fromhex] skips. *)
Definition Py_ISSPACE (c : ascii) : bool :=
  let n := N_of_ascii c in ((n =? 32) || ((9 <=? n) && (n <=? 13)))%N.

(** [bytes.fromhex(s)]: pairs of hexadecimal digits, with white space
    allowed between the pairs; [None] when it raises [ValueError]. *)
Fixpoint bytes_fromhex (s : string) : option (list N) :=
  match s with
  | EmptyString => Some []
  | String c rest =>
      if Py_ISSPACE c then bytes_fromhex rest
      else match hex_value c, rest with
           | Some top, String c' rest' =>
               match hex_value c' with
               | Some bot => cons (16 * top + bot)%N <$> bytes_fromhex rest'
               | None => None
               end
           | _, _ => None
           end
  end.

(** The number a sequence of bytes stands for, most significant first. *)
Definition N_of_bytes (bs : list N) : N :=
  foldl (fun acc b => (256 * acc + b)%N) 0%N bs.

Definition str_oid (oid : N) : string := hex_of 24 oid "".

(** [str(e)] for the [InvalidId] that [ObjectId(s)] raises, built with
    ["%r is not a valid ObjectId, ..." % (s,)]. *)
Definition invalid_id_message (s : string) : string :=
  repr s +:+ " is not a valid ObjectId, it must be a 12-byte input or a 24-character hex string".

(** With white space in the string, [bytes.fromhex] returns fewer than
    twelve bytes and bson keeps them as the id.  No stored [_id] is like
    that, and what the driver sends for such an id is decided outside
    bson and this repository; of the operations of [database.py] the
    model only says that they do not succeed with it. *)
Definition short_id_error : Exn :=
  LibraryError "InvalidDocument" "ObjectId of fewer than 12 bytes".

Definition ObjectId (s : string) : Result N :=
  if Nat.eqb (len s) 24 then
    match bytes_fromhex s with
    | Some bs => if Nat.eqb (length bs) 12 then Ok (N_of_bytes bs) else Raise short_id_error
    | None => Raise (LibraryError "InvalidId" (invalid_id_message s))
    end
  else Raise (LibraryError "InvalidId" (invalid_id_message s)).

(** ** [database.py] *)

Module Serialized.
(** What [serialize_doc] returns: the document with ["id"], a string, in
    place of ["_id"]. *)
Record t : Type := { id : string; doc : ConvDoc }.
End Serialized.

Definition serialize_doc (found : option (N * ConvDoc)) : option Serialized.t :=
  match found with
  | None => None
  | Some (oid, d) => Some {| Serialized.id := str_oid oid; Serialized.doc := d |}
  end.

(** [conversations_collection.find_one({"_id": oid, "username": username})] *)
Definition find_one_by_id_and_username (oid : N) (user : string)
  : M (option (N * ConvDoc)) :=
  fun s =>
    (s, Ok (match conversations s !! oid with
            | Some d => if decide (username d = user) then Some (oid, d) else None
            | None => None
            end)).

Definition get_conversation_by_id (conversation_id : string) (user : string)
  : M (option Serialized.t) :=
  oid ← lift_result (ObjectId conversation_id);
  convo ← find_one_by_id_and_username oid user;
  mret (serialize_doc convo).

(** [conversations_collection.insert_one(doc)]: the driver draws a new
    twelve-byte [_id]; the server refuses a key that is already stored. *)
Definition next_object_id (w : World) (s : State) : N :=
  (new_object_id w (ids_made s) mod 2 ^ 96)%N.

Definition insert_one (w : World) (d : ConvDoc) : M N :=
  fun s =>
    let oid := next_object_id w s in
    let s' := set_ids_made (S (ids_made s)) s in
    match conversations s !! oid with
    | Some _ => (s', Raise (LibraryError "DuplicateKeyError" "E11000 duplicate key error"))
    | None => (set_conversations (<[oid := d]> (conversations s)) s', Ok oid)
    end.

Definition create_conversation (w : World) (user : string) (first_message : Message)
  : M N :=
  now ← datetime_utcnow w;
  insert_one w {| username := user;
                  title := str_take 50 (content first_message) +:+ "...";
                  messages := [first_message];
                  created_at := now |}.

Definition push_message (message : Message) (d : ConvDoc) : ConvDoc :=
  {| username := username d; title := title d;
     messages := messages d ++ [message]; created_at := created_at d |}.

(** [conversations_collection.update_one({"_id": oid}, {"$push": {"messages": message}})]:
    nothing happens when no document has this [_id]. *)
Definition update_one_push (oid : N) (message : Message) : M unit :=
  fun s => (set_conversations (alter (push_message message) oid (conversations s)) s, Ok tt).

Definition add_message_to_conversation (conversation_id : string) (message : Message)
  : M unit :=
  oid ← lift_result (ObjectId conversation_id);
  update_one_push oid message.

(** ** The vector index and the retrieval chain *)

(** Modelled from the spec: the metric of the index, which is library
    code.  Spec 4.3 asks for one fixed metric, cosine or L2; the index
    built by [memory_llm.py] is a flat L2 index, whose distance is the
    squared Euclidean distance of two vectors of the same dimension. *)
Definition sq_dist (u v : Vec) : Z :=
  foldr Z.add 0%Z (zip_with (fun a b => ((a - b) * (a - b))%Z) u v).

(** Modelled from the spec: spec 4.3, ties broken by insertion order. *)
Fixpoint insert_by_distance (q : Vec) (e : Vec * Document) (l : list (Vec * Document))
  : list (Vec * Document) :=
  match l with
  | [] => [e]
  | e' :: rest =>
      if (sq_dist q (fst e) <=? sq_dist q (fst e'))%Z then e :: e' :: rest
      else e' :: insert_by_distance q e rest
  end.

(** Modelled from the spec: spec 4.3, the entries by distance to the
    query vector, nearest first. *)
Definition sort_by_distance (q : Vec) (entries : list (Vec * Document))
  : list (Vec * Document) :=
  foldr (insert_by_distance q) [] entries.

(** Modelled from the spec: the search of the FAISS index, which is library
    code.  Spec 4.3: [search(index, query_vector, k)] returns the [k]
    entries with smallest distance under a fixed metric, ties broken by
    insertion order; [k] larger than the index size returns all entries;
    searching an empty index returns an empty result. *)
Definition search (entries : list (Vec * Document)) (q : Vec) (k : nat)
  : list (Vec * Document) :=
  take k (sort_by_distance q entries).

(** Modelled from the spec: [index.search] of the library.  Spec 3: the
    dimension of a vector must match the configured dimension of the
    index.  The library checks this when it searches, not when it loads:
    it asserts [d == self.d] and raises [AssertionError], without a
    message, for a query vector of another dimension. *)
Definition index_search (db : VectorStore) (q : Vec) (k : nat)
  : Result (list (Vec * Document)) :=
  if Nat.eqb (length q) (vs_d db) then Ok (search (vs_entries db) q k)
  else Raise (LibraryError "AssertionError" "").

(** Modelled from the spec: [retriever.invoke(query)] for
    [db.as_retriever(search_kwargs={'k': k})], which is library code.
    Spec 4.6, steps 1 and 2: embed the query, then search the index for
    the top [k] entries. *)
Definition retrieve (w : World) (db : VectorStore) (k : nat) (q : string)
  : Result (list Document) :=
  match embed_query w (vs_embeddings db) q with
  | Ok v =>
      match index_search db v k with
      | Ok found => Ok (snd <$> found)
      | Raise e => Raise e
      end
  | Raise e => Raise e
  end.

(** One completion request to the remote model; the request is made
    whether or not an answer comes back. *)
Definition complete (w : World) (llm : LLM) (prompt : string) : M string :=
  fun s =>
    (set_model_calls (model_calls s ++ [prompt]) s,
     llm_call w llm (length (model_calls s)) prompt).

(** The dictionary [qa_chain.invoke] returns. *)
Record ChainOutput : Type := {
  query : string;
  result : string;
  source_documents : option (list Document);
}.

(** Modelled from the spec: [RetrievalQA.invoke] for a chain of type
    ["stuff"], which is library code.  Spec 4.6: retrieve the top-[k]
    entries, substitute the concatenation of their texts as [context] and
    the raw query as [question] into the template, call the model once with
    the assembled prompt, return the text with the chunks used. *)
Definition RetrievalQA_invoke (w : World) (chain : RetrievalQA) (q : string)
  : M ChainOutput :=
  docs ← lift_result (retrieve w (retriever_db chain) (retriever_k chain) q);
  let context := join (newline +:+ newline) (page_content <$> docs) in
  answer ← complete w (chain_llm chain) (format_prompt (chain_prompt chain) context q);
  mret {| query := q; result := answer;
          source_documents := if return_source_documents chain then Some docs else None |}.

(** ** [main.load_resources] *)

Definition embedding_model_name : string := "sentence-transformers/all-MiniLM-L6-v2".

Definition loaded_message : string :=
  "✅ RAG chain with compassionate doctor prompt loaded successfully!".

Definition failed_message (e : Exn) : string :=
  "❌ Failed to load RAG chain: " +:+ str_exn e.

(** [RetrievalQA.from_chain_type(llm=llm, chain_type="stuff",
    retriever=db.as_retriever(search_kwargs={'k': 3}),
    return_source_documents=True, chain_type_kwargs={'prompt': prompt_template})] *)
Definition chain_of (llm : LLM) (db : VectorStore) : RetrievalQA :=
  {| chain_llm := llm; chain_type := "stuff";
     retriever_db := db; retriever_k := 3;
     return_source_documents := true;
     chain_prompt := raw_prompt |}.

Definition load_resources (w : World) : M unit :=
  try_except
    (llm ← load_llm w;
     embed_model ← lift_result (HuggingFaceEmbeddings w embedding_model_name);
     db ← lift_result (FAISS_load_local w "vectorstore/db_faiss" embed_model true);
     (fun s => (set_qa_chain (Some (chain_of llm db)) s, Ok tt));;
     print loaded_message)
    (fun e => print (failed_message e)).

(** ** The endpoints of [main.py] *)

Module User.
(** The document [get_current_user] hands to the endpoints. *)
Record t : Type := { username : string; hashed_password : string }.
End User.

Record ChatRequest : Type := {
  prompt : string;
  conversation_id : option string;
}.

Definition get_messages (conversation_id : string) (current_user : User.t)
  : M (list (string * list Message)) :=
  conversation ← get_conversation_by_id conversation_id (User.username current_user);
  match conversation with
  | None => raise (HTTPException 404 "Conversation not found")
  | Some c => mret [("messages", messages (Serialized.doc c))]
  end.

(** The [else] branch of [if convo_id:]. *)
Definition start_conversation (w : World) (user : string)
    (ai_response : string) (user_message assistant_message : Message)
  : M (list (string * string)) :=
  new_convo_id ← create_conversation w user user_message;
  add_message_to_conversation (str_oid new_convo_id) assistant_message;;
  mret [("response", ai_response); ("conversation_id", str_oid new_convo_id)].

(** The [try] block of [chat_endpoint] after the chain has answered:
    build the two messages and store them. *)
Definition after_invoke (w : World) (request : ChatRequest) (current_user : User.t)
    (response : ChainOutput) : M (list (string * string)) :=
  let ai_response := result response in
  let user := User.username current_user in
  t_user ← datetime_utcnow w;
  let user_message :=
    {| role := "user"; content := prompt request; timestamp := t_user |} in
  t_assistant ← datetime_utcnow w;
  let assistant_message :=
    {| role := "assistant"; content := ai_response; timestamp := t_assistant |} in
  match conversation_id request with
  | Some convo_id =>
      if truthy (Some convo_id) then
        add_message_to_conversation convo_id user_message;;
        add_message_to_conversation convo_id assistant_message;;
        mret [("response", ai_response); ("conversation_id", convo_id)]
      else start_conversation w user ai_response user_message assistant_message
  | None => start_conversation w user ai_response user_message assistant_message
  end.

(** The body of the [try] block of [chat_endpoint]. *)
Definition chat_body (w : World) (chain : RetrievalQA)
    (request : ChatRequest) (current_user : User.t)
  : M (list (string * string)) :=
  response ← RetrievalQA_invoke w chain (prompt request);
  after_invoke w request current_user response.

Definition chat_endpoint (w : World) (request : ChatRequest) (current_user : User.t)
  : M (list (string * string)) :=
  fun s =>
    match qa_chain s with
    | None => raise (HTTPException 503 "AI service is not available") s
    | Some chain =>
        try_except (chat_body w chain request current_user)
                   (fun e => raise (HTTPException 500 (str_exn e))) s
    end.

(** ** The running service: the startup event, then requests *)

Inductive Request : Type :=
| GetMessages (conversation_id : string) (current_user : User.t)
| Chat (request : ChatRequest) (current_user : User.t).

Inductive Response : Type :=
| MessagesResponse (r : Result (list (string * list Message)))
| ChatResponse (r : Result (list (string * string))).

Definition serve (w : World) (req : Request) (s : State) : State * Response :=
  match req with
  | GetMessages cid user =>
      let '(s', r) := get_messages cid user s in (s', MessagesResponse r)
  | Chat request user =>
      let '(s', r) := chat_endpoint w request user s in (s', ChatResponse r)
  end.

Fixpoint serve_all (w : World) (reqs : list Request) (s : State)
  : State * list Response :=
  match reqs with
  | [] => (s, [])
  | req :: rest =>
      let '(s1, r) := serve w req s in
      let '(s2, rs) := serve_all w rest s1 in
      (s2, r :: rs)
  end.

(** ** [memory_llm.py] *)

Definition create_chunks (w : World) (extracted_data : list Document) : list Document :=
  split_documents w 500 50 extracted_data.

Definition get_embed (w : World) : Result Embedder :=
  HuggingFaceEmbeddings w embedding_model_name.

(** ** Notions used in the statements *)

(** A key the loop passes over: absent, empty, or rejected by the
    constructor. *)
Definition unusable (w : World) (key : option string) : Prop :=
  truthy key = false ∨
  ∃ k e, key = Some k ∧ ChatOpenAI_raises w (llm_config k) = Some e.

(** The lines the loop prints for a list of keys it passes over. *)
Fixpoint key_failure_lines (w : World) (keys : list (option string)) : list string :=
  match keys with
  | [] => []
  | key :: rest =>
      match key with
      | Some k =>
          if truthy key then
            match ChatOpenAI_raises w (llm_config k) with
            | Some e => ("GROQ API key failed: " +:+ str_exn e) :: key_failure_lines w rest
            | None => key_failure_lines w rest
            end
          else key_failure_lines w rest
      | None => key_failure_lines w rest
      end
  end.

(** [not query.strip()]: the string is empty or made of white space only. *)
Definition is_space (c : ascii) : bool :=
  let n := nat_of_ascii c in
  (n =? 32) || ((9 <=? n) && (n <=? 13)) || ((28 <=? n) && (n <=? 31)).

Fixpoint is_blank (s : string) : bool :=
  match s with
  | EmptyString => true
  | String c rest => is_space c && is_blank rest
  end.

(** The prompt the chain sends to the model for a query and the chunks
    retrieved for it. *)
Definition prompt_for (chain : RetrievalQA) (docs : list Document) (q : string) : string :=
  format_prompt (chain_prompt chain) (join (newline +:+ newline) (page_content <$> docs)) q.

(** A computation that leaves a component of the state alone. *)
Definition preserves {X A : Type} (f : State → X) (c : M A) : Prop :=
  ∀ s, f (c s).1 = f s.

(** One of the resources [load_resources] needs cannot be had: no client,
    no embedding model, or no index. *)
Definition startup_fails (w : World) (s : State) : Prop :=
  (∃ e, (load_llm w s).2 = Raise e)
  ∨ (∃ e, HuggingFaceEmbeddings_raises w embedding_model_name = Some e)
  ∨ (∃ e, FAISS_load_local w "vectorstore/db_faiss"
            {| model_name := embedding_model_name |} true = Raise e).

Definition unavailable : Exn := HTTPException 503 "AI service is not available".

(** The sources listed in what the chain returns. *)
Definition sources_of (r : Result ChainOutput) : list string :=
  match r with
  | Ok out => source <$> default [] (source_documents out)
  | Raise _ => []
  end.

(** Every row of the index has the dimension of the index. *)
Definition rows_have_dimension (db : VectorStore) : Prop :=
  Forall (fun e : Vec * Document => length e.1 = vs_d db) (vs_entries db).

(** [e] is at least as near to the query vector [v] as [e']. *)
Definition closer (v : Vec) (e e' : Vec * Document) : Prop :=
  (sq_dist v e.1 ≤ sq_dist v e'.1)%Z.

(** ** Concrete worlds, on which the definitions are run *)

Definition demo_entries : list (Vec * Document) :=
  [ ([0; 9]%Z, {| page_content := "Ibuprofen reduces inflammation.";
                  source := "data/ibuprofen.pdf"; page := 0 |});
    ([9; 1]%Z, {| page_content := "Aspirin reduces fever.";
                  source := "data/aspirin.pdf"; page := 0 |});
    ([5; 5]%Z, {| page_content := "Paracetamol relieves pain.";
                  source := "data/paracetamol.pdf"; page := 2 |});
    ([8; 0]%Z, {| page_content := "Drink fluids when you have a fever.";
                  source := "data/fever.pdf"; page := 1 |}) ].

Definition aspirin_chunk : Document :=
  {| page_content := "Aspirin reduces fever."; source := "data/aspirin.pdf"; page := 0 |}.

(** The primary key is rejected, the fallback key works. *)
Definition demo_world : World :=
  {| getenv := fun name =>
       if String.eqb name "PRIMARY_GROQ_API_KEY" then Some "expired-key"
       else if String.eqb name "FALLBACK_GROQ_API_KEY" then Some "good-key"
       else None;
     ChatOpenAI_raises := fun cfg =>
       if String.eqb (openai_api_key cfg) "good-key" then None
       else Some (LibraryError "AuthenticationError" "invalid api key");
     HuggingFaceEmbeddings_raises := fun _ => None;
     FAISS_load_local := fun _ emb _ =>
       Ok {| vs_embeddings := emb; vs_d := 2; vs_entries := demo_entries |};
     embed_query := fun _ _ => Ok [9; 0]%Z;
     llm_call := fun _ _ _ => Ok "1. Rest. 2. Drink fluids.";
     utcnow := fun n => (1700000000 + Z.of_nat n)%Z;
     new_object_id := fun n => (N.of_nat n + 1000)%N;
     split_documents := fun _ _ docs => docs |}.

(** No key is configured. *)
Definition keyless_world : World :=
  {| getenv := fun _ => None;
     ChatOpenAI_raises := ChatOpenAI_raises demo_world;
     HuggingFaceEmbeddings_raises := HuggingFaceEmbeddings_raises demo_world;
     FAISS_load_local := FAISS_load_local demo_world;
     embed_query := embed_query demo_world;
     llm_call := llm_call demo_world;
     utcnow := utcnow demo_world;
     new_object_id := new_object_id demo_world;
     split_documents := split_documents demo_world |}.

(** The stored index holds 768-dimensional vectors, the embedder built at
    load time produces 384-dimensional ones, and the loader hands back
    what is stored. *)
Definition mismatch_world : World :=
  {| getenv := getenv demo_world;
     ChatOpenAI_raises := ChatOpenAI_raises demo_world;
     HuggingFaceEmbeddings_raises := HuggingFaceEmbeddings_raises demo_world;
     FAISS_load_local := fun _ emb _ =>
       Ok {| vs_embeddings := emb; vs_d := 768;
             vs_entries := [(replicate 768 0%Z, aspirin_chunk)] |};
     embed_query := fun _ _ => Ok (replicate 384 0%Z);
     llm_call := llm_call demo_world;
     utcnow := utcnow demo_world;
     new_object_id := new_object_id demo_world;
     split_documents := split_documents demo_world |}.

(** No index has been written to [vectorstore/db_faiss]. *)
Definition missing_index_world : World :=
  {| getenv := getenv demo_world;
     ChatOpenAI_raises := ChatOpenAI_raises demo_world;
     HuggingFaceEmbeddings_raises := HuggingFaceEmbeddings_raises demo_world;
     FAISS_load_local := fun _ _ _ =>
       Raise (LibraryError "RuntimeError" "could not open vectorstore/db_faiss/index.faiss");
     embed_query := embed_query demo_world;
     llm_call := llm_call demo_world;
     utcnow := utcnow demo_world;
     new_object_id := new_object_id demo_world;
     split_documents := split_documents demo_world |}.

(** [demo_world] with every indexed chunk attributed to another file. *)
Definition relabelled_world : World :=
  {| getenv := getenv demo_world;
     ChatOpenAI_raises := ChatOpenAI_raises demo_world;
     HuggingFaceEmbeddings_raises := HuggingFaceEmbeddings_raises demo_world;
     FAISS_load_local := fun _ emb _ =>
       Ok {| vs_embeddings := emb; vs_d := 2;
             vs_entries :=
               (fun e : Vec * Document =>
                  (e.1, {| page_content := page_content e.2;
                           source := "data/other.pdf"; page := page e.2 |}))
               <$> demo_entries |};
     embed_query := embed_query demo_world;
     llm_call := llm_call demo_world;
     utcnow := utcnow demo_world;
     new_object_id := new_object_id demo_world;
     split_documents := split_documents demo_world |}.

Definition alice : User.t := {| User.username := "alice"; User.hashed_password := "$2b$12$a" |}.
Definition bob : User.t := {| User.username := "bob"; User.hashed_password := "$2b$12$b" |}.

Definition bobs_conversation : ConvDoc :=
  {| username := "bob"; title := "I have a headache...";
     messages := [ {| role := "user"; content := "I have a headache";
                      timestamp := 1690000000 |};
                   {| role := "assistant"; content := "Please rest.";
                      timestamp := 1690000001 |} ];
     created_at := 1690000002 |}.

(** A database with one conversation, owned by bob, whose [_id] prints as
    ["0000000000000000000000ff"]. *)
Definition demo_db : gmap N ConvDoc := {[ 255%N := bobs_conversation ]}.

(** [demo_world] after a successful startup. *)
Definition demo_state : State := (load_resources demo_world (initial_state demo_db)).1.

Definition relabelled_state : State :=
  (load_resources relabelled_world (initial_state demo_db)).1.

(** The chain [load_resources] builds from a model and a loaded index. *)
Definition raw_chain : RetrievalQA :=
  {| chain_llm := llm_config "good-key"; chain_type := "stuff";
     retriever_db :=
       {| vs_embeddings := {| model_name := embedding_model_name |};
          vs_d := 2;
          vs_entries := demo_entries |};
     retriever_k := 3;
     return_source_documents := true;
     chain_prompt := raw_prompt |}.

Definition fever_request : ChatRequest :=
  {| prompt := "I have a fever since yesterday evening and a mild headache, what should I do?";
     conversation_id := None |}.

(** The same question in Hindi: 69 characters, 175 bytes of UTF-8. *)
Definition hindi_request : ChatRequest :=
  {| prompt := "मुझे कल शाम से बुखार है और हल्का सिरदर्द भी है, मुझे क्या करना चाहिए?";
     conversation_id := None |}.

Definition follow_up_request : ChatRequest :=
  {| prompt := "Is aspirin safe?";
     conversation_id := Some "0000000000000000000000ff" |}.

Definition empty_request : ChatRequest := {| prompt := ""; conversation_id := None |}.
Definition blank_request : ChatRequest := {| prompt := "   "; conversation_id := None |}.

(** ** Notions used in the statements about the stored conversations *)

(** Every stored [_id] is an ObjectId: twelve bytes. *)
Definition valid_ids (db : gmap N ConvDoc) : Prop :=
  ∀ oid d, db !! oid = Some d → (oid < 2 ^ 96)%N.

(** [d'] is [d] with messages added at the end, and nothing else changed. *)
Definition extends (d d' : ConvDoc) : Prop :=
  username d' = username d ∧ title d' = title d ∧ created_at d' = created_at d
  ∧ messages d `prefix_of` messages d'.

(** Every conversation of [db] is still in [db'], extended at most. *)
Definition grows (db db' : gmap N ConvDoc) : Prop :=
  ∀ oid d, db !! oid = Some d → ∃ d', db' !! oid = Some d' ∧ extends d d'.

(** Valid ids stay valid from [db] to [db']. *)
Definition keeps_valid_ids (db db' : gmap N ConvDoc) : Prop :=
  valid_ids db → valid_ids db'.

(** Each step of [c] relates the collection before to the collection
    after by [R]. *)
Definition db_step (R : relation (gmap N ConvDoc)) {A : Type} (c : M A) : Prop :=
  ∀ s, R (conversations s) (conversations (c s).1).

(** The remote model is down: every completion request raises. *)
Definition model_down_world : World :=
  {| getenv := getenv demo_world;
     ChatOpenAI_raises := ChatOpenAI_raises demo_world;
     HuggingFaceEmbeddings_raises := HuggingFaceEmbeddings_raises demo_world;
     FAISS_load_local := FAISS_load_local demo_world;
     embed_query := embed_query demo_world;
     llm_call := fun _ _ _ => Raise (LibraryError "APIConnectionError" "Connection error.");
     utcnow := utcnow demo_world;
     new_object_id := new_object_id demo_world;
     split_documents := split_documents demo_world |}.

Definition unknown_id_request : ChatRequest :=
  {| prompt := "Is aspirin safe?";
     conversation_id := Some "00000000000000000000beef" |}.

Definition malformed_id_request : ChatRequest :=
  {| prompt := "Is aspirin safe?"; conversation_id := Some "not-an-id" |}.

(** ** [database.get_user_conversations] and [main.get_conversations] *)

Module Summary.
(** A conversation as [get_user_conversations] returns it: found with
    the projection [{"messages": 0}], then passed through [serialize_doc],
    which puts ["id"] in place of ["_id"]. *)
Record t : Type := { id : string; username : string; title : string; created_at : Z }.
End Summary.

Module Conversation.
(** The pydantic model [Conversation] of [main.py]. *)
Record t : Type := { id : string; title : string; created_at : Z }.
End Conversation.

(** [a] may come before [b] under [.sort("created_at", -1)]. *)
Definition newer_first (a b : N * ConvDoc) : Prop :=
  (created_at b.2 ≤ created_at a.2)%Z.

Global Instance newer_first_dec (a b : N * ConvDoc) : Decision (newer_first a b).
Proof. unfold newer_first. apply _. Defined.

(** [find({"username": user}, {"messages": 0}).sort("created_at", -1)],
    still with the messages attached. *)
Definition find_by_username_sorted (user : string) (db : gmap N ConvDoc)
  : list (N * ConvDoc) :=
  merge_sort newer_first (filter (fun p => username p.2 = user) (map_to_list db)).

Definition serialize_summary (p : N * ConvDoc) : Summary.t :=
  {| Summary.id := str_oid p.1; Summary.username := username p.2;
     Summary.title := title p.2; Summary.created_at := created_at p.2 |}.

Definition get_user_conversations (user : string) : M (list Summary.t) :=
  fun s => (s, Ok (serialize_summary <$> find_by_username_sorted user (conversations s))).

(** What [response_model=List[Conversation]] keeps of each dictionary. *)
Definition as_Conversation (c : Summary.t) : Conversation.t :=
  {| Conversation.id := Summary.id c; Conversation.title := Summary.title c;
     Conversation.created_at := Summary.created_at c |}.

Definition get_conversations (current_user : User.t) : M (list Conversation.t) :=
  convos ← get_user_conversations (User.username current_user);
  mret (as_Conversation <$> convos).

(** A database with two conversations of alice and one of bob. *)
Definition busy_db : gmap N ConvDoc :=
  {[ 255%N := bobs_conversation;
     16%N := {| username := "alice"; title := "Is aspirin safe?...";
                messages := [ {| role := "user"; content := "Is aspirin safe?";
                                 timestamp := 1690000100 |} ];
                created_at := 1690000101 |};
     4096%N := {| username := "alice"; title := "I cannot sleep...";
                  messages := [ {| role := "user"; content := "I cannot sleep";
                                   timestamp := 1690000200 |} ];
                  created_at := 1690000201 |} ]}.

(** ** Accounts: [auth.py], the users collection and the account endpoints *)

Module UserDoc.
(** A document of [users_collection]; [user] holds the two keys the code
    reads, ["username"] and ["hashed_password"]. *)
Record t : Type := { _id : N; user : User.t; created_at : Z }.
End UserDoc.

Module UserCreate.
(** The pydantic model [UserCreate] of [auth.py]. *)
Record t : Type := { username : string; password : string }.
End UserCreate.

Module Form.
(** The fields of [OAuth2PasswordRequestForm] that [login] reads.
    FastAPI builds the form and calls [login] only when both fields are
    present and not empty: see [OAuth2PasswordRequestForm] among the
    routes. *)
Record t : Type := { username : string; password : string }.
End Form.

(** The claims of a token that the code writes or reads. *)
Record Payload : Type := { sub : option string; exp : option Z }.

(** What [auth.py] takes from its environment and its libraries. *)
Record AuthLib : Type := {
  (** [os.getenv("JWT_SECRET_KEY")] and [os.getenv("JWT_ALGORITHM")] *)
  SECRET_KEY : option string;
  ALGORITHM : option string;
  (** [pwd_context.hash(password)], by number of earlier hashes *)
  pwd_context_hash : nat -> string -> Result string;
  (** [pwd_context.verify(plain_password, hashed_password)] *)
  pwd_context_verify : string -> string -> Result bool;
  (** [jwt.encode(claims, key, algorithm=...)] *)
  jwt_encode : Payload -> option string -> option string -> Result string;
  (** [jwt.decode(token, key, algorithms=[...])] at a given time *)
  jwt_decode : Z -> string -> option string -> list (option string) -> Result Payload;
}.

(** The whole site: the state of [main.py], the users collection, and the
    number of passwords hashed so far. *)
Record Site : Type := {
  app : State;
  users : list UserDoc.t;
  hashes_made : nat;
}.

Definition SiteM (A : Type) : Type := Site -> Site * Result A.

Global Instance SiteM_ret : MRet SiteM := fun A a x => (x, Ok a).

Global Instance SiteM_bind : MBind SiteM := fun A B f c x =>
  match c x with
  | (x', Ok a) => f a x'
  | (x', Raise e) => (x', Raise e)
  end.

Definition site_raise {A : Type} (e : Exn) : SiteM A := fun x => (x, Raise e).

(** A computation of [main.py]'s state, run inside the site. *)
Definition on_app {A : Type} (c : M A) : SiteM A :=
  fun x =>
    let '(s', r) := c (app x) in
    ({| app := s'; users := users x; hashes_made := hashes_made x |}, r).

(** The first account of the collection with a given user name. *)
Definition account (name : string) (l : list UserDoc.t) : option UserDoc.t :=
  snd <$> list_find (fun d => User.username (UserDoc.user d) = name) l.

(** [database.get_user]:
    [users_collection.find_one({"username": username})] *)
Definition get_user (name : string) : SiteM (option UserDoc.t) :=
  fun x => (x, Ok (account name (users x))).

(** One [_id] drawn by the driver. *)
Definition draw_object_id (w : World) : M N :=
  fun s => (set_ids_made (S (ids_made s)) s, Ok (next_object_id w s)).

(** [users_collection.insert_one(doc)]: the server refuses an [_id] that
    is already stored. *)
Definition insert_user (d : UserDoc.t) : SiteM N :=
  fun x =>
    if decide (UserDoc._id d ∈ UserDoc._id <$> users x) then
      (x, Raise (LibraryError "DuplicateKeyError" "E11000 duplicate key error"))
    else
      ({| app := app x; users := users x ++ [d]; hashes_made := hashes_made x |},
       Ok (UserDoc._id d)).

(** [database.create_user] *)
Definition create_user (w : World) (name hashed : string) : SiteM N :=
  now ← on_app (datetime_utcnow w);
  oid ← on_app (draw_object_id w);
  insert_user {| UserDoc._id := oid;
                 UserDoc.user := {| User.username := name;
                                    User.hashed_password := hashed |};
                 UserDoc.created_at := now |}.

(** [auth.get_password_hash] *)
Definition get_password_hash (lib : AuthLib) (password : string) : SiteM string :=
  fun x =>
    ({| app := app x; users := users x; hashes_made := S (hashes_made x) |},
     pwd_context_hash lib (hashes_made x) password).

(** [auth.verify_password] *)
Definition verify_password (lib : AuthLib) (plain hashed : string) : SiteM bool :=
  fun x => (x, pwd_context_verify lib plain hashed).

(** [ACCESS_TOKEN_EXPIRE_MINUTES], in seconds. *)
Definition ACCESS_TOKEN_EXPIRE_SECONDS : Z := 60 * 60.

(** [auth.create_access_token]: the claims given, with ["exp"] set to one
    hour from now. *)
Definition create_access_token (lib : AuthLib) (w : World) (data : Payload)
  : SiteM string :=
  now ← on_app (datetime_utcnow w);
  on_app (lift_result
            (jwt_encode lib
               {| sub := sub data; exp := Some (now + ACCESS_TOKEN_EXPIRE_SECONDS)%Z |}
               (SECRET_KEY lib) (ALGORITHM lib))).

(** The exceptions [except JWTError] catches: [JWTError] and its
    subclasses. *)
Definition is_JWTError (e : Exn) : bool :=
  match e with
  | LibraryError cls _ =>
      bool_decide (cls ∈ ["JWTError"; "ExpiredSignatureError"; "JWTClaimsError"])
  | _ => false
  end.

(** [auth.verify_token]; the library compares ["exp"] with the time at
    which it is called. *)
Definition verify_token (lib : AuthLib) (w : World) (token : string)
  : SiteM (option string) :=
  now ← on_app (datetime_utcnow w);
  match jwt_decode lib now token (SECRET_KEY lib) [ALGORITHM lib] with
  | Ok payload =>
      match sub payload with
      | Some name => if decide (name = "") then mret None else mret (Some name)
      | None => mret None
      end
  | Raise e => if is_JWTError e then mret None else site_raise e
  end.

(** [main.get_current_user], from the bearer token on. *)
Definition get_current_user (lib : AuthLib) (w : World) (token : string)
  : SiteM User.t :=
  name ← verify_token lib w token;
  match name with
  | None => site_raise (HTTPException 401 "Invalid token")
  | Some name =>
      found ← get_user name;
      match found with
      | None => site_raise (HTTPException 404 "User not found")
      | Some d => mret (UserDoc.user d)
      end
  end.

(** [main.register] *)
Definition register (lib : AuthLib) (w : World) (user : UserCreate.t)
  : SiteM (list (string * string)) :=
  taken ← get_user (UserCreate.username user);
  match taken with
  | Some _ => site_raise (HTTPException 400 "Username already exists")
  | None =>
      hashed_password ← get_password_hash lib (UserCreate.password user);
      create_user w (UserCreate.username user) hashed_password;;
      mret [("message", "User registered successfully")]
  end.

(** [main.login] *)
Definition login (lib : AuthLib) (w : World) (form_data : Form.t)
  : SiteM (list (string * string)) :=
  found ← get_user (Form.username form_data);
  accepted ← match found with
             | None => mret false
             | Some d =>
                 verify_password lib (Form.password form_data)
                   (User.hashed_password (UserDoc.user d))
             end;
  match found, accepted with
  | Some d, true =>
      access_token ← create_access_token lib w
                       {| sub := Some (User.username (UserDoc.user d)); exp := None |};
      mret [("access_token", access_token); ("token_type", "bearer")]
  | _, _ => site_raise (HTTPException 401 "Incorrect username or password")
  end.

(** An endpoint declared with [current_user: dict = Depends(get_current_user)]. *)
Definition with_current_user {A : Type} (lib : AuthLib) (w : World) (token : string)
    (endpoint : User.t -> M A) : SiteM A :=
  current_user ← get_current_user lib w token;
  on_app (endpoint current_user).

(** The user names of the accounts. *)
Definition usernames (x : Site) : list string :=
  (fun d => User.username (UserDoc.user d)) <$> users x.

(** A library for running the definitions: a hash is the password in
    brackets, a token is the subject after ["jwt."], good for an hour. *)
Definition demo_auth : AuthLib :=
  {| SECRET_KEY := Some "secret"; ALGORITHM := Some "HS256";
     pwd_context_hash := fun _ p => Ok ("[" +:+ p +:+ "]");
     pwd_context_verify := fun p h => Ok (String.eqb h ("[" +:+ p +:+ "]"));
     jwt_encode := fun payload _ _ => Ok ("jwt." +:+ default "" (sub payload));
     jwt_decode := fun now token _ _ =>
       if String.prefix "jwt." token
       then Ok {| sub := Some (String.substring 4 (String.length token - 4) token);
                  exp := Some (now + 1)%Z |}
       else Raise (LibraryError "JWTError" "Not enough segments") |}.

Definition invalid_credentials : Exn :=
  HTTPException 401 "Incorrect username or password".

(** The site after one more reading of the clock. *)
Definition tick (x : Site) : Site :=
  {| app := set_clock_reads (S (clock_reads (app x))) (app x);
     users := users x; hashes_made := hashes_made x |}.

Definition demo_site : Site :=
  {| app := demo_state;
     users := [ {| UserDoc._id := 1%N; UserDoc.user := bob;
                   UserDoc.created_at := 1680000000 |} ];
     hashes_made := 1 |}.

(** Carol has an account whose stored hash [demo_auth] accepts for the
    password ["pw"]. *)
Definition carol : User.t :=
  {| User.username := "carol"; User.hashed_password := "[pw]" |}.

Definition carol_site : Site :=
  {| app := demo_state;
     users := [ {| UserDoc._id := 2%N; UserDoc.user := carol;
                   UserDoc.created_at := 1680000000 |} ];
     hashes_made := 1 |}.

(** ** The routes of [main.py], as FastAPI calls them *)

(** [OAuth2PasswordRequestForm], which FastAPI resolves before it calls
    [login]: [username] and [password] are required form fields, and a
    request in which one of them is missing or empty is answered with 422
    by FastAPI, without [login] being called. *)
Definition OAuth2PasswordRequestForm (username password : string) : Result Form.t :=
  if decide (username = "" ∨ password = "") then
    Raise (LibraryError "RequestValidationError" "Field required")
  else Ok {| Form.username := username; Form.password := password |}.

(** [oauth2_scheme = OAuth2PasswordBearer(tokenUrl="token")]: the token
    of the request's [Authorization: Bearer] header; a request without
    one is answered with 401 before [get_current_user] is called. *)
Definition oauth2_scheme (authorization : option string) : Result string :=
  match authorization with
  | Some token => Ok token
  | None => Raise (HTTPException 401 "Not authenticated")
  end.

(** A route declared with [Depends(get_current_user)], which itself
    depends on [oauth2_scheme]. *)
Definition authenticated {A : Type} (lib : AuthLib) (w : World)
    (authorization : option string) (endpoint : User.t -> M A) : SiteM A :=
  match oauth2_scheme authorization with
  | Ok token => with_current_user lib w token endpoint
  | Raise e => site_raise e
  end.

(** The five routes, with what a request to each carries. *)
Inductive Call : Type :=
| PostRegister (user : UserCreate.t)
| PostToken (username password : string)
| GetConversations (authorization : option string)
| GetConversation (authorization : option string) (conversation_id : string)
| PostChat (authorization : option string) (request : ChatRequest).

Inductive Reply : Type :=
| Registered (body : list (string * string))
| Issued (body : list (string * string))
| Listed (body : list Conversation.t)
| Opened (body : list (string * list Message))
| Answered (body : list (string * string)).

Definition call (lib : AuthLib) (w : World) (c : Call) : SiteM Reply :=
  match c with
  | PostRegister user =>
      body ← register lib w user; mret (Registered body)
  | PostToken username password =>
      match OAuth2PasswordRequestForm username password with
      | Ok form_data => body ← login lib w form_data; mret (Issued body)
      | Raise e => site_raise e
      end
  | GetConversations authorization =>
      body ← authenticated lib w authorization get_conversations; mret (Listed body)
  | GetConversation authorization conversation_id =>
      body ← authenticated lib w authorization (get_messages conversation_id);
      mret (Opened body)
  | PostChat authorization request =>
      body ← authenticated lib w authorization (chat_endpoint w request);
      mret (Answered body)
  end.

(** The requests of a run of the service, one after the other. *)
Fixpoint run (lib : AuthLib) (w : World) (calls : list Call) (x : Site)
  : Site * list (Result Reply) :=
  match calls with
  | [] => (x, [])
  | c :: rest =>
      let '(x1, r) := call lib w c x in
      let '(x2, rs) := run lib w rest x1 in
      (x2, r :: rs)
  end.

(** The number of requests to [/chat]. *)
Fixpoint chat_calls (calls : list Call) : nat :=
  match calls with
  | [] => 0
  | PostChat _ _ :: rest => S (chat_calls rest)
  | _ :: rest => chat_calls rest
  end.

(** ** [app.py]: the Streamlit client *)

Module Ui.
(** A message as the client keeps it: the dictionaries it builds have
    ["role"] and ["content"], those of the server a ["timestamp"] too. *)
Record Message : Type := { role : string; content : string; timestamp : option Z }.

(** The values [st.session_state] holds. *)
Inductive Val : Type :=
| VNone
| VStr (s : string)
| VMessages (l : list Message)
| VConversations (l : list Conversation.t).

(** The body of an error response: JSON with or without ["detail"], or
    not JSON at all. *)
Inductive Body : Type :=
| Json (detail : option string)
| NotJson.

(** A request made with [requests] that fails: a 4xx or 5xx response,
    for which [raise_for_status] raises an exception carrying the
    response, or an exception without response.  [msg] is the text of the
    exception. *)
Inductive Failure : Type :=
| Refused (msg : string) (body : Body)
| Unreachable (msg : string).

(** How a request ends: with a 2xx response and the JSON of the server's
    endpoint, or with a failure. *)
Inductive Outcome (A : Type) : Type :=
| Replied (json : A)
| Failed (f : Failure).
Arguments Replied {A} json.
Arguments Failed {A} f.

Definition failure_msg (f : Failure) : string :=
  match f with
  | Refused msg _ => msg
  | Unreachable msg => msg
  end.

(** The JSON of an answer of [/chat]. *)
Record ChatReply : Type := { response : string; conversation_id : string }.
End Ui.

(** The server as the client sees it. *)
Record Network : Type := {
  (** [requests.get(f"{API_URL}/conversations", headers=...)] *)
  http_get_conversations : list (string * string) -> Ui.Outcome (list Conversation.t);
  (** [requests.get(f"{API_URL}/conversations/{conversation_id}", headers=...)];
      the ["messages"] of the JSON, if it has any *)
  http_get_messages :
    string -> list (string * string) -> Ui.Outcome (option (list Ui.Message));
  (** [requests.post(f"{API_URL}/token", data=...)]; the ["access_token"]
      of the JSON *)
  http_post_token : string -> string -> Ui.Outcome string;
  (** [requests.post(f"{API_URL}/register", json=...)] *)
  http_post_register : string -> string -> Ui.Outcome unit;
  (** [requests.post(f"{API_URL}/chat", json=payload, headers=...)] *)
  http_post_chat :
    string -> Ui.Val -> list (string * string) -> Ui.Outcome Ui.ChatReply;
}.

(** The client: [st.session_state], and what [st.error] and
    [st.success] have shown. *)
Record Screen : Type := {
  session : gmap string Ui.Val;
  shown : list (string * string);
}.

Definition UiM (A : Type) : Type := Screen -> Screen * Result A.

Global Instance UiM_ret : MRet UiM := fun A a x => (x, Ok a).

Global Instance UiM_bind : MBind UiM := fun A B f c x =>
  match c x with
  | (x', Ok a) => f a x'
  | (x', Raise e) => (x', Raise e)
  end.

Definition ui_raise {A : Type} (e : Exn) : UiM A := fun x => (x, Raise e).

(** The [AttributeError] Streamlit raises for a key the session does
    not have. *)
Definition attribute_error (key : string) : Exn :=
  LibraryError "AttributeError"
    ("st.session_state has no attribute " +:+ dquote +:+ key +:+ dquote +:+
     ". Did you forget to initialize it? More info: " +:+
     "https://docs.streamlit.io/develop/concepts/architecture/session-state#initialization").

(** [st.session_state.<key>] *)
Definition session_get (key : string) : UiM Ui.Val :=
  fun x =>
    match session x !! key with
    | Some v => (x, Ok v)
    | None => (x, Raise (attribute_error key))
    end.

(** [st.session_state.<key> = v] *)
Definition session_set (key : string) (v : Ui.Val) : UiM unit :=
  fun x => ({| session := <[key := v]> (session x); shown := shown x |}, Ok tt).

(** [st.error(text)] and [st.success(text)] *)
Definition st_error (text : string) : UiM unit :=
  fun x => ({| session := session x; shown := shown x ++ [("error", text)] |}, Ok tt).

Definition st_success (text : string) : UiM unit :=
  fun x => ({| session := session x; shown := shown x ++ [("success", text)] |}, Ok tt).

(** [st.rerun()] leaves the script by raising. *)
Definition st_rerun {A : Type} : UiM A :=
  ui_raise (LibraryError "RerunException" "").

(** The truth value of a session value. *)
Definition val_truthy (v : Ui.Val) : bool :=
  match v with
  | Ui.VNone => false
  | Ui.VStr s => negb (String.eqb s "")
  | Ui.VMessages l => negb (bool_decide (l = []))
  | Ui.VConversations l => negb (bool_decide (l = []))
  end.

(** [str(v)] inside an f-string, for the values a token can be. *)
Definition val_str (v : Ui.Val) : string :=
  match v with
  | Ui.VStr s => s
  | _ => "None"
  end.

Definition defaults : list (string * Ui.Val) :=
  [ ("token", Ui.VNone); ("username", Ui.VNone); ("messages", Ui.VMessages []);
    ("conversations", Ui.VConversations []); ("current_conversation_id", Ui.VNone) ].

(** [app.init_session_state]: the loop over [defaults.items()]. *)
Fixpoint init_from (items : list (string * Ui.Val)) (sess : gmap string Ui.Val)
  : gmap string Ui.Val :=
  match items with
  | [] => sess
  | (key, value) :: rest =>
      init_from rest (match sess !! key with
                      | None => <[key := value]> sess
                      | Some _ => sess
                      end)
  end.

Definition init_session_state : UiM unit :=
  fun x => ({| session := init_from defaults (session x); shown := shown x |}, Ok tt).

(** [app.new_chat_callback] *)
Definition new_chat_callback : UiM unit :=
  session_set "messages" (Ui.VMessages []);;
  session_set "current_conversation_id" Ui.VNone.

(** [app.get_auth_headers] *)
Definition get_auth_headers : UiM (list (string * string)) :=
  token ← session_get "token";
  if val_truthy token then
    token ← session_get "token";
    mret [("Authorization", "Bearer " +:+ val_str token)]
  else mret [].

(** [app.select_conversation_callback] *)
Definition select_conversation_callback (net : Network) (conversation_id : string)
  : UiM unit :=
  headers ← get_auth_headers;
  match http_get_messages net conversation_id headers with
  | Ui.Replied json =>
      session_set "messages" (Ui.VMessages (default [] json));;
      session_set "current_conversation_id" (Ui.VStr conversation_id)
  | Ui.Failed _ => st_error "Could not load chat history."
  end.

(** [st.session_state.messages.append(m)] *)
Definition append_message (m : Ui.Message) : UiM unit :=
  messages ← session_get "messages";
  match messages with
  | Ui.VMessages l => session_set "messages" (Ui.VMessages (l ++ [m]))
  | _ => ui_raise (LibraryError "AttributeError" "object has no attribute 'append'")
  end.

(** The block of [show_chat_view] run when the user sends [prompt]. *)
Definition send_prompt (net : Network) (prompt : string) : UiM unit :=
  append_message {| Ui.role := "user"; Ui.content := prompt; Ui.timestamp := None |};;
  current ← session_get "current_conversation_id";
  headers ← get_auth_headers;
  match http_post_chat net prompt current headers with
  | Ui.Replied data =>
      append_message {| Ui.role := "assistant"; Ui.content := Ui.response data;
                        Ui.timestamp := None |};;
      current ← session_get "current_conversation_id";
      match current with
      | Ui.VNone =>
          session_set "current_conversation_id" (Ui.VStr (Ui.conversation_id data))
      | _ => mret tt
      end
  | Ui.Failed f => st_error ("Error: " +:+ Ui.failure_msg f)
  end;;
  st_rerun.

(** [e.response.json().get('detail', 'Connection Error')] in the handlers
    of [show_auth_view]. *)
Definition failure_detail (f : Ui.Failure) : Result string :=
  match f with
  | Ui.Refused _ (Ui.Json (Some detail)) => Ok detail
  | Ui.Refused _ (Ui.Json None) => Ok "Connection Error"
  | Ui.Refused _ Ui.NotJson =>
      Raise (LibraryError "JSONDecodeError" "Expecting value: line 1 column 1 (char 0)")
  | Ui.Unreachable _ =>
      Raise (LibraryError "AttributeError" "'NoneType' object has no attribute 'json'")
  end.

(** The login branch of [show_auth_view], when the form is submitted. *)
Definition submit_login (net : Network) (username password : string) : UiM unit :=
  match http_post_token net username password with
  | Ui.Replied access_token =>
      session_set "token" (Ui.VStr access_token);;
      session_set "username" (Ui.VStr username);;
      st_rerun
  | Ui.Failed f =>
      match failure_detail f with
      | Ok detail => st_error ("Login failed: " +:+ detail)
      | Raise e => ui_raise e
      end
  end.

(** The registration branch of [show_auth_view]. *)
Definition submit_register (net : Network) (username password : string) : UiM unit :=
  match http_post_register net username password with
  | Ui.Replied _ => st_success "Registration successful! Please login."
  | Ui.Failed f =>
      match failure_detail f with
      | Ok detail => st_error ("Registration failed: " +:+ detail)
      | Raise e => ui_raise e
      end
  end.

(** The logout button of [show_chat_view]. *)
Definition logout : UiM unit :=
  (fun x => ({| session := ∅; shown := shown x |}, Ok tt));;
  st_rerun.

(** The block of [show_chat_view] that refreshes the list of conversations. *)
Definition refresh_conversations (net : Network) : UiM unit :=
  headers ← get_auth_headers;
  match http_get_conversations net headers with
  | Ui.Replied json => session_set "conversations" (Ui.VConversations json)
  | Ui.Failed _ => session_set "conversations" (Ui.VConversations [])
  end.

(** The keys [init_session_state] provides. *)
Definition default_keys : list string := fst <$> defaults.

(** A network that answers every chat but ["fail"] with the same text
    under the conversation id ["0000000000000000000003e8"], lets alice
    log in, refuses bob, and is unreachable for anybody else. *)
Definition demo_network : Network :=
  {| http_get_conversations := fun _ => Ui.Failed (Ui.Unreachable "Connection refused");
     http_get_messages := fun _ _ =>
       Ui.Failed (Ui.Refused "404 Client Error: Not Found"
                    (Ui.Json (Some "Conversation not found")));
     http_post_token := fun name _ =>
       if String.eqb name "alice" then Ui.Replied "jwt.alice"
       else if String.eqb name "bob"
       then Ui.Failed (Ui.Refused "401 Client Error: Unauthorized"
                         (Ui.Json (Some "Incorrect username or password")))
       else Ui.Failed (Ui.Unreachable "Connection refused");
     http_post_register := fun _ _ => Ui.Failed (Ui.Refused "500 Server Error" Ui.NotJson);
     http_post_chat := fun prompt _ _ =>
       if String.eqb prompt "fail" then Ui.Failed (Ui.Unreachable "Connection refused")
       else Ui.Replied {| Ui.response := "1. Rest. 2. Drink fluids.";
                          Ui.conversation_id := "0000000000000000000003e8" |} |}.

(** A logged-in client that has not chatted yet. *)
Definition demo_screen : Screen :=
  {| session := <["token" := Ui.VStr "jwt.alice"]>
                  (<["username" := Ui.VStr "alice"]> (init_from defaults ∅));
     shown := [] |}.

(** The session holds what the code expects under each of its keys. *)
Definition well_typed (sess : gmap string Ui.Val) : Prop :=
  (∃ v, sess !! "token" = Some v ∧ (v = Ui.VNone ∨ ∃ t, v = Ui.VStr t))
  ∧ (∃ v, sess !! "username" = Some v ∧ (v = Ui.VNone ∨ ∃ t, v = Ui.VStr t))
  ∧ (∃ l, sess !! "messages" = Some (Ui.VMessages l))
  ∧ (∃ l, sess !! "conversations" = Some (Ui.VConversations l))
  ∧ (∃ v, sess !! "current_conversation_id" = Some v
          ∧ (v = Ui.VNone ∨ ∃ t, v = Ui.VStr t)).

(** The headers [get_auth_headers] makes of the token. *)
Definition auth_headers (token : Ui.Val) : list (string * string) :=
  if val_truthy token then [("Authorization", "Bearer " +:+ val_str token)] else [].

Definition rerun : Exn := LibraryError "RerunException" "".

Definition user_says (prompt : string) : Ui.Message :=
  {| Ui.role := "user"; Ui.content := prompt; Ui.timestamp := None |}.

Definition assistant_says (text : string) : Ui.Message :=
  {| Ui.role := "assistant"; Ui.content := text; Ui.timestamp := None |}.

(** The transcript of a session. *)
Definition transcript (x : Screen) : list Ui.Message :=
  match session x !! "messages" with
  | Some (Ui.VMessages l) => l
  | _ => []
  end.

(** The events of the client. *)
Inductive Event : Type :=
| NewChat
| Select (conversation_id : string)
| Refresh
| Send (prompt : string)
| Login (username password : string)
| Register (username password : string).

Definition handle (net : Network) (ev : Event) : UiM unit :=
  match ev with
  | NewChat => new_chat_callback
  | Select cid => select_conversation_callback net cid
  | Refresh => refresh_conversations net
  | Send prompt => send_prompt net prompt
  | Login u p => submit_login net u p
  | Register u p => submit_register net u p
  end.

(** * Theorems *)

(* Keep [simpl] from unfolding the printers and parsers. *)
Local Arguments str_oid : simpl never.
Local Arguments next_object_id : simpl never.
Local Arguments ObjectId : simpl never.
Local Arguments str_take : simpl never.
Local Arguments String.append : simpl never.

(** Reduce the projections of updated states, and nothing else. *)
Ltac state_simpl :=
  cbn [qa_chain conversations stdout model_calls clock_reads ids_made
       set_qa_chain set_conversations set_stdout set_model_calls
       set_clock_reads set_ids_made fst snd].
Tactic Notation "state_simpl" "in" hyp(H) :=
  cbn [qa_chain conversations stdout model_calls clock_reads ids_made
       set_qa_chain set_conversations set_stdout set_model_calls
       set_clock_reads set_ids_made fst snd] in H.

(** ** Facts about the monad and the state *)

Lemma set_stdout_id (s : State) : set_stdout (stdout s ++ []) s = s.
Proof. destruct s; unfold set_stdout; simpl. by rewrite app_nil_r. Qed.

Lemma set_stdout_app (s : State) (l1 l2 : list string) :
  set_stdout (stdout (set_stdout (stdout s ++ l1) s) ++ l2) (set_stdout (stdout s ++ l1) s)
  = set_stdout (stdout s ++ l1 ++ l2) s.
Proof. unfold set_stdout; simpl. by rewrite app_assoc. Qed.

(** ** The credential loop *)

Lemma load_llm_from_skips (w : World) (skipped rest : list (option string)) (s : State) :
  Forall (unusable w) skipped →
  load_llm_from w (skipped ++ rest) s
  = load_llm_from w rest (set_stdout (stdout s ++ key_failure_lines w skipped) s).
Proof.
  intros Hs. revert s. induction Hs as [|key skipped Hkey _ IH]; intros s.
  - simpl. by rewrite set_stdout_id.
  - simpl. destruct key as [k|]; [|apply IH].
    destruct (truthy (Some k)) eqn:Ht; [|apply IH].
    destruct Hkey as [Hf|(k' & e & Hk & He)]; [congruence|].
    injection Hk as <-. unfold ChatOpenAI. rewrite He.
    unfold mbind, M_bind, print. rewrite IH.
    by rewrite set_stdout_app.
Qed.

(** C1. The credential loop of [load_llm] tries the keys in order: it
    returns the client built from the first key that is present and whose
    construction succeeds, after printing one line for each earlier key
    that was rejected; when every key is absent, empty or rejected it
    raises [ValueError] to its caller; and [load_llm] is this loop on the
    primary key followed by the fallback key. *)
Theorem load_llm_first_working_key (w : World) (keys : list (option string)) (s : State) :
  (∀ skipped k rest,
     keys = skipped ++ Some k :: rest →
     Forall (unusable w) skipped →
     k ≠ "" →
     ChatOpenAI_raises w (llm_config k) = None →
     load_llm_from w keys s
     = (set_stdout (stdout s ++ key_failure_lines w skipped) s, Ok (llm_config k)))
  ∧ (Forall (unusable w) keys →
     load_llm_from w keys s
     = (set_stdout (stdout s ++ key_failure_lines w keys) s,
        Raise (ValueError no_llm_message)))
  ∧ load_llm w
    = load_llm_from w [getenv w "PRIMARY_GROQ_API_KEY"; getenv w "FALLBACK_GROQ_API_KEY"].
Proof.
  split; [|split].
  - intros skipped k rest -> Hs Hk Hok.
    rewrite load_llm_from_skips by done. simpl.
    destruct k as [|c k]; [done|].
    unfold ChatOpenAI. by rewrite Hok.
  - intros Hs. rewrite <- (app_nil_r keys) at 1.
    by rewrite load_llm_from_skips.
  - reflexivity.
Qed.

(** With keys [[bad, bad, good]] the loop succeeds with [good] and records
    the two rejections; with [[bad, bad]] it raises. *)
Lemma load_llm_first_working_key_witness :
  load_llm_from demo_world [Some "bad-1"; Some "bad-2"; Some "good-key"] (initial_state ∅)
  = (set_stdout [ "GROQ API key failed: invalid api key";
                  "GROQ API key failed: invalid api key" ] (initial_state ∅),
     Ok (llm_config "good-key"))
  ∧ load_llm_from demo_world [Some "bad-1"; Some "bad-2"] (initial_state ∅)
    = (set_stdout [ "GROQ API key failed: invalid api key";
                    "GROQ API key failed: invalid api key" ] (initial_state ∅),
       Raise (ValueError no_llm_message)).
Proof.
  assert (Hbad : Forall (unusable demo_world) [Some "bad-1"; Some "bad-2"]).
  { apply List.Forall_cons; [|apply List.Forall_cons; [|apply List.Forall_nil]].
    - right. exists "bad-1", (LibraryError "AuthenticationError" "invalid api key").
      split; reflexivity.
    - right. exists "bad-2", (LibraryError "AuthenticationError" "invalid api key").
      split; reflexivity. }
  split.
  - exact (proj1 (load_llm_first_working_key demo_world
                    [Some "bad-1"; Some "bad-2"; Some "good-key"] (initial_state ∅))
                 [Some "bad-1"; Some "bad-2"] "good-key" [] eq_refl Hbad
                 ltac:(discriminate) eq_refl).
  - exact (proj1 (proj2 (load_llm_first_working_key demo_world
                    [Some "bad-1"; Some "bad-2"] (initial_state ∅))) Hbad).
Defined.

(** ** ObjectIds print and parse back *)

Lemma hex_value_digit (d : N) : (d < 16)%N → hex_value (hex_digit d) = Some d.
Proof.
  intros Hd.
  assert (H : (d = 0 ∨ d = 1 ∨ d = 2 ∨ d = 3 ∨ d = 4 ∨ d = 5 ∨ d = 6 ∨ d = 7 ∨
              d = 8 ∨ d = 9 ∨ d = 10 ∨ d = 11 ∨ d = 12 ∨ d = 13 ∨ d = 14 ∨
              d = 15)%N) by lia.
  repeat (destruct H as [->|H]; [reflexivity|]). by subst.
Qed.

Lemma hex_digit_plain (d : N) :
  (d < 16)%N →
  is_continuation (hex_digit d) = false ∧ Py_ISSPACE (hex_digit d) = false.
Proof.
  intros Hd.
  assert (H : (d = 0 ∨ d = 1 ∨ d = 2 ∨ d = 3 ∨ d = 4 ∨ d = 5 ∨ d = 6 ∨ d = 7 ∨
              d = 8 ∨ d = 9 ∨ d = 10 ∨ d = 11 ∨ d = 12 ∨ d = 13 ∨ d = 14 ∨
              d = 15)%N) by lia.
  repeat (destruct H as [->|H]; [by split|]). by subst.
Qed.

Lemma len_hex_of (digits : nat) (n : N) (acc : string) :
  len (hex_of digits n acc) = digits + len acc.
Proof.
  revert n acc. induction digits as [|d IH]; intros n acc; [done|].
  change (hex_of (S d) n acc) with (hex_of d (n / 16)%N (String (hex_digit (n mod 16)%N) acc)).
  rewrite IH. cbn [len].
  destruct (hex_digit_plain (n mod 16)%N) as [-> _]; [apply N.mod_lt; lia|]. lia.
Qed.

Lemma bytes_fromhex_pair (hi lo : N) (rest : string) :
  (hi < 16)%N → (lo < 16)%N →
  bytes_fromhex (String (hex_digit hi) (String (hex_digit lo) rest))
  = cons (16 * hi + lo)%N <$> bytes_fromhex rest.
Proof.
  intros Hhi Hlo. cbn [bytes_fromhex].
  destruct (hex_digit_plain hi Hhi) as [_ ->].
  by rewrite !hex_value_digit.
Qed.

(** Printing [2 * k] digits and reading them with [bytes.fromhex] gives
    the [k] lowest bytes of the number. *)
Lemma bytes_fromhex_hex_of (k : nat) (n : N) (acc : string) :
  ∃ bs,
    length bs = k
    ∧ (∀ a, foldl (fun acc b => (256 * acc + b)%N) a bs
            = (a * 256 ^ N.of_nat k + n mod 256 ^ N.of_nat k)%N)
    ∧ bytes_fromhex (hex_of (2 * k) n acc) = (bs ++.) <$> bytes_fromhex acc.
Proof.
  revert n acc. induction k as [|k IH]; intros n acc.
  - exists []. split; [done|]. split.
    + intros a. cbn [foldl]. change (256 ^ N.of_nat 0)%N with 1%N.
      rewrite N.mod_1_r. lia.
    + change (hex_of (2 * 0) n acc) with acc. by destruct (bytes_fromhex acc).
  - replace (2 * S k) with (S (S (2 * k))) by lia.
    change (hex_of (S (S (2 * k))) n acc)
      with (hex_of (2 * k) (n / 16 / 16)%N
              (String (hex_digit ((n / 16) mod 16)%N)
                 (String (hex_digit (n mod 16)%N) acc))).
    destruct (IH (n / 16 / 16)%N
                (String (hex_digit ((n / 16) mod 16)%N)
                   (String (hex_digit (n mod 16)%N) acc)))
      as (bs & Hlen & Hval & Hread).
    exists (bs ++ [(16 * ((n / 16) mod 16) + n mod 16)%N]). split; [|split].
    + rewrite length_app, Hlen. simpl. lia.
    + intros a. rewrite foldl_app, Hval. cbn [foldl].
      rewrite Nat2N.inj_succ, N.pow_succ_r'.
      rewrite (N.Div0.mod_mul_r n 256 (256 ^ N.of_nat k)).
      rewrite N.Div0.div_div.
      change (16 * 16)%N with 256%N.
      assert (Hmod : (16 * ((n / 16) mod 16) + n mod 16 = n mod 256)%N).
      { change 256%N with (16 * 16)%N. rewrite (N.Div0.mod_mul_r n 16 16). lia. }
      rewrite Hmod. lia.
    + rewrite Hread, bytes_fromhex_pair by (apply N.mod_lt; lia).
      destruct (bytes_fromhex acc) as [rest|]; [|done].
      cbn [fmap option_fmap option_map]. by rewrite <- app_assoc.
Qed.

Lemma ObjectId_str_oid (oid : N) : (oid < 2 ^ 96)%N → ObjectId (str_oid oid) = Ok oid.
Proof.
  intros Hoid. unfold ObjectId, str_oid.
  rewrite len_hex_of. cbn [len Nat.add Nat.eqb].
  destruct (bytes_fromhex_hex_of 12 oid "") as (bs & Hlen & Hval & Hread).
  change (2 * 12) with 24 in Hread. rewrite Hread.
  cbn [bytes_fromhex fmap option_fmap option_map]. rewrite app_nil_r, Hlen.
  cbn [Nat.eqb]. unfold N_of_bytes. rewrite Hval.
  change (256 ^ N.of_nat 12)%N with (2 ^ 96)%N.
  by rewrite N.mod_small.
Qed.

Lemma ObjectId_truthy (cid : string) (oid : N) :
  ObjectId cid = Ok oid → truthy (Some cid) = true.
Proof.
  unfold ObjectId. destruct cid as [|c cid]; [|done].
  simpl. discriminate.
Qed.

(** ** Reading a conversation *)

Lemma get_conversation_by_id_unfold (cid user : string) (s : State) :
  get_conversation_by_id cid user s
  = match ObjectId cid with
    | Ok oid =>
        (s, Ok (match conversations s !! oid with
                | Some d =>
                    if decide (username d = user)
                    then Some {| Serialized.id := str_oid oid; Serialized.doc := d |}
                    else None
                | None => None
                end))
    | Raise e => (s, Raise e)
    end.
Proof.
  unfold get_conversation_by_id, mbind, M_bind, lift_result.
  destruct (ObjectId cid) as [oid|e]; [|done].
  unfold find_one_by_id_and_username, mret, M_ret.
  destruct (conversations s !! oid) as [d|]; [|done].
  by destruct (decide (username d = user)).
Qed.

(** C8. [get_messages] answers with a conversation's messages only when
    the conversation stored under the requested id belongs to the
    requesting user; for a conversation that belongs to somebody else the
    lookup finds nothing and the endpoint raises 404 "Conversation not
    found", returning no message and leaving the state as it was. *)
Theorem get_messages_only_for_owner (cid : string) (user : User.t) (s : State) :
  (∀ s' body,
     get_messages cid user s = (s', Ok body) →
     ∃ oid d,
       ObjectId cid = Ok oid ∧ conversations s !! oid = Some d ∧
       username d = User.username user ∧
       body = [("messages", messages d)] ∧ s' = s)
  ∧ (∀ oid d,
       ObjectId cid = Ok oid →
       conversations s !! oid = Some d →
       username d ≠ User.username user →
       get_conversation_by_id cid (User.username user) s = (s, Ok None) ∧
       get_messages cid user s
       = (s, Raise (HTTPException 404 "Conversation not found"))).
Proof.
  split.
  - intros s' body. unfold get_messages, mbind, M_bind.
    rewrite get_conversation_by_id_unfold.
    destruct (ObjectId cid) as [oid|e]; [|discriminate].
    destruct (conversations s !! oid) as [d|] eqn:Hd; [|discriminate].
    destruct (decide (username d = User.username user)) as [Hu|Hu]; [|discriminate].
    unfold mret, M_ret. simpl. intros [= <- <-].
    by exists oid, d.
  - intros oid d Hoid Hd Hu.
    assert (Hget : get_conversation_by_id cid (User.username user) s = (s, Ok None)).
    { rewrite get_conversation_by_id_unfold, Hoid, Hd.
      by destruct (decide (username d = User.username user)). }
    split; [done|].
    unfold get_messages, mbind, M_bind. by rewrite Hget.
Qed.

(** Bob reads his conversation; alice, asking for the same id, gets 404. *)
Lemma get_messages_only_for_owner_witness :
  (∃ oid d,
     ObjectId "0000000000000000000000ff" = Ok oid ∧
     conversations (initial_state demo_db) !! oid = Some d ∧
     username d = "bob" ∧
     [("messages", messages bobs_conversation)] = [("messages", messages d)] ∧
     initial_state demo_db = initial_state demo_db)
  ∧ get_messages "0000000000000000000000ff" alice (initial_state demo_db)
    = (initial_state demo_db, Raise (HTTPException 404 "Conversation not found")).
Proof.
  split.
  - exact (proj1 (get_messages_only_for_owner "0000000000000000000000ff" bob
                    (initial_state demo_db))
                 (initial_state demo_db) [("messages", messages bobs_conversation)]
                 eq_refl).
  - exact (proj2 (proj2 (get_messages_only_for_owner "0000000000000000000000ff" alice
                           (initial_state demo_db))
                        255%N bobs_conversation eq_refl eq_refl ltac:(discriminate))).
Defined.

(** ** What the computations leave untouched *)

Section Preserves.
Context {X : Type} (f : State → X).

Lemma preserves_ret {A} (a : A) : preserves f (mret a).
Proof. by intros s. Qed.

Lemma preserves_raise {A} (e : Exn) : preserves f (raise (A := A) e).
Proof. by intros s. Qed.

Lemma preserves_lift_result {A} (r : Result A) : preserves f (lift_result r).
Proof. by intros s. Qed.

Lemma preserves_bind {A B} (c : M A) (k : A → M B) :
  preserves f c → (∀ a, preserves f (k a)) → preserves f (c ≫= k).
Proof.
  intros Hc Hk s. unfold mbind, M_bind.
  specialize (Hc s). destruct (c s) as [s1 [a|e]]; simpl in *; [|done].
  by rewrite Hk.
Qed.

Lemma preserves_try_except {A} (c : M A) (h : Exn → M A) :
  preserves f c → (∀ e, preserves f (h e)) → preserves f (try_except c h).
Proof.
  intros Hc Hh s. unfold try_except.
  specialize (Hc s). destruct (c s) as [s1 [a|e]]; simpl in *; [done|].
  by rewrite Hh.
Qed.
End Preserves.

Lemma get_conversation_by_id_state (cid user : string) (s : State) :
  (get_conversation_by_id cid user s).1 = s.
Proof.
  rewrite get_conversation_by_id_unfold.
  by destruct (ObjectId cid).
Qed.

Lemma get_messages_state (cid : string) (user : User.t) (s : State) :
  (get_messages cid user s).1 = s.
Proof.
  unfold get_messages, mbind, M_bind.
  pose proof (get_conversation_by_id_state cid (User.username user) s) as H.
  destruct (get_conversation_by_id cid (User.username user) s) as [s1 [[c|]|e]];
    simpl in *; by subst.
Qed.

Lemma add_message_preserves {X} (f : State → X) (cid : string) (m : Message) :
  (∀ db s, f (set_conversations db s) = f s) →
  preserves f (add_message_to_conversation cid m).
Proof.
  intros Hf. apply preserves_bind; [apply preserves_lift_result|].
  intros oid s. apply Hf.
Qed.

Lemma create_conversation_preserves {X} (f : State → X) (w : World) (user : string)
    (m : Message) :
  (∀ db s, f (set_conversations db s) = f s) →
  (∀ n s, f (set_clock_reads n s) = f s) →
  (∀ n s, f (set_ids_made n s) = f s) →
  preserves f (create_conversation w user m).
Proof.
  intros Hdb Hclock Hids. apply preserves_bind.
  - intros s. apply Hclock.
  - intros now s. unfold insert_one.
    destruct (conversations s !! _); simpl; by rewrite ?Hdb, ?Hids.
Qed.

Lemma chat_body_unfold (w : World) (chain : RetrievalQA) (request : ChatRequest)
    (user : User.t) :
  chat_body w chain request user
  = RetrievalQA_invoke w chain (prompt request) ≫= after_invoke w request user.
Proof. reflexivity. Qed.

Lemma after_invoke_preserves {X} (f : State → X) (w : World) (request : ChatRequest)
    (user : User.t) (out : ChainOutput) :
  (∀ db s, f (set_conversations db s) = f s) →
  (∀ n s, f (set_clock_reads n s) = f s) →
  (∀ n s, f (set_ids_made n s) = f s) →
  preserves f (after_invoke w request user out).
Proof.
  intros Hdb Hclock Hids. unfold after_invoke.
  apply preserves_bind; [intros s; apply Hclock|]. intros t1.
  apply preserves_bind; [intros s; apply Hclock|]. intros t2.
  assert (Hstart : ∀ m1 m2, preserves f
            (start_conversation w (User.username user) (result out) m1 m2)).
  { intros m1 m2. unfold start_conversation.
    apply preserves_bind; [by apply create_conversation_preserves|]. intros oid.
    apply preserves_bind; [by apply add_message_preserves|]. intros _.
    apply preserves_ret. }
  destruct (conversation_id request) as [cid|]; [|apply Hstart].
  destruct (truthy (Some cid)); [|apply Hstart].
  apply preserves_bind; [by apply add_message_preserves|]. intros _.
  apply preserves_bind; [by apply add_message_preserves|]. intros _.
  apply preserves_ret.
Qed.

Lemma RetrievalQA_invoke_unfold (w : World) (chain : RetrievalQA) (q : string) (s : State) :
  RetrievalQA_invoke w chain q s
  = match retrieve w (retriever_db chain) (retriever_k chain) q with
    | Ok docs =>
        let s1 := set_model_calls (model_calls s ++ [prompt_for chain docs q]) s in
        match llm_call w (chain_llm chain) (length (model_calls s)) (prompt_for chain docs q) with
        | Ok answer =>
            (s1, Ok {| query := q; result := answer;
                       source_documents :=
                         if return_source_documents chain then Some docs else None |})
        | Raise e => (s1, Raise e)
        end
    | Raise e => (s, Raise e)
    end.
Proof.
  unfold RetrievalQA_invoke, mbind, M_bind, lift_result.
  destruct (retrieve _ _ _ _) as [docs|e]; [|done].
  unfold complete, prompt_for. simpl.
  by destruct (llm_call _ _ _ _).
Qed.

Lemma RetrievalQA_invoke_preserves {X} (f : State → X) (w : World)
    (chain : RetrievalQA) (q : string) :
  (∀ l s, f (set_model_calls l s) = f s) →
  preserves f (RetrievalQA_invoke w chain q).
Proof.
  intros Hf s. rewrite RetrievalQA_invoke_unfold.
  destruct (retrieve _ _ _ _) as [docs|e]; [|done].
  simpl. destruct (llm_call _ _ _ _); simpl; apply Hf.
Qed.

(** ** Writing a chat turn to the database *)

Lemma alter_found {A} (g : A → A) (m : gmap N A) (i : N) (x : A) :
  m !! i = Some x → alter g i m = <[i := g x]> m.
Proof.
  intros Hx. rewrite <- (insert_id m i x Hx) at 1. apply alter_insert_eq.
Qed.

Lemma next_object_id_bound (w : World) (s : State) : (next_object_id w s < 2 ^ 96)%N.
Proof. unfold next_object_id. apply N.mod_lt. lia. Qed.

Lemma str_take_cons (n : nat) (c : ascii) (s : string) :
  str_take n (String c s)
  = if is_continuation c then String c (str_take n s)
    else match n with
         | O => EmptyString
         | S n' => String c (str_take n' s)
         end.
Proof. reflexivity. Qed.

Lemma str_take_length (n : nat) (s : string) :
  len (str_take n s) = n `min` len s.
Proof.
  revert n. induction s as [|c s IH]; intros n; [by destruct n|].
  rewrite str_take_cons. cbn [len]. destruct (is_continuation c) eqn:Hc.
  - cbn [len]. by rewrite Hc, IH.
  - destruct n as [|n]; [done|]. cbn [len]. rewrite Hc, IH. lia.
Qed.

Lemma str_take_prefix (n : nat) (s : string) : ∃ rest, s = str_take n s +:+ rest.
Proof.
  revert n. induction s as [|c s IH]; intros n; [by exists ""|].
  rewrite str_take_cons. destruct (is_continuation c).
  - destruct (IH n) as [rest Hrest]. exists rest.
    change (String c s = String c (str_take n s +:+ rest)). by f_equal.
  - destruct n as [|n]; [by exists (String c s)|].
    destruct (IH n) as [rest Hrest]. exists rest.
    change (String c s = String c (str_take n s +:+ rest)). by f_equal.
Qed.

(** C9. A chat request without a conversation id (absent or empty), served
    with the chain loaded and the chain answering, creates a conversation
    under a newly drawn id: its title is the first 50 characters of the
    prompt followed by "...", its messages are the user message and then
    the assistant message, it belongs to the requesting user, and the new
    id, printed, is returned next to the answer. *)
Theorem chat_endpoint_new_conversation (w : World) (request : ChatRequest)
    (user : User.t) (s s1 : State) (chain : RetrievalQA) (out : ChainOutput) :
  qa_chain s = Some chain →
  truthy (conversation_id request) = false →
  RetrievalQA_invoke w chain (prompt request) s = (s1, Ok out) →
  conversations s !! next_object_id w s = None →
  ∃ s',
    chat_endpoint w request user s
    = (s', Ok [("response", result out);
               ("conversation_id", str_oid (next_object_id w s))])
    ∧ conversations s'
      = <[next_object_id w s :=
            {| username := User.username user;
               title := str_take 50 (prompt request) +:+ "...";
               messages :=
                 [ {| role := "user"; content := prompt request;
                      timestamp := utcnow w (clock_reads s) |};
                   {| role := "assistant"; content := result out;
                      timestamp := utcnow w (S (clock_reads s)) |} ];
               created_at := utcnow w (S (S (clock_reads s))) |}]>
          (conversations s)
    ∧ len (str_take 50 (prompt request)) = 50 `min` len (prompt request)
    ∧ ∃ rest, prompt request = str_take 50 (prompt request) +:+ rest.
Proof.
  intros Hchain Hfalsy Hinv Hfresh.
  pose proof (RetrievalQA_invoke_preserves conversations w chain (prompt request)
                ltac:(done) s) as Hdb.
  pose proof (RetrievalQA_invoke_preserves clock_reads w chain (prompt request)
                ltac:(done) s) as Hclock.
  pose proof (RetrievalQA_invoke_preserves ids_made w chain (prompt request)
                ltac:(done) s) as Hids.
  rewrite Hinv in Hdb, Hclock, Hids.
  state_simpl in Hdb. state_simpl in Hclock. state_simpl in Hids.
  assert (Hnext : next_object_id w s1 = next_object_id w s).
  { unfold next_object_id. by rewrite Hids. }
  assert (Hstart : ∀ m1 m2 (t : State),
            conversations t = conversations s → ids_made t = ids_made s →
            ∃ s', start_conversation w (User.username user) (result out) m1 m2 t
                  = (s', Ok [("response", result out);
                             ("conversation_id", str_oid (next_object_id w s))])
                  ∧ conversations s'
                    = <[next_object_id w s :=
                          {| username := User.username user;
                             title := str_take 50 (content m1) +:+ "...";
                             messages := [m1; m2];
                             created_at := utcnow w (clock_reads t) |}]>
                        (conversations s)).
  { intros m1 m2 t Ht Hti.
    assert (Hn : next_object_id w t = next_object_id w s).
    { unfold next_object_id. by rewrite Hti. }
    unfold start_conversation, create_conversation, mbind, M_bind,
      datetime_utcnow, insert_one. state_simpl.
    change (next_object_id w (set_clock_reads (S (clock_reads t)) t))
      with (next_object_id w t).
    rewrite Hn, Ht, Hfresh.
    unfold add_message_to_conversation, mbind, M_bind, lift_result.
    rewrite (ObjectId_str_oid _ (next_object_id_bound w s)).
    unfold update_one_push, mret, M_ret. state_simpl.
    rewrite alter_insert_eq. eexists. split; [reflexivity|]. state_simpl.
    by rewrite ?Ht. }
  unfold chat_endpoint. rewrite Hchain. unfold try_except.
  rewrite chat_body_unfold. unfold mbind at 1, M_bind at 1. rewrite Hinv.
  unfold after_invoke, mbind, M_bind, datetime_utcnow. state_simpl.
  edestruct (Hstart
    {| role := "user"; content := prompt request; timestamp := utcnow w (clock_reads s1) |}
    {| role := "assistant"; content := result out;
       timestamp := utcnow w (S (clock_reads s1)) |}
    (set_clock_reads (S (S (clock_reads s1))) (set_clock_reads (S (clock_reads s1)) s1)))
    as (s' & Hrun & Hconv); [done|done|].
  state_simpl in Hrun. state_simpl in Hconv. rewrite Hclock in Hrun, Hconv.
  exists s'. split; [|split; [done|split; [apply str_take_length|apply str_take_prefix]]].
  destruct (conversation_id request) as [cid|]; [|by rewrite Hclock, Hrun].
  rewrite Hfalsy, Hclock. by rewrite Hrun.
Qed.

(** Alice asks a first question: the conversation is stored under the id
    drawn by the driver, with the title cut at 50 characters, in English
    and in Hindi. *)
Lemma chat_endpoint_new_conversation_witness :
  (∃ s',
     chat_endpoint demo_world fever_request alice demo_state
     = (s', Ok [("response", "1. Rest. 2. Drink fluids.");
                ("conversation_id", "0000000000000000000003e8")])
     ∧ conversations s' !! 1000%N
       = Some {| username := "alice";
                 title := "I have a fever since yesterday evening and a mild ...";
                 messages :=
                   [ {| role := "user"; content := prompt fever_request;
                        timestamp := 1700000000 |};
                     {| role := "assistant"; content := "1. Rest. 2. Drink fluids.";
                        timestamp := 1700000001 |} ];
                 created_at := 1700000002 |})
  ∧ (∃ s',
       chat_endpoint demo_world hindi_request alice demo_state
       = (s', Ok [("response", "1. Rest. 2. Drink fluids.");
                  ("conversation_id", "0000000000000000000003e8")])
       ∧ title <$> conversations s' !! 1000%N
         = Some "मुझे कल शाम से बुखार है और हल्का सिरदर्द भी है, मु..."
       ∧ len (prompt hindi_request) = 69).
Proof.
  assert (H1 : qa_chain demo_state = Some raw_chain) by (vm_compute; reflexivity).
  assert (H4 : conversations demo_state !! next_object_id demo_world demo_state = None)
    by (vm_compute; reflexivity).
  split.
  - assert (H2 : truthy (conversation_id fever_request) = false) by reflexivity.
    assert (H3 : RetrievalQA_invoke demo_world raw_chain (prompt fever_request) demo_state
                 = ((RetrievalQA_invoke demo_world raw_chain (prompt fever_request)
                       demo_state).1,
                    Ok {| query := prompt fever_request;
                          result := "1. Rest. 2. Drink fluids.";
                          source_documents :=
                            Some (snd <$> take 3 (sort_by_distance [9; 0]%Z demo_entries)) |}))
      by (vm_compute; reflexivity).
    destruct (chat_endpoint_new_conversation demo_world fever_request alice demo_state
                _ raw_chain _ H1 H2 H3 H4)
      as (s' & Hrun & Hdb & _).
    exists s'. split.
    + rewrite Hrun. vm_compute. reflexivity.
    + rewrite Hdb. vm_compute. reflexivity.
  - assert (H2 : truthy (conversation_id hindi_request) = false) by reflexivity.
    assert (H3 : RetrievalQA_invoke demo_world raw_chain (prompt hindi_request) demo_state
                 = ((RetrievalQA_invoke demo_world raw_chain (prompt hindi_request)
                       demo_state).1,
                    Ok {| query := prompt hindi_request;
                          result := "1. Rest. 2. Drink fluids.";
                          source_documents :=
                            Some (snd <$> take 3 (sort_by_distance [9; 0]%Z demo_entries)) |}))
      by (vm_compute; reflexivity).
    destruct (chat_endpoint_new_conversation demo_world hindi_request alice demo_state
                _ raw_chain _ H1 H2 H3 H4)
      as (s' & Hrun & Hdb & _).
    exists s'. split; [|split].
    + rewrite Hrun. vm_compute. reflexivity.
    + rewrite Hdb. vm_compute. reflexivity.
    + vm_compute. reflexivity.
Defined.

(** C10. A chat request that names a stored conversation, served with the
    chain loaded and the chain answering, appends exactly two messages to
    that conversation, the user message and then the assistant message;
    the update selects the document by its id alone, so nothing relates
    the conversation's owner to the requesting user. *)
Theorem chat_endpoint_existing_conversation (w : World) (request : ChatRequest)
    (user : User.t) (s s1 : State) (chain : RetrievalQA) (out : ChainOutput)
    (cid : string) (oid : N) (d : ConvDoc) :
  qa_chain s = Some chain →
  conversation_id request = Some cid →
  ObjectId cid = Ok oid →
  conversations s !! oid = Some d →
  RetrievalQA_invoke w chain (prompt request) s = (s1, Ok out) →
  ∃ s',
    chat_endpoint w request user s
    = (s', Ok [("response", result out); ("conversation_id", cid)])
    ∧ conversations s'
      = <[oid :=
            {| username := username d;
               title := title d;
               messages :=
                 messages d ++
                 [ {| role := "user"; content := prompt request;
                      timestamp := utcnow w (clock_reads s) |};
                   {| role := "assistant"; content := result out;
                      timestamp := utcnow w (S (clock_reads s)) |} ];
               created_at := created_at d |}]>
          (conversations s).
Proof.
  intros Hchain Hcid Hoid Hd Hinv.
  pose proof (RetrievalQA_invoke_preserves conversations w chain (prompt request)
                ltac:(done) s) as Hdb.
  pose proof (RetrievalQA_invoke_preserves clock_reads w chain (prompt request)
                ltac:(done) s) as Hclock.
  rewrite Hinv in Hdb, Hclock. state_simpl in Hdb. state_simpl in Hclock.
  unfold chat_endpoint. rewrite Hchain. unfold try_except.
  rewrite chat_body_unfold. unfold mbind at 1, M_bind at 1. rewrite Hinv.
  unfold after_invoke, mbind, M_bind, datetime_utcnow. state_simpl.
  rewrite Hcid, (ObjectId_truthy cid oid Hoid).
  unfold add_message_to_conversation, mbind, M_bind, lift_result.
  rewrite Hoid. unfold update_one_push, mret, M_ret. state_simpl.
  eexists. split; [reflexivity|]. state_simpl.
  rewrite Hdb, Hclock, (alter_found _ _ _ _ Hd), alter_insert_eq.
  unfold push_message. cbn [username title messages created_at].
  by rewrite <- app_assoc.
Qed.

(** Alice posts into bob's conversation: both messages are appended. *)
Lemma chat_endpoint_existing_conversation_witness :
  User.username alice ≠ username bobs_conversation
  ∧ ∃ s',
      chat_endpoint demo_world follow_up_request alice demo_state
      = (s', Ok [("response", "1. Rest. 2. Drink fluids.");
                 ("conversation_id", "0000000000000000000000ff")])
      ∧ (messages <$> conversations s' !! 255%N)
        = Some (messages bobs_conversation ++
                [ {| role := "user"; content := "Is aspirin safe?";
                     timestamp := 1700000000 |};
                  {| role := "assistant"; content := "1. Rest. 2. Drink fluids.";
                     timestamp := 1700000001 |} ])
      ∧ (username <$> conversations s' !! 255%N) = Some "bob".
Proof.
  split; [discriminate|].
  assert (H1 : qa_chain demo_state = Some raw_chain) by (vm_compute; reflexivity).
  assert (H2 : conversation_id follow_up_request = Some "0000000000000000000000ff")
    by reflexivity.
  assert (H3 : ObjectId "0000000000000000000000ff" = Ok 255%N)
    by (vm_compute; reflexivity).
  assert (H4 : conversations demo_state !! 255%N = Some bobs_conversation)
    by (vm_compute; reflexivity).
  assert (H5 : RetrievalQA_invoke demo_world raw_chain (prompt follow_up_request) demo_state
               = ((RetrievalQA_invoke demo_world raw_chain (prompt follow_up_request)
                     demo_state).1,
                  Ok {| query := prompt follow_up_request;
                        result := "1. Rest. 2. Drink fluids.";
                        source_documents :=
                          Some (snd <$> take 3 (sort_by_distance [9; 0]%Z demo_entries)) |}))
    by (vm_compute; reflexivity).
  destruct (chat_endpoint_existing_conversation demo_world follow_up_request alice
              demo_state _ raw_chain _ _ _ _ H1 H2 H3 H4 H5)
    as (s' & Hrun & Hdb).
  exists s'. split; [|split].
  - rewrite Hrun. vm_compute. reflexivity.
  - rewrite Hdb. vm_compute. reflexivity.
  - rewrite Hdb. vm_compute. reflexivity.
Defined.

(** ** Startup *)

Lemma load_llm_from_preserves {X} (f : State → X) (w : World)
    (keys : list (option string)) :
  (∀ l s, f (set_stdout l s) = f s) → preserves f (load_llm_from w keys).
Proof.
  intros Hf. induction keys as [|key keys IH]; intros s; [done|].
  simpl. destruct key as [k|]; [|apply IH].
  destruct (truthy (Some k)); [|apply IH].
  destruct (ChatOpenAI w (llm_config k)); [done|].
  unfold mbind, M_bind, print. by rewrite IH, Hf.
Qed.

Lemma load_resources_unfold (w : World) (s : State) :
  load_resources w s
  = match load_llm w s with
    | (s1, Ok llm) =>
        match HuggingFaceEmbeddings_raises w embedding_model_name with
        | None =>
            match FAISS_load_local w "vectorstore/db_faiss"
                    {| model_name := embedding_model_name |} true with
            | Ok db =>
                (set_stdout (stdout s1 ++ [loaded_message])
                   (set_qa_chain (Some (chain_of llm db)) s1), Ok tt)
            | Raise e => (set_stdout (stdout s1 ++ [failed_message e]) s1, Ok tt)
            end
        | Some e => (set_stdout (stdout s1 ++ [failed_message e]) s1, Ok tt)
        end
    | (s1, Raise e) => (set_stdout (stdout s1 ++ [failed_message e]) s1, Ok tt)
    end.
Proof.
  unfold load_resources, try_except, mbind, M_bind.
  destruct (load_llm w s) as [s1 [llm|e]]; [|done].
  unfold HuggingFaceEmbeddings, lift_result.
  destruct (HuggingFaceEmbeddings_raises w embedding_model_name); [done|].
  by destruct (FAISS_load_local _ _ _ _).
Qed.

Lemma load_resources_Ok (w : World) (s : State) : (load_resources w s).2 = Ok tt.
Proof.
  rewrite load_resources_unfold.
  destruct (load_llm w s) as [s1 [llm|e]]; [|done].
  destruct (HuggingFaceEmbeddings_raises _ _); [done|].
  by destruct (FAISS_load_local _ _ _ _).
Qed.

Lemma load_resources_failure (w : World) (s : State) :
  startup_fails w s →
  ∃ e, qa_chain (load_resources w s).1 = qa_chain s
       ∧ last (stdout (load_resources w s).1) = Some (failed_message e)
       ∧ model_calls (load_resources w s).1 = model_calls s.
Proof.
  intros Hfail. rewrite load_resources_unfold.
  pose proof (load_llm_from_preserves qa_chain w
                [getenv w "PRIMARY_GROQ_API_KEY"; getenv w "FALLBACK_GROQ_API_KEY"]
                ltac:(done) s) as Hqa.
  pose proof (load_llm_from_preserves model_calls w
                [getenv w "PRIMARY_GROQ_API_KEY"; getenv w "FALLBACK_GROQ_API_KEY"]
                ltac:(done) s) as Hcalls.
  fold (load_llm w) in Hqa, Hcalls.
  destruct (load_llm w s) as [s1 [llm|e]] eqn:Hllm; state_simpl in Hqa;
    state_simpl in Hcalls.
  - destruct Hfail as [[e He]|[[e He]|[e He]]].
    + rewrite Hllm in He. discriminate.
    + rewrite He. exists e. state_simpl. by rewrite last_snoc.
    + destruct (HuggingFaceEmbeddings_raises _ _) as [e'|].
      * exists e'. state_simpl. by rewrite last_snoc.
      * rewrite He. exists e. state_simpl. by rewrite last_snoc.
  - exists e. state_simpl. by rewrite last_snoc.
Qed.

Lemma chat_endpoint_unavailable (w : World) (request : ChatRequest) (user : User.t)
    (s : State) :
  qa_chain s = None → chat_endpoint w request user s = (s, Raise unavailable).
Proof. intros H. unfold chat_endpoint. by rewrite H. Qed.

Lemma serve_all_unavailable (w : World) (reqs : list Request) (s : State) :
  qa_chain s = None →
  qa_chain (serve_all w reqs s).1 = None
  ∧ model_calls (serve_all w reqs s).1 = model_calls s
  ∧ ∀ i r, (serve_all w reqs s).2 !! i = Some (ChatResponse r) → r = Raise unavailable.
Proof.
  revert s. induction reqs as [|req reqs IH]; intros s Hs.
  - simpl. split; [done|split; [done|]]. intros i r Hi. by destruct i.
  - simpl. destruct (serve w req s) as [s1 resp] eqn:Hserve.
    assert (Hs1 : s1 = s ∧ ∀ r, resp = ChatResponse r → r = Raise unavailable).
    { destruct req as [cid user|request user]; simpl in Hserve.
      - pose proof (get_messages_state cid user s) as Hst.
        destruct (get_messages cid user s) as [s2 r2]. simpl in Hst.
        injection Hserve as <- <-. split; [done|]. discriminate.
      - rewrite chat_endpoint_unavailable in Hserve by done.
        injection Hserve as <- <-. split; [done|]. by intros r [= <-]. }
    destruct Hs1 as [-> Hresp].
    destruct (IH s Hs) as (Hqa & Hcalls & Hall).
    destruct (serve_all w reqs s) as [s2 rs]. simpl in *.
    split; [done|split; [done|]].
    intros [|i] r Hi; simpl in Hi; [|by eapply Hall].
    injection Hi as ->. by apply Hresp.
Qed.

(** C6. When the model, the embedding model or the index cannot be loaded
    at startup, [load_resources] still returns normally: it prints the
    failure and leaves [qa_chain] unset.  From then on, whatever requests
    are served, every call of the chat endpoint is answered with 503 "AI
    service is not available", no model call is made, and [qa_chain] stays
    unset. *)
Theorem failed_startup_answers_unavailable (w : World) (s : State) (reqs : list Request) :
  qa_chain s = None →
  startup_fails w s →
  (load_resources w s).2 = Ok tt
  ∧ qa_chain (load_resources w s).1 = None
  ∧ (∃ e, last (stdout (load_resources w s).1) = Some (failed_message e))
  ∧ (∀ i r,
       (serve_all w reqs (load_resources w s).1).2 !! i = Some (ChatResponse r) →
       r = Raise (HTTPException 503 "AI service is not available"))
  ∧ model_calls (serve_all w reqs (load_resources w s).1).1 = model_calls s
  ∧ qa_chain (serve_all w reqs (load_resources w s).1).1 = None.
Proof.
  intros Hs Hfail.
  destruct (load_resources_failure w s Hfail) as (e & Hqa & Hlog & Hcalls).
  rewrite Hs in Hqa.
  destruct (serve_all_unavailable w reqs _ Hqa) as (Hqa' & Hcalls' & Hall).
  split; [apply load_resources_Ok|].
  split; [done|]. split; [by exists e|].
  split; [exact Hall|]. split; [by rewrite Hcalls'|done].
Qed.

(** Without any key the service starts, and both chat requests that
    follow are refused with 503. *)
Lemma failed_startup_answers_unavailable_witness :
  (load_resources keyless_world (initial_state demo_db)).2 = Ok tt
  ∧ (serve_all keyless_world
       [Chat fever_request alice; GetMessages "0000000000000000000000ff" bob;
        Chat follow_up_request bob]
       (load_resources keyless_world (initial_state demo_db)).1).2 !! 2
    = Some (ChatResponse (Raise (HTTPException 503 "AI service is not available"))).
Proof.
  assert (H1 : qa_chain (initial_state demo_db) = None) by reflexivity.
  assert (H2 : startup_fails keyless_world (initial_state demo_db)).
  { left. exists (ValueError no_llm_message). vm_compute. reflexivity. }
  destruct (failed_startup_answers_unavailable keyless_world (initial_state demo_db)
              [Chat fever_request alice; GetMessages "0000000000000000000000ff" bob;
               Chat follow_up_request bob] H1 H2)
    as (Hok & _ & _ & Hall & _).
  split; [exact Hok|].
  destruct ((serve_all keyless_world
       [Chat fever_request alice; GetMessages "0000000000000000000000ff" bob;
        Chat follow_up_request bob]
       (load_resources keyless_world (initial_state demo_db)).1).2 !! 2)
    as [[r|r]|] eqn:Hr.
  - vm_compute in Hr. discriminate.
  - by rewrite (Hall 2 r Hr).
  - vm_compute in Hr. discriminate.
Defined.

(** ** The chat endpoint *)

Lemma chat_endpoint_loaded (w : World) (request : ChatRequest) (user : User.t)
    (s : State) (chain : RetrievalQA) :
  qa_chain s = Some chain →
  chat_endpoint w request user s
  = match RetrievalQA_invoke w chain (prompt request) s with
    | (s1, Ok out) =>
        match after_invoke w request user out s1 with
        | (s2, Ok body) => (s2, Ok body)
        | (s2, Raise e) => (s2, Raise (HTTPException 500 (str_exn e)))
        end
    | (s1, Raise e) => (s1, Raise (HTTPException 500 (str_exn e)))
    end.
Proof.
  intros Hchain. unfold chat_endpoint. rewrite Hchain.
  unfold try_except. rewrite chat_body_unfold. unfold mbind at 1, M_bind at 1.
  destruct (RetrievalQA_invoke w chain (prompt request) s) as [s1 [out|e]]; [|done].
  by destruct (after_invoke w request user out s1) as [s2 [body|e]].
Qed.

Lemma chat_endpoint_model_calls (w : World) (request : ChatRequest) (user : User.t)
    (s : State) (chain : RetrievalQA) :
  qa_chain s = Some chain →
  model_calls (chat_endpoint w request user s).1
  = model_calls (RetrievalQA_invoke w chain (prompt request) s).1.
Proof.
  intros Hchain. rewrite (chat_endpoint_loaded _ _ _ _ _ Hchain).
  destruct (RetrievalQA_invoke w chain (prompt request) s) as [s1 [out|e]]; [|done].
  pose proof (after_invoke_preserves model_calls w request user out
                ltac:(done) ltac:(done) ltac:(done) s1) as H.
  by destruct (after_invoke w request user out s1) as [s2 [body|e]].
Qed.

(** The claim of C2 fails: with the chain loaded, the empty query and a
    query of three spaces each cost one model call and are answered like
    any other query. *)
Lemma chat_endpoint_blank_query_calls_model :
  is_blank (prompt empty_request) = true
  ∧ is_blank (prompt blank_request) = true
  ∧ model_calls demo_state = []
  ∧ length (model_calls (chat_endpoint demo_world empty_request alice demo_state).1) = 1
  ∧ (chat_endpoint demo_world empty_request alice demo_state).2
    = Ok [("response", "1. Rest. 2. Drink fluids.");
          ("conversation_id", "0000000000000000000003e8")]
  ∧ length (model_calls (chat_endpoint demo_world blank_request alice demo_state).1) = 1
  ∧ (chat_endpoint demo_world blank_request alice demo_state).2
    = Ok [("response", "1. Rest. 2. Drink fluids.");
          ("conversation_id", "0000000000000000000003e8")].
Proof. vm_compute. repeat split; reflexivity. Qed.

(** C2, amended. The chat endpoint does not look at the query before
    using it.  For every query, the empty and the blank ones included:
    with the chain loaded and the retrieval succeeding, exactly one
    request goes to the model, and its prompt carries the query as it
    came; no model call is made only when the chain is not loaded (503)
    or the retrieval raises (500); and the endpoint raises nothing but
    these two HTTP errors. *)
Theorem chat_endpoint_no_query_validation (w : World) (request : ChatRequest)
    (user : User.t) (s : State) :
  (qa_chain s = None →
   chat_endpoint w request user s
   = (s, Raise (HTTPException 503 "AI service is not available")))
  ∧ (∀ chain docs,
       qa_chain s = Some chain →
       retrieve w (retriever_db chain) (retriever_k chain) (prompt request) = Ok docs →
       model_calls (chat_endpoint w request user s).1
       = model_calls s ++ [prompt_for chain docs (prompt request)])
  ∧ (∀ chain e,
       qa_chain s = Some chain →
       retrieve w (retriever_db chain) (retriever_k chain) (prompt request) = Raise e →
       chat_endpoint w request user s = (s, Raise (HTTPException 500 (str_exn e))))
  ∧ (∀ e,
       (chat_endpoint w request user s).2 = Raise e →
       ∃ detail, e = HTTPException 503 detail ∨ e = HTTPException 500 detail).
Proof.
  split; [apply chat_endpoint_unavailable|]. split; [|split].
  - intros chain docs Hchain Hdocs.
    rewrite (chat_endpoint_model_calls _ _ _ _ _ Hchain), RetrievalQA_invoke_unfold, Hdocs.
    cbv zeta. by destruct (llm_call _ _ _ _).
  - intros chain e Hchain He.
    by rewrite (chat_endpoint_loaded _ _ _ _ _ Hchain), RetrievalQA_invoke_unfold, He.
  - intros e. destruct (qa_chain s) as [chain|] eqn:Hchain.
    + rewrite (chat_endpoint_loaded _ _ _ _ _ Hchain).
      destruct (RetrievalQA_invoke w chain (prompt request) s) as [s1 [out|e1]].
      * destruct (after_invoke w request user out s1) as [s2 [body|e2]];
          [discriminate|]. intros [= <-]. eexists. by right.
      * intros [= <-]. eexists. by right.
    + rewrite chat_endpoint_unavailable by done. intros [= <-]. eexists. by left.
Qed.

(** A query of three spaces reaches the model inside the prompt. *)
Lemma chat_endpoint_no_query_validation_witness :
  model_calls (chat_endpoint demo_world blank_request alice demo_state).1
  = model_calls demo_state ++
    [prompt_for raw_chain (snd <$> take 3 (sort_by_distance [9; 0]%Z demo_entries)) "   "].
Proof.
  assert (H1 : qa_chain demo_state = Some raw_chain) by (vm_compute; reflexivity).
  assert (H2 : retrieve demo_world (retriever_db raw_chain) (retriever_k raw_chain)
                 (prompt blank_request)
               = Ok (snd <$> take 3 (sort_by_distance [9; 0]%Z demo_entries)))
    by (vm_compute; reflexivity).
  exact (proj1 (proj2 (chat_endpoint_no_query_validation demo_world blank_request alice
                         demo_state)) raw_chain _ H1 H2).
Defined.

Lemma after_invoke_body (w : World) (request : ChatRequest) (user : User.t)
    (out : ChainOutput) (s s' : State) (body : list (string * string)) :
  after_invoke w request user out s = (s', Ok body) →
  ∃ cid, body = [("response", result out); ("conversation_id", cid)].
Proof.
  unfold after_invoke, mbind, M_bind, datetime_utcnow.
  assert (Hstart : ∀ m1 m2 t,
            start_conversation w (User.username user) (result out) m1 m2 t
            = (s', Ok body) →
            ∃ cid, body = [("response", result out); ("conversation_id", cid)]).
  { intros m1 m2 t. unfold start_conversation, mbind, M_bind.
    destruct (create_conversation w (User.username user) m1 t) as [t1 [oid|e]];
      [|discriminate].
    destruct (add_message_to_conversation (str_oid oid) m2 t1) as [t2 [[]|e]];
      [|discriminate].
    unfold mret, M_ret. intros [= _ <-]. eauto. }
  destruct (conversation_id request) as [cid|]; [|apply Hstart].
  destruct (truthy (Some cid)); [|apply Hstart].
  match goal with
  | |- context [add_message_to_conversation cid ?m ?t] =>
      destruct (add_message_to_conversation cid m t) as [t1 [[]|e]]; [|discriminate]
  end.
  match goal with
  | |- context [add_message_to_conversation cid ?m ?t] =>
      destruct (add_message_to_conversation cid m t) as [t2 [[]|e]]; [|discriminate]
  end.
  unfold mret, M_ret. intros [= _ <-]. eauto.
Qed.

(** The claim of C3 fails: the chain hands back the three chunks it used,
    with their files, but the endpoint returns the answer and the
    conversation id only; attributing the chunks to another file changes
    what the chain returns and nothing of what the endpoint returns. *)
Lemma chat_endpoint_returns_no_sources :
  sources_of (RetrievalQA_invoke demo_world raw_chain (prompt fever_request) demo_state).2
  = ["data/aspirin.pdf"; "data/fever.pdf"; "data/paracetamol.pdf"]
  ∧ (chat_endpoint demo_world fever_request alice demo_state).2
    = Ok [("response", "1. Rest. 2. Drink fluids.");
          ("conversation_id", "0000000000000000000003e8")]
  ∧ (sources_of
       (RetrievalQA_invoke relabelled_world
          (default raw_chain (qa_chain relabelled_state))
          (prompt fever_request) relabelled_state).2
     = ["data/other.pdf"; "data/other.pdf"; "data/other.pdf"])
  ∧ (chat_endpoint relabelled_world fever_request alice relabelled_state).2
    = (chat_endpoint demo_world fever_request alice demo_state).2.
Proof. vm_compute. repeat split; reflexivity. Qed.

(** C3, amended. What the chat endpoint returns for an answered query is
    a dictionary of exactly two entries: the generated text under
    ["response"] and the conversation id under ["conversation_id"].  The
    chain does return the retrieved chunks with their sources, but they
    are not passed on to the caller. *)
Theorem chat_endpoint_response_shape (w : World) (request : ChatRequest)
    (user : User.t) (s s' : State) (body : list (string * string)) :
  chat_endpoint w request user s = (s', Ok body) →
  ∃ chain s1 out docs cid,
    qa_chain s = Some chain
    ∧ RetrievalQA_invoke w chain (prompt request) s = (s1, Ok out)
    ∧ retrieve w (retriever_db chain) (retriever_k chain) (prompt request) = Ok docs
    ∧ source_documents out = (if return_source_documents chain then Some docs else None)
    ∧ result out ∈ (snd <$> body)
    ∧ body = [("response", result out); ("conversation_id", cid)].
Proof.
  destruct (qa_chain s) as [chain|] eqn:Hchain.
  2: { rewrite chat_endpoint_unavailable by done. discriminate. }
  rewrite (chat_endpoint_loaded _ _ _ _ _ Hchain).
  destruct (RetrievalQA_invoke w chain (prompt request) s) as [s1 [out|e]] eqn:Hinv;
    [|discriminate].
  destruct (after_invoke w request user out s1) as [s2 [body'|e]] eqn:Hafter;
    [|discriminate].
  intros [= <- <-].
  destruct (after_invoke_body _ _ _ _ _ _ _ Hafter) as [cid ->].
  pose proof Hinv as Hout. rewrite RetrievalQA_invoke_unfold in Hout.
  destruct (retrieve _ _ _ _) as [docs|e] eqn:Hdocs; [|discriminate].
  cbv zeta in Hout. destruct (llm_call _ _ _ _) as [answer|e]; [|discriminate].
  injection Hout as <- <-.
  eexists chain, _, _, docs, cid.
  split; [done|]. split; [exact Hinv|]. split; [done|].
  cbn [result source_documents]. split; [done|]. split; [set_solver|done].
Qed.

(** Alice's first question: two entries come back, no source among them. *)
Lemma chat_endpoint_response_shape_witness :
  ∃ out cid,
    sources_of (Ok out) = ["data/aspirin.pdf"; "data/fever.pdf"; "data/paracetamol.pdf"]
    ∧ [("response", "1. Rest. 2. Drink fluids.");
       ("conversation_id", "0000000000000000000003e8")]
      = [("response", result out); ("conversation_id", cid)].
Proof.
  destruct (chat_endpoint_response_shape demo_world fever_request alice demo_state
              (chat_endpoint demo_world fever_request alice demo_state).1
              [("response", "1. Rest. 2. Drink fluids.");
               ("conversation_id", "0000000000000000000003e8")])
    as (chain & s1 & out & docs & cid & Hchain & Hinv & Hdocs & Hsrc & _ & Hbody).
  { vm_compute. reflexivity. }
  exists out, cid. split; [|exact Hbody].
  assert (Hc : chain = raw_chain).
  { assert (H : qa_chain demo_state = Some raw_chain) by (vm_compute; reflexivity).
    congruence. }
  subst chain.
  assert (Hd : retrieve demo_world (retriever_db raw_chain) (retriever_k raw_chain)
                 (prompt fever_request)
               = Ok (snd <$> take 3 (sort_by_distance [9; 0]%Z demo_entries)))
    by (vm_compute; reflexivity).
  rewrite Hd in Hdocs. injection Hdocs as <-.
  unfold sources_of. rewrite Hsrc. vm_compute. reflexivity.
Defined.

(** ** Loading the index *)

(** The claim of C5 fails: the stored index holds 768-dimensional
    vectors, the embedder built at load time produces 384-dimensional
    ones, and startup completes with the chain installed on that index. *)
Lemma load_resources_accepts_mismatched_index :
  embed_query mismatch_world {| model_name := embedding_model_name |} "What reduces fever?"
  = Ok (replicate 384 0%Z)
  ∧ (load_resources mismatch_world (initial_state ∅)).2 = Ok tt
  ∧ (retriever_db <$> qa_chain (load_resources mismatch_world (initial_state ∅)).1)
    = Some {| vs_embeddings := {| model_name := embedding_model_name |};
              vs_d := 768;
              vs_entries := [(replicate 768 0%Z, aspirin_chunk)] |}
  ∧ last (stdout (load_resources mismatch_world (initial_state ∅)).1)
    = Some loaded_message.
Proof. vm_compute. repeat split; reflexivity. Qed.

(** C5, amended. [load_resources] compares neither embedding models nor
    dimensions.  Once the client and the embedding model are built, the
    index that [FAISS.load_local] returns is installed in the chain as it
    is; when [FAISS.load_local] raises, whatever the exception, it is
    caught and printed, [load_resources] returns normally, [qa_chain]
    keeps its value, and with [qa_chain] unset the chat endpoint answers
    503.  The embedding model is the one [get_embed] names when the index
    is built. *)
Theorem load_resources_installs_loaded_index (w : World) (s s1 : State) (llm : LLM) :
  load_llm w s = (s1, Ok llm) →
  HuggingFaceEmbeddings_raises w embedding_model_name = None →
  (∀ db,
     FAISS_load_local w "vectorstore/db_faiss" {| model_name := embedding_model_name |} true
     = Ok db →
     load_resources w s
     = (set_stdout (stdout s1 ++ [loaded_message])
          (set_qa_chain (Some (chain_of llm db)) s1), Ok tt))
  ∧ (∀ e,
       FAISS_load_local w "vectorstore/db_faiss" {| model_name := embedding_model_name |} true
       = Raise e →
       load_resources w s = (set_stdout (stdout s1 ++ [failed_message e]) s1, Ok tt)
       ∧ qa_chain (load_resources w s).1 = qa_chain s
       ∧ (qa_chain s = None →
          ∀ request user,
            (chat_endpoint w request user (load_resources w s).1).2
            = Raise (HTTPException 503 "AI service is not available")))
  ∧ get_embed w = Ok {| model_name := embedding_model_name |}.
Proof.
  intros Hllm Hemb.
  pose proof (load_llm_from_preserves qa_chain w
                [getenv w "PRIMARY_GROQ_API_KEY"; getenv w "FALLBACK_GROQ_API_KEY"]
                ltac:(done) s) as Hqa.
  fold (load_llm w) in Hqa. rewrite Hllm in Hqa. state_simpl in Hqa.
  split; [|split].
  - intros db Hdb. by rewrite load_resources_unfold, Hllm, Hemb, Hdb.
  - intros e He.
    assert (Hload : load_resources w s
                    = (set_stdout (stdout s1 ++ [failed_message e]) s1, Ok tt))
      by by rewrite load_resources_unfold, Hllm, Hemb, He.
    rewrite Hload. state_simpl. split; [done|]. split; [done|].
    intros Hs request user. rewrite chat_endpoint_unavailable; [done|].
    state_simpl. congruence.
  - unfold get_embed, HuggingFaceEmbeddings. by rewrite Hemb.
Qed.

(** A mismatched index is installed; a missing index is reported and the
    service answers 503. *)
Lemma load_resources_installs_loaded_index_witness :
  (retriever_db <$> qa_chain (load_resources mismatch_world (initial_state ∅)).1)
  = Some {| vs_embeddings := {| model_name := embedding_model_name |};
            vs_d := 768;
            vs_entries := [(replicate 768 0%Z, aspirin_chunk)] |}
  ∧ (chat_endpoint missing_index_world fever_request alice
       (load_resources missing_index_world (initial_state ∅)).1).2
    = Raise (HTTPException 503 "AI service is not available").
Proof.
  assert (H1 : ∀ w, getenv w = getenv demo_world →
                 ChatOpenAI_raises w = ChatOpenAI_raises demo_world →
                 load_llm w (initial_state ∅)
                 = (set_stdout ["GROQ API key failed: invalid api key"] (initial_state ∅),
                    Ok (llm_config "good-key"))).
  { intros w Hg Hc. unfold load_llm, load_llm_from, ChatOpenAI. rewrite Hg, Hc.
    vm_compute. reflexivity. }
  split.
  - rewrite (proj1 (load_resources_installs_loaded_index mismatch_world (initial_state ∅)
                      _ _ (H1 mismatch_world eq_refl eq_refl) eq_refl) _ eq_refl).
    reflexivity.
  - exact (proj2 (proj2 (proj1 (proj2
             (load_resources_installs_loaded_index missing_index_world (initial_state ∅)
                _ _ (H1 missing_index_world eq_refl eq_refl) eq_refl)) _ eq_refl))
             eq_refl fever_request alice).
Defined.

(** ** Retrieval *)

Section Search.
Variable q : Vec.

Lemma insert_by_distance_perm (e : Vec * Document) (l : list (Vec * Document)) :
  insert_by_distance q e l ≡ₚ e :: l.
Proof.
  induction l as [|e' l IH]; simpl; [done|].
  destruct (sq_dist q e.1 <=? sq_dist q e'.1)%Z; [done|].
  rewrite IH. apply Permutation_swap.
Qed.

Lemma sort_by_distance_perm (l : list (Vec * Document)) : sort_by_distance q l ≡ₚ l.
Proof.
  induction l as [|e l IH]; simpl; [done|].
  unfold sort_by_distance in *. simpl.
  by rewrite insert_by_distance_perm, IH.
Qed.

Global Instance closer_trans : Transitive (closer q).
Proof. unfold closer. intros x y z. lia. Qed.

Lemma insert_by_distance_sorted (e : Vec * Document) (l : list (Vec * Document)) :
  StronglySorted (closer q) l → StronglySorted (closer q) (insert_by_distance q e l).
Proof.
  induction 1 as [|e' l Hl IH Hall]; simpl.
  - repeat constructor.
  - destruct (Z.leb_spec (sq_dist q e.1) (sq_dist q e'.1)) as [Hle|Hgt].
    + constructor; [by constructor|].
      constructor; [done|].
      eapply Forall_impl; [exact Hall|]. intros x Hx. by etrans.
    + constructor; [done|].
      rewrite insert_by_distance_perm. constructor; [|done].
      unfold closer. lia.
Qed.

Lemma sort_by_distance_sorted (l : list (Vec * Document)) :
  StronglySorted (closer q) (sort_by_distance q l).
Proof.
  induction l as [|e l IH]; [constructor|].
  by apply insert_by_distance_sorted.
Qed.

Lemma search_length (l : list (Vec * Document)) (k : nat) :
  length (search l q k) = k `min` length l.
Proof.
  unfold search. by rewrite length_take, (Permutation_length (sort_by_distance_perm l)).
Qed.

Lemma search_sorted (l : list (Vec * Document)) (k : nat) :
  StronglySorted (closer q) (search l q k).
Proof.
  unfold search. eapply StronglySorted_app_1_l.
  rewrite take_drop. apply sort_by_distance_sorted.
Qed.

Lemma search_nearest (l : list (Vec * Document)) (k : nat) :
  ∃ rest, l ≡ₚ search l q k ++ rest
          ∧ ∀ e e', e ∈ search l q k → e' ∈ rest → closer q e e'.
Proof.
  exists (drop k (sort_by_distance q l)). unfold search. split.
  - by rewrite take_drop, sort_by_distance_perm.
  - intros e e'. apply StronglySorted_app_1_elem_of.
    rewrite take_drop. apply sort_by_distance_sorted.
Qed.
End Search.

Lemma retrieve_unfold (w : World) (db : VectorStore) (k : nat) (q : string) (v : Vec) :
  embed_query w (vs_embeddings db) q = Ok v →
  retrieve w db k q
  = if Nat.eqb (length v) (vs_d db) then Ok (snd <$> search (vs_entries db) v k)
    else Raise (LibraryError "AssertionError" "").
Proof.
  intros Hv. unfold retrieve, index_search. rewrite Hv.
  by destruct (Nat.eqb (length v) (vs_d db)).
Qed.

(** C7. The chain that [load_resources] installs retrieves with [k = 3].
    For every query whose embedding has the dimension of the index, it
    takes the three entries of the index nearest to the embedding (all
    of them when the index holds fewer), nearest first, and these are the
    chunks the chain works from and returns.  For a query whose embedding
    has another dimension the search raises [AssertionError]: nothing is
    retrieved and the chain makes no model call. *)
Theorem retriever_takes_three_nearest (w : World) (s : State) (chain : RetrievalQA) :
  qa_chain s = None →
  qa_chain (load_resources w s).1 = Some chain →
  rows_have_dimension (retriever_db chain) →
  retriever_k chain = 3
  ∧ ∀ q v,
      embed_query w (vs_embeddings (retriever_db chain)) q = Ok v →
      (length v = vs_d (retriever_db chain) →
       retrieve w (retriever_db chain) (retriever_k chain) q
       = Ok (snd <$> search (vs_entries (retriever_db chain)) v 3)
       ∧ (∀ t t' out,
            RetrievalQA_invoke w chain q t = (t', Ok out) →
            source_documents out
            = Some (snd <$> search (vs_entries (retriever_db chain)) v 3))
       ∧ length (search (vs_entries (retriever_db chain)) v 3)
         = 3 `min` length (vs_entries (retriever_db chain))
       ∧ StronglySorted (closer v) (search (vs_entries (retriever_db chain)) v 3)
       ∧ ∃ rest,
           vs_entries (retriever_db chain)
           ≡ₚ search (vs_entries (retriever_db chain)) v 3 ++ rest
           ∧ ∀ e e',
               e ∈ search (vs_entries (retriever_db chain)) v 3 → e' ∈ rest →
               length e.1 = length v ∧ length e'.1 = length v ∧ closer v e e')
      ∧ (length v ≠ vs_d (retriever_db chain) →
         retrieve w (retriever_db chain) (retriever_k chain) q
         = Raise (LibraryError "AssertionError" "")
         ∧ ∀ t, RetrievalQA_invoke w chain q t
                = (t, Raise (LibraryError "AssertionError" ""))).
Proof.
  intros Hs Hchain Hrows.
  assert (Hshape : ∃ llm db, chain = chain_of llm db).
  { rewrite load_resources_unfold in Hchain.
    pose proof (load_llm_from_preserves qa_chain w
                  [getenv w "PRIMARY_GROQ_API_KEY"; getenv w "FALLBACK_GROQ_API_KEY"]
                  ltac:(done) s) as Hqa.
    fold (load_llm w) in Hqa.
    destruct (load_llm w s) as [s1 [llm|e]]; state_simpl in Hqa;
      [|state_simpl in Hchain; congruence].
    destruct (HuggingFaceEmbeddings_raises _ _); [state_simpl in Hchain; congruence|].
    destruct (FAISS_load_local _ _ _ _) as [db|e];
      [|state_simpl in Hchain; congruence].
    state_simpl in Hchain. injection Hchain as <-. eauto. }
  destruct Hshape as (llm & db & ->).
  split; [done|]. intros q v Hv.
  cbn [chain_of retriever_db retriever_k] in *.
  pose proof (retrieve_unfold w db 3 q v Hv) as Hret.
  split.
  - intros Hdim. rewrite Hdim, Nat.eqb_refl in Hret.
    split; [done|]. split.
    + intros t t' out. rewrite RetrievalQA_invoke_unfold.
      cbn [chain_of retriever_db retriever_k return_source_documents chain_llm].
      rewrite Hret. cbv zeta.
      destruct (llm_call _ _ _ _); [|discriminate]. by intros [= _ <-].
    + split; [apply search_length|]. split; [apply search_sorted|].
      destruct (search_nearest v (vs_entries db) 3) as (rest & Hperm & Hnear).
      exists rest. split; [done|]. intros e e' He He'.
      unfold rows_have_dimension in Hrows. rewrite Forall_forall in Hrows.
      rewrite Hdim. repeat split.
      * apply Hrows. rewrite Hperm. set_solver.
      * apply Hrows. rewrite Hperm. set_solver.
      * by apply Hnear.
  - intros Hdim. apply Nat.eqb_neq in Hdim. rewrite Hdim in Hret.
    split; [done|]. intros t. rewrite RetrievalQA_invoke_unfold.
    cbn [chain_of retriever_db retriever_k return_source_documents chain_llm].
    by rewrite Hret.
Qed.

(** In [demo_world] the three chunks nearest to the query are returned,
    nearest first, out of the four in the index. *)
Lemma retriever_takes_three_nearest_witness :
  retriever_k raw_chain = 3
  ∧ retrieve demo_world (retriever_db raw_chain) (retriever_k raw_chain) "What reduces fever?"
    = Ok [ aspirin_chunk;
           {| page_content := "Drink fluids when you have a fever.";
              source := "data/fever.pdf"; page := 1 |};
           {| page_content := "Paracetamol relieves pain.";
              source := "data/paracetamol.pdf"; page := 2 |} ].
Proof.
  assert (H1 : qa_chain (initial_state demo_db) = None) by reflexivity.
  assert (H2 : qa_chain (load_resources demo_world (initial_state demo_db)).1
               = Some raw_chain) by (vm_compute; reflexivity).
  assert (H3 : rows_have_dimension (retriever_db raw_chain)).
  { repeat apply List.Forall_cons; try apply List.Forall_nil; reflexivity. }
  destruct (retriever_takes_three_nearest demo_world (initial_state demo_db) raw_chain
              H1 H2 H3) as [Hk Hq].
  split; [exact Hk|].
  destruct (Hq "What reduces fever?" [9; 0]%Z eq_refl) as [Hsame _].
  destruct (Hsame eq_refl) as (Hret & _).
  rewrite Hret. vm_compute. reflexivity.
Defined.

(** * Further properties of the code *)

(** ** A chat turn that is not stored *)

Lemma alter_absent {A} (g : A → A) (m : gmap N A) (i : N) :
  m !! i = None → alter g i m = m.
Proof.
  intros Hi. apply map_eq. intros j. rewrite lookup_alter.
  case_decide; [subst; by rewrite Hi|done].
Qed.

Lemma ObjectId_invalid (cid : string) :
  len cid ≠ 24 ∨ bytes_fromhex cid = None →
  ObjectId cid = Raise (LibraryError "InvalidId" (invalid_id_message cid)).
Proof.
  intros Hcid. unfold ObjectId.
  destruct (Nat.eqb_spec (len cid) 24) as [Hlen|Hlen]; [|done].
  destruct Hcid as [Hcid|Hcid]; [done|]. by rewrite Hcid.
Qed.

Lemma after_invoke_named (w : World) (request : ChatRequest) (user : User.t)
    (out : ChainOutput) (cid : string) (s : State) :
  conversation_id request = Some cid →
  cid ≠ "" →
  after_invoke w request user out s
  = match ObjectId cid with
    | Ok oid =>
        (set_conversations
           (alter (push_message {| role := "assistant"; content := result out;
                                   timestamp := utcnow w (S (clock_reads s)) |}) oid
              (alter (push_message {| role := "user"; content := prompt request;
                                      timestamp := utcnow w (clock_reads s) |}) oid
                 (conversations s)))
           (set_clock_reads (S (S (clock_reads s))) s),
         Ok [("response", result out); ("conversation_id", cid)])
    | Raise e => (set_clock_reads (S (S (clock_reads s))) s, Raise e)
    end.
Proof.
  intros Hcid Hne. unfold after_invoke, mbind, M_bind, datetime_utcnow.
  state_simpl. rewrite Hcid.
  assert (Ht : truthy (Some cid) = true) by by destruct cid.
  rewrite Ht. unfold add_message_to_conversation, mbind, M_bind, lift_result.
  destruct (ObjectId cid) as [oid|e]; [|by destruct s].
  unfold update_one_push, mret, M_ret. state_simpl. by destruct s.
Qed.

(** X1. A chat request that names a well-formed conversation id under
    which nothing is stored is answered like any other, with the same id
    in the answer, but the collection is left as it was: neither message
    of the turn is stored. *)
Theorem chat_endpoint_unknown_conversation (w : World) (request : ChatRequest)
    (user : User.t) (s s1 : State) (chain : RetrievalQA) (out : ChainOutput)
    (cid : string) (oid : N) :
  qa_chain s = Some chain →
  conversation_id request = Some cid →
  ObjectId cid = Ok oid →
  conversations s !! oid = None →
  RetrievalQA_invoke w chain (prompt request) s = (s1, Ok out) →
  ∃ s',
    chat_endpoint w request user s
    = (s', Ok [("response", result out); ("conversation_id", cid)])
    ∧ conversations s' = conversations s.
Proof.
  intros Hchain Hcid Hoid Hnone Hinv.
  pose proof (RetrievalQA_invoke_preserves conversations w chain (prompt request)
                ltac:(done) s) as Hdb.
  rewrite Hinv in Hdb. state_simpl in Hdb.
  rewrite (chat_endpoint_loaded _ _ _ _ _ Hchain), Hinv.
  rewrite (after_invoke_named _ _ _ _ cid) by (try done; by intros ->).
  rewrite Hoid. eexists. split; [reflexivity|]. state_simpl.
  rewrite Hdb, (alter_absent _ _ _ Hnone). by apply alter_absent.
Qed.

(** In [demo_world] nothing is stored under [...beef]: the question is
    answered and the collection still holds bob's conversation only. *)
Lemma chat_endpoint_unknown_conversation_witness :
  ∃ s',
    chat_endpoint demo_world unknown_id_request alice demo_state
    = (s', Ok [("response", "1. Rest. 2. Drink fluids.");
               ("conversation_id", "00000000000000000000beef")])
    ∧ conversations s' = demo_db.
Proof.
  assert (H1 : qa_chain demo_state = Some raw_chain) by (vm_compute; reflexivity).
  assert (H2 : conversation_id unknown_id_request = Some "00000000000000000000beef")
    by reflexivity.
  assert (H3 : ObjectId "00000000000000000000beef" = Ok 48879%N)
    by (vm_compute; reflexivity).
  assert (H4 : conversations demo_state !! 48879%N = None) by (vm_compute; reflexivity).
  assert (H5 : RetrievalQA_invoke demo_world raw_chain (prompt unknown_id_request) demo_state
               = ((RetrievalQA_invoke demo_world raw_chain (prompt unknown_id_request)
                     demo_state).1,
                  Ok {| query := prompt unknown_id_request;
                        result := "1. Rest. 2. Drink fluids.";
                        source_documents :=
                          Some (snd <$> take 3 (sort_by_distance [9; 0]%Z demo_entries)) |}))
    by (vm_compute; reflexivity).
  destruct (chat_endpoint_unknown_conversation demo_world unknown_id_request alice
              demo_state _ raw_chain _ _ _ H1 H2 H3 H4 H5) as (s' & Hrun & Hdb).
  exists s'. split; [exact Hrun|]. rewrite Hdb. reflexivity.
Defined.

(** X2. A chat request whose conversation id is not empty and is one
    that [ObjectId] rejects, because it has not 24 characters or because
    [bytes.fromhex] does not read it, is refused only after the chain
    has answered: the model call is made, then [ObjectId] raises, the
    endpoint answers 500 with the text of the [InvalidId] as detail,
    which quotes the id as [repr] writes it, and nothing is stored.  The
    id is taken to be ASCII, where [repr] is as modelled. *)
Theorem chat_endpoint_malformed_conversation_id (w : World) (request : ChatRequest)
    (user : User.t) (s s1 : State) (chain : RetrievalQA) (out : ChainOutput)
    (cid : string) :
  qa_chain s = Some chain →
  conversation_id request = Some cid →
  cid ≠ "" →
  is_ascii cid = true →
  len cid ≠ 24 ∨ bytes_fromhex cid = None →
  RetrievalQA_invoke w chain (prompt request) s = (s1, Ok out) →
  ∃ s',
    chat_endpoint w request user s
    = (s', Raise (HTTPException 500
                    (repr cid +:+ " is not a valid ObjectId, it must be a 12-byte input or a 24-character hex string")))
    ∧ conversations s' = conversations s
    ∧ length (model_calls s') = S (length (model_calls s)).
Proof.
  intros Hchain Hcid Hne _ Hoid Hinv.
  pose proof (RetrievalQA_invoke_preserves conversations w chain (prompt request)
                ltac:(done) s) as Hdb.
  rewrite Hinv in Hdb. state_simpl in Hdb.
  assert (Hcalls : length (model_calls s1) = S (length (model_calls s))).
  { rewrite RetrievalQA_invoke_unfold in Hinv.
    destruct (retrieve _ _ _ _) as [docs|e']; [|discriminate].
    cbv zeta in Hinv. destruct (llm_call _ _ _ _); [|discriminate].
    injection Hinv as <- _. state_simpl. rewrite length_app. simpl. lia. }
  rewrite (chat_endpoint_loaded _ _ _ _ _ Hchain), Hinv.
  rewrite (after_invoke_named _ _ _ _ cid) by done.
  rewrite (ObjectId_invalid _ Hoid).
  eexists. split; [reflexivity|]. by state_simpl.
Qed.

(** An id that is no hexadecimal string, and one with a single quote,
    which [repr] puts between double quotes. *)
Lemma chat_endpoint_malformed_conversation_id_witness :
  (∃ s',
     chat_endpoint demo_world malformed_id_request alice demo_state
     = (s', Raise (HTTPException 500
                     "'not-an-id' is not a valid ObjectId, it must be a 12-byte input or a 24-character hex string"))
     ∧ conversations s' = conversations demo_state
     ∧ length (model_calls s') = S (length (model_calls demo_state)))
  ∧ (∃ s',
       chat_endpoint demo_world
         {| prompt := "Is aspirin safe?"; conversation_id := Some "it's" |} alice demo_state
       = (s', Raise (HTTPException 500
                       (dquote +:+ "it's" +:+ dquote +:+
                        " is not a valid ObjectId, it must be a 12-byte input or a 24-character hex string")))
       ∧ conversations s' = conversations demo_state
       ∧ length (model_calls s') = S (length (model_calls demo_state))).
Proof.
  assert (H1 : qa_chain demo_state = Some raw_chain) by (vm_compute; reflexivity).
  assert (H5 : RetrievalQA_invoke demo_world raw_chain "Is aspirin safe?" demo_state
               = ((RetrievalQA_invoke demo_world raw_chain "Is aspirin safe?"
                     demo_state).1,
                  Ok {| query := "Is aspirin safe?";
                        result := "1. Rest. 2. Drink fluids.";
                        source_documents :=
                          Some (snd <$> take 3 (sort_by_distance [9; 0]%Z demo_entries)) |}))
    by (vm_compute; reflexivity).
  split.
  - assert (H2 : conversation_id malformed_id_request = Some "not-an-id") by reflexivity.
    assert (H3 : "not-an-id" ≠ "") by discriminate.
    assert (H4 : is_ascii "not-an-id" = true) by reflexivity.
    assert (H6 : len "not-an-id" ≠ 24 ∨ bytes_fromhex "not-an-id" = None)
      by (left; vm_compute; lia).
    exact (chat_endpoint_malformed_conversation_id demo_world malformed_id_request alice
             demo_state _ raw_chain _ _ H1 H2 H3 H4 H6 H5).
  - assert (H3 : "it's" ≠ "") by discriminate.
    assert (H4 : is_ascii "it's" = true) by reflexivity.
    assert (H6 : len "it's" ≠ 24 ∨ bytes_fromhex "it's" = None)
      by (left; vm_compute; lia).
    exact (chat_endpoint_malformed_conversation_id demo_world
             {| prompt := "Is aspirin safe?"; conversation_id := Some "it's" |} alice
             demo_state _ raw_chain _ _ H1 eq_refl H3 H4 H6 H5).
Defined.

(** X3. When the remote model raises on the request, the endpoint answers
    500 with the text of that exception; the request counts as a model
    call, but the clock is not read, no id is drawn and nothing is stored:
    the user's message is lost with the turn. *)
Theorem chat_endpoint_model_failure (w : World) (request : ChatRequest)
    (user : User.t) (s : State) (chain : RetrievalQA) (docs : list Document)
    (e : Exn) :
  qa_chain s = Some chain →
  retrieve w (retriever_db chain) (retriever_k chain) (prompt request) = Ok docs →
  llm_call w (chain_llm chain) (length (model_calls s))
    (prompt_for chain docs (prompt request)) = Raise e →
  chat_endpoint w request user s
  = (set_model_calls (model_calls s ++ [prompt_for chain docs (prompt request)]) s,
     Raise (HTTPException 500 (str_exn e))).
Proof.
  intros Hchain Hdocs He.
  rewrite (chat_endpoint_loaded _ _ _ _ _ Hchain), RetrievalQA_invoke_unfold, Hdocs.
  cbv zeta. by rewrite He.
Qed.

Lemma chat_endpoint_model_failure_witness :
  chat_endpoint model_down_world fever_request alice demo_state
  = (set_model_calls
       [prompt_for raw_chain (snd <$> take 3 (sort_by_distance [9; 0]%Z demo_entries))
          (prompt fever_request)] demo_state,
     Raise (HTTPException 500 "Connection error.")).
Proof.
  assert (H1 : qa_chain demo_state = Some raw_chain) by (vm_compute; reflexivity).
  assert (H2 : retrieve model_down_world (retriever_db raw_chain) (retriever_k raw_chain)
                 (prompt fever_request)
               = Ok (snd <$> take 3 (sort_by_distance [9; 0]%Z demo_entries)))
    by (vm_compute; reflexivity).
  assert (H3 : llm_call model_down_world (chain_llm raw_chain)
                 (length (model_calls demo_state))
                 (prompt_for raw_chain
                    (snd <$> take 3 (sort_by_distance [9; 0]%Z demo_entries))
                    (prompt fever_request))
               = Raise (LibraryError "APIConnectionError" "Connection error."))
    by reflexivity.
  rewrite (chat_endpoint_model_failure model_down_world fever_request alice demo_state
             raw_chain _ _ H1 H2 H3).
  f_equal.
Defined.

(** ** What every request sequence keeps *)

Global Instance grows_preorder : PreOrder grows.
Proof.
  split.
  - intros db oid d Hd. exists d. split; [done|]. by repeat split.
  - intros db1 db2 db3 H12 H23 oid d Hd.
    destruct (H12 oid d Hd) as (d2 & Hd2 & Hu & Ht & Hc & Hm).
    destruct (H23 oid d2 Hd2) as (d3 & Hd3 & Hu' & Ht' & Hc' & Hm').
    exists d3. split; [done|]. repeat split; try congruence. by etrans.
Qed.

Global Instance keeps_valid_ids_preorder : PreOrder keeps_valid_ids.
Proof. split; unfold keeps_valid_ids; [by intros db|intros db1 db2 db3; tauto]. Qed.

Lemma grows_push (m : gmap N ConvDoc) (i : N) (msg : Message) :
  grows m (alter (push_message msg) i m).
Proof.
  intros oid d Hd. rewrite lookup_alter. case_decide as Hi.
  - subst. rewrite Hd. eexists. split; [reflexivity|].
    repeat split; try done. simpl. by apply prefix_app_r.
  - exists d. split; [done|]. by repeat split.
Qed.

Lemma grows_insert (m : gmap N ConvDoc) (i : N) (d : ConvDoc) :
  m !! i = None → (i < 2 ^ 96)%N → grows m (<[i := d]> m).
Proof.
  intros Hi _ oid d' Hd. exists d'. split; [|by repeat split].
  rewrite lookup_insert_ne; [done|]. intros ->. congruence.
Qed.

Lemma keeps_valid_ids_push (m : gmap N ConvDoc) (i : N) (msg : Message) :
  keeps_valid_ids m (alter (push_message msg) i m).
Proof.
  intros Hm oid d. rewrite lookup_alter. case_decide as Hi; [|apply Hm].
  subst. destruct (m !! oid) as [d0|] eqn:Hd0; [|done]. intros _. by eapply Hm.
Qed.

Lemma keeps_valid_ids_insert (m : gmap N ConvDoc) (i : N) (d : ConvDoc) :
  m !! i = None → (i < 2 ^ 96)%N → keeps_valid_ids m (<[i := d]> m).
Proof.
  intros _ Hi Hm oid d'. rewrite lookup_insert. case_decide; [by subst|apply Hm].
Qed.

Section DbStep.
Context (R : relation (gmap N ConvDoc)) `{!PreOrder R}.
Hypothesis R_push : ∀ m i msg, R m (alter (push_message msg) i m).
Hypothesis R_insert : ∀ m i d, m !! i = None → (i < 2 ^ 96)%N → R m (<[i := d]> m).

Lemma db_step_preserves {A} (c : M A) : preserves conversations c → db_step R c.
Proof. intros Hc s. by rewrite Hc. Qed.

Lemma db_step_bind {A B} (c : M A) (k : A → M B) :
  db_step R c → (∀ a, db_step R (k a)) → db_step R (c ≫= k).
Proof.
  intros Hc Hk s. unfold mbind, M_bind.
  specialize (Hc s). destruct (c s) as [s1 [a|e]]; simpl in *; [|done].
  etrans; [exact Hc|apply Hk].
Qed.

Lemma db_step_add_message (cid : string) (msg : Message) :
  db_step R (add_message_to_conversation cid msg).
Proof.
  apply db_step_bind; [by apply db_step_preserves, preserves_lift_result|].
  intros oid s. apply R_push.
Qed.

Lemma db_step_create_conversation (w : World) (user : string) (msg : Message) :
  db_step R (create_conversation w user msg).
Proof.
  apply db_step_bind; [by apply db_step_preserves|].
  intros now s. unfold insert_one.
  destruct (conversations s !! next_object_id w s) eqn:Hfresh; state_simpl; [done|].
  apply R_insert; [done|apply next_object_id_bound].
Qed.

Lemma db_step_after_invoke (w : World) (request : ChatRequest) (user : User.t)
    (out : ChainOutput) :
  db_step R (after_invoke w request user out).
Proof.
  unfold after_invoke.
  apply db_step_bind; [by apply db_step_preserves|]. intros t1.
  apply db_step_bind; [by apply db_step_preserves|]. intros t2.
  assert (Hstart : ∀ m1 m2, db_step R
            (start_conversation w (User.username user) (result out) m1 m2)).
  { intros m1 m2. unfold start_conversation.
    apply db_step_bind; [apply db_step_create_conversation|]. intros oid.
    apply db_step_bind; [apply db_step_add_message|]. intros _.
    by apply db_step_preserves, preserves_ret. }
  destruct (conversation_id request) as [cid|]; [|apply Hstart].
  destruct (truthy (Some cid)); [|apply Hstart].
  apply db_step_bind; [apply db_step_add_message|]. intros _.
  apply db_step_bind; [apply db_step_add_message|]. intros _.
  by apply db_step_preserves, preserves_ret.
Qed.

Lemma db_step_chat_endpoint (w : World) (request : ChatRequest) (user : User.t) :
  db_step R (chat_endpoint w request user).
Proof.
  intros s. destruct (qa_chain s) as [chain|] eqn:Hchain.
  - rewrite (chat_endpoint_loaded _ _ _ _ _ Hchain).
    pose proof (RetrievalQA_invoke_preserves conversations w chain (prompt request)
                  ltac:(done) s) as Hinv.
    destruct (RetrievalQA_invoke w chain (prompt request) s) as [s1 [out|e]];
      state_simpl in Hinv; [|state_simpl; by rewrite Hinv].
    pose proof (db_step_after_invoke w request user out s1) as Hafter.
    rewrite Hinv in Hafter.
    by destruct (after_invoke w request user out s1) as [s2 [body|e]].
  - by rewrite chat_endpoint_unavailable.
Qed.

Lemma db_step_serve_all (w : World) (reqs : list Request) (s : State) :
  R (conversations s) (conversations (serve_all w reqs s).1).
Proof.
  revert s. induction reqs as [|req reqs IH]; intros s; [done|].
  simpl. destruct (serve w req s) as [s1 resp] eqn:Hserve.
  assert (Hstep : R (conversations s) (conversations s1)).
  { destruct req as [cid user|request user]; simpl in Hserve.
    - pose proof (get_messages_state cid user s) as Hst.
      destruct (get_messages cid user s) as [s2 r2]. simpl in Hst.
      injection Hserve as <- _. by subst.
    - pose proof (db_step_chat_endpoint w request user s) as Hst.
      destruct (chat_endpoint w request user s) as [s2 r2].
      by injection Hserve as <- _. }
  specialize (IH s1). destruct (serve_all w reqs s1) as [s2 rs]. simpl in *.
  by etrans.
Qed.
End DbStep.

(** X5. Stored conversations stay reachable.  If every stored id is an
    ObjectId, then after any sequence of requests every stored id is
    still one, and for every conversation then stored, [get_messages]
    called by its owner with the printed id returns exactly its messages. *)
Theorem stored_conversations_reachable (w : World) (reqs : list Request) (s : State)
    (oid : N) (d : ConvDoc) (user : User.t) :
  valid_ids (conversations s) →
  conversations (serve_all w reqs s).1 !! oid = Some d →
  User.username user = username d →
  valid_ids (conversations (serve_all w reqs s).1)
  ∧ get_messages (str_oid oid) user (serve_all w reqs s).1
    = ((serve_all w reqs s).1, Ok [("messages", messages d)]).
Proof.
  intros Hvalid Hd Huser.
  pose proof (db_step_serve_all keeps_valid_ids keeps_valid_ids_push
                keeps_valid_ids_insert w reqs s Hvalid) as Hvalid'.
  split; [done|].
  unfold get_messages, mbind, M_bind. rewrite get_conversation_by_id_unfold.
  rewrite (ObjectId_str_oid _ (Hvalid' _ _ Hd)), Hd.
  by destruct (decide (username d = User.username user)).
Qed.

Lemma stored_conversations_reachable_witness :
  get_messages "0000000000000000000003e8" alice
    (serve_all demo_world [Chat fever_request alice; Chat follow_up_request alice]
       demo_state).1
  = ((serve_all demo_world [Chat fever_request alice; Chat follow_up_request alice]
        demo_state).1,
     Ok [("messages",
          [ {| role := "user"; content := prompt fever_request;
               timestamp := 1700000000 |};
            {| role := "assistant"; content := "1. Rest. 2. Drink fluids.";
               timestamp := 1700000001 |} ])]).
Proof.
  assert (H1 : valid_ids (conversations demo_state)).
  { intros oid d Hd.
    assert (Hdb : conversations demo_state = demo_db) by (vm_compute; reflexivity).
    rewrite Hdb in Hd. unfold demo_db in Hd.
    apply lookup_singleton_Some in Hd as [<- _]. done. }
  assert (H2 : conversations
                 (serve_all demo_world
                    [Chat fever_request alice; Chat follow_up_request alice]
                    demo_state).1 !! 1000%N
               = Some {| username := "alice";
                         title := "I have a fever since yesterday evening and a mild ...";
                         messages :=
                           [ {| role := "user"; content := prompt fever_request;
                                timestamp := 1700000000 |};
                             {| role := "assistant"; content := "1. Rest. 2. Drink fluids.";
                                timestamp := 1700000001 |} ];
                         created_at := 1700000002 |})
    by (vm_compute; reflexivity).
  exact (proj2 (stored_conversations_reachable demo_world
                  [Chat fever_request alice; Chat follow_up_request alice]
                  demo_state 1000%N _ alice H1 H2 eq_refl)).
Defined.

(** ** A new conversation, written and read back *)

Lemma len_append (a b : string) : len (a +:+ b) = len a + len b.
Proof.
  induction a as [|c a IH]; [done|].
  change (String c a +:+ b) with (String c (a +:+ b)). cbn [len]. rewrite IH. lia.
Qed.

Lemma create_conversation_unfold (w : World) (user : string) (m : Message) (s : State) :
  create_conversation w user m s
  = match conversations s !! next_object_id w s with
    | Some _ =>
        (set_ids_made (S (ids_made s)) (set_clock_reads (S (clock_reads s)) s),
         Raise (LibraryError "DuplicateKeyError" "E11000 duplicate key error"))
    | None =>
        (set_conversations
           (<[next_object_id w s :=
                {| username := user;
                   title := str_take 50 (content m) +:+ "...";
                   messages := [m];
                   created_at := utcnow w (clock_reads s) |}]> (conversations s))
           (set_ids_made (S (ids_made s)) (set_clock_reads (S (clock_reads s)) s)),
         Ok (next_object_id w s))
    end.
Proof.
  unfold create_conversation, mbind, M_bind, datetime_utcnow, insert_one.
  state_simpl.
  change (next_object_id w (set_clock_reads (S (clock_reads s)) s))
    with (next_object_id w s).
  by destruct (conversations s !! next_object_id w s).
Qed.

(** X6. [create_conversation] and [get_conversation_by_id] agree.  With
    the drawn id free, the new conversation is stored under it with a
    title of at most 53 characters ending in "..."; asking for the printed
    id finds it, whole, for its owner and finds nothing for anybody else.
    With the drawn id taken, the insertion is refused and the collection
    is left as it was. *)
Theorem create_conversation_round_trip (w : World) (user : string) (m : Message)
    (s : State) :
  (conversations s !! next_object_id w s = None →
   ∃ s' doc,
     create_conversation w user m s = (s', Ok (next_object_id w s))
     ∧ doc = {| username := user;
                title := str_take 50 (content m) +:+ "...";
                messages := [m];
                created_at := utcnow w (clock_reads s) |}
     ∧ len (title doc) ≤ 53
     ∧ get_conversation_by_id (str_oid (next_object_id w s)) user s'
       = (s', Ok (Some {| Serialized.id := str_oid (next_object_id w s);
                          Serialized.doc := doc |}))
     ∧ ∀ other, other ≠ user →
         get_conversation_by_id (str_oid (next_object_id w s)) other s'
         = (s', Ok None))
  ∧ (is_Some (conversations s !! next_object_id w s) →
     ∃ s',
       create_conversation w user m s
       = (s', Raise (LibraryError "DuplicateKeyError" "E11000 duplicate key error"))
       ∧ conversations s' = conversations s).
Proof.
  split.
  - intros Hfresh. rewrite create_conversation_unfold, Hfresh.
    set (doc := {| username := user;
                   title := str_take 50 (content m) +:+ "...";
                   messages := [m];
                   created_at := utcnow w (clock_reads s) |}).
    set (s' := set_conversations (<[next_object_id w s := doc]> (conversations s))
                 (set_ids_made (S (ids_made s))
                    (set_clock_reads (S (clock_reads s)) s))).
    assert (Hget : ∀ u, get_conversation_by_id (str_oid (next_object_id w s)) u s'
               = (s', Ok (if decide (user = u)
                          then Some {| Serialized.id := str_oid (next_object_id w s);
                                       Serialized.doc := doc |}
                          else None))).
    { intros u. rewrite get_conversation_by_id_unfold.
      rewrite (ObjectId_str_oid _ (next_object_id_bound w s)).
      unfold s'. state_simpl. rewrite lookup_insert_eq. cbn [username doc].
      by destruct (decide (user = u)). }
    exists s', doc. split; [reflexivity|]. split; [reflexivity|]. split; [|split].
    + cbn [title doc]. rewrite len_append, str_take_length.
      change (len "...") with 3. lia.
    + rewrite Hget. by rewrite decide_True.
    + intros other Hother. rewrite Hget. by rewrite decide_False.
  - intros [d Hd]. rewrite create_conversation_unfold, Hd. eexists. split; done.
Qed.

Lemma create_conversation_round_trip_witness :
  (∃ s',
     create_conversation demo_world "alice"
       {| role := "user"; content := "Is aspirin safe?"; timestamp := 7 |}
       (initial_state demo_db) = (s', Ok 1000%N)
     ∧ get_conversation_by_id "0000000000000000000003e8" "bob" s' = (s', Ok None))
  ∧ ∃ s',
      create_conversation demo_world "alice"
        {| role := "user"; content := "Is aspirin safe?"; timestamp := 7 |}
        (initial_state {[ 1000%N := bobs_conversation ]})
      = (s', Raise (LibraryError "DuplicateKeyError" "E11000 duplicate key error"))
      ∧ conversations s' = {[ 1000%N := bobs_conversation ]}.
Proof.
  split.
  - destruct (proj1 (create_conversation_round_trip demo_world "alice"
                       {| role := "user"; content := "Is aspirin safe?"; timestamp := 7 |}
                       (initial_state demo_db)) ltac:(vm_compute; reflexivity))
      as (s' & doc & Hrun & _ & _ & _ & Hother).
    exists s'. split; [exact Hrun|].
    exact (Hother "bob" ltac:(discriminate)).
  - exact (proj2 (create_conversation_round_trip demo_world "alice"
                    {| role := "user"; content := "Is aspirin safe?"; timestamp := 7 |}
                    (initial_state {[ 1000%N := bobs_conversation ]}))
                 ltac:(eexists; vm_compute; reflexivity)).
Defined.

Lemma after_invoke_unnamed (w : World) (request : ChatRequest) (user : User.t)
    (out : ChainOutput) (s : State) :
  truthy (conversation_id request) = false →
  conversations s !! next_object_id w s = None →
  ∃ s',
    after_invoke w request user out s
    = (s', Ok [("response", result out);
               ("conversation_id", str_oid (next_object_id w s))])
    ∧ conversations s'
      = <[next_object_id w s :=
            {| username := User.username user;
               title := str_take 50 (prompt request) +:+ "...";
               messages :=
                 [ {| role := "user"; content := prompt request;
                      timestamp := utcnow w (clock_reads s) |};
                   {| role := "assistant"; content := result out;
                      timestamp := utcnow w (S (clock_reads s)) |} ];
               created_at := utcnow w (S (S (clock_reads s))) |}]>
          (conversations s).
Proof.
  intros Hfalsy Hfresh.
  assert (Hstart :
            after_invoke w request user out s
            = start_conversation w (User.username user) (result out)
                {| role := "user"; content := prompt request;
                   timestamp := utcnow w (clock_reads s) |}
                {| role := "assistant"; content := result out;
                   timestamp := utcnow w (S (clock_reads s)) |}
                (set_clock_reads (S (S (clock_reads s)))
                   (set_clock_reads (S (clock_reads s)) s))).
  { unfold after_invoke, mbind, M_bind, datetime_utcnow. state_simpl.
    destruct (conversation_id request) as [cid|]; [|done]. by rewrite Hfalsy. }
  rewrite Hstart.
  unfold start_conversation, mbind at 1, M_bind at 1.
  rewrite create_conversation_unfold. state_simpl.
  change (next_object_id w (set_clock_reads _ (set_clock_reads _ s)))
    with (next_object_id w s).
  rewrite Hfresh. unfold add_message_to_conversation, mbind, M_bind, lift_result.
  rewrite (ObjectId_str_oid _ (next_object_id_bound w s)).
  unfold update_one_push, mret, M_ret. state_simpl.
  rewrite alter_insert_eq. eexists. split; reflexivity.
Qed.

(** X7. A first chat turn can be read back.  After a chat request
    without conversation id has been answered, [get_messages] with the
    returned id gives the requesting user the two messages of the turn,
    the question first, and gives any other user 404. *)
Theorem chat_then_get_messages (w : World) (request : ChatRequest) (user : User.t)
    (s s1 : State) (chain : RetrievalQA) (out : ChainOutput) :
  qa_chain s = Some chain →
  truthy (conversation_id request) = false →
  RetrievalQA_invoke w chain (prompt request) s = (s1, Ok out) →
  conversations s !! next_object_id w s = None →
  ∃ s' cid,
    chat_endpoint w request user s
    = (s', Ok [("response", result out); ("conversation_id", cid)])
    ∧ get_messages cid user s'
      = (s', Ok [("messages",
                  [ {| role := "user"; content := prompt request;
                       timestamp := utcnow w (clock_reads s) |};
                    {| role := "assistant"; content := result out;
                       timestamp := utcnow w (S (clock_reads s)) |} ])])
    ∧ ∀ other,
        User.username other ≠ User.username user →
        get_messages cid other s'
        = (s', Raise (HTTPException 404 "Conversation not found")).
Proof.
  intros Hchain Hfalsy Hinv Hfresh.
  pose proof (RetrievalQA_invoke_preserves conversations w chain (prompt request)
                ltac:(done) s) as Hdb.
  pose proof (RetrievalQA_invoke_preserves clock_reads w chain (prompt request)
                ltac:(done) s) as Hclock.
  pose proof (RetrievalQA_invoke_preserves ids_made w chain (prompt request)
                ltac:(done) s) as Hids.
  rewrite Hinv in Hdb, Hclock, Hids.
  state_simpl in Hdb. state_simpl in Hclock. state_simpl in Hids.
  assert (Hnext : next_object_id w s1 = next_object_id w s).
  { unfold next_object_id. by rewrite Hids. }
  destruct (after_invoke_unnamed w request user out s1 Hfalsy) as (s' & Hrun & Hconv).
  { by rewrite Hnext, Hdb. }
  rewrite Hnext, Hclock, Hdb in *.
  exists s', (str_oid (next_object_id w s)). split.
  { by rewrite (chat_endpoint_loaded _ _ _ _ _ Hchain), Hinv, Hrun. }
  match type of Hconv with _ = <[_ := ?d]> _ => set (doc := d) in * end.
  assert (Hget : ∀ u,
            get_conversation_by_id (str_oid (next_object_id w s)) (User.username u) s'
            = (s', Ok (if decide (User.username user = User.username u)
                       then Some {| Serialized.id := str_oid (next_object_id w s);
                                    Serialized.doc := doc |}
                       else None))).
  { intros u. rewrite get_conversation_by_id_unfold.
    rewrite (ObjectId_str_oid _ (next_object_id_bound w s)), Hconv.
    rewrite lookup_insert_eq. cbn [username doc].
    destruct (decide (User.username user = User.username u)); reflexivity. }
  split.
  - unfold get_messages, mbind, M_bind. rewrite Hget, decide_True by done. done.
  - intros other Hother. unfold get_messages, mbind, M_bind.
    rewrite Hget, decide_False by done. done.
Qed.

Lemma chat_then_get_messages_witness :
  ∃ s',
    chat_endpoint demo_world fever_request alice demo_state
    = (s', Ok [("response", "1. Rest. 2. Drink fluids.");
               ("conversation_id", "0000000000000000000003e8")])
    ∧ get_messages "0000000000000000000003e8" bob s'
      = (s', Raise (HTTPException 404 "Conversation not found")).
Proof.
  assert (H1 : qa_chain demo_state = Some raw_chain) by (vm_compute; reflexivity).
  assert (H2 : truthy (conversation_id fever_request) = false) by reflexivity.
  assert (H3 : RetrievalQA_invoke demo_world raw_chain (prompt fever_request) demo_state
               = ((RetrievalQA_invoke demo_world raw_chain (prompt fever_request) demo_state).1,
                  Ok {| query := prompt fever_request;
                        result := "1. Rest. 2. Drink fluids.";
                        source_documents :=
                          Some (snd <$> take 3 (sort_by_distance [9; 0]%Z demo_entries)) |}))
    by (vm_compute; reflexivity).
  assert (H4 : conversations demo_state !! next_object_id demo_world demo_state = None)
    by (vm_compute; reflexivity).
  destruct (chat_then_get_messages demo_world fever_request alice demo_state _ raw_chain
              _ H1 H2 H3 H4) as (s' & cid & Hrun & _ & Hother).
  assert (Hcid : cid = "0000000000000000000003e8").
  { assert (Hrun' : (chat_endpoint demo_world fever_request alice demo_state).2
                    = Ok [("response", "1. Rest. 2. Drink fluids.");
                          ("conversation_id", "0000000000000000000003e8")])
      by (vm_compute; reflexivity).
    rewrite Hrun in Hrun'. simpl in Hrun'. congruence. }
  subst cid. exists s'. split; [exact Hrun|].
  exact (Hother bob ltac:(discriminate)).
Defined.

(** ** Requests, the chain and the model *)

Lemma chat_endpoint_preserves_chain (w : World) (request : ChatRequest) (user : User.t) :
  preserves qa_chain (chat_endpoint w request user).
Proof.
  intros s. destruct (qa_chain s) as [chain|] eqn:Hchain.
  - rewrite (chat_endpoint_loaded _ _ _ _ _ Hchain).
    pose proof (RetrievalQA_invoke_preserves qa_chain w chain (prompt request)
                  ltac:(done) s) as Hinv.
    destruct (RetrievalQA_invoke w chain (prompt request) s) as [s1 [out|e]];
      state_simpl in Hinv; [|state_simpl; congruence].
    pose proof (after_invoke_preserves qa_chain w request user out
                  ltac:(done) ltac:(done) ltac:(done) s1) as Hafter.
    destruct (after_invoke w request user out s1) as [s2 [body|e]];
      state_simpl in Hafter; state_simpl; congruence.
  - rewrite chat_endpoint_unavailable by done. by state_simpl.
Qed.

Lemma chat_endpoint_calls (w : World) (request : ChatRequest) (user : User.t)
    (s : State) :
  model_calls (chat_endpoint w request user s).1 = model_calls s
  ∨ ∃ p, model_calls (chat_endpoint w request user s).1 = model_calls s ++ [p].
Proof.
  destruct (qa_chain s) as [chain|] eqn:Hchain.
  - rewrite (chat_endpoint_model_calls _ _ _ _ _ Hchain), RetrievalQA_invoke_unfold.
    destruct (retrieve _ _ _ _) as [docs|e]; [|by left].
    cbv zeta. right. eexists. by destruct (llm_call _ _ _ _).
  - left. by rewrite chat_endpoint_unavailable.
Qed.

(** ** What startup touches *)

Lemma load_llm_from_log (w : World) (keys : list (option string)) (s : State) :
  stdout s `prefix_of` stdout (load_llm_from w keys s).1.
Proof.
  revert s. induction keys as [|key keys IH]; intros s; [done|].
  simpl. destruct key as [k|]; [|apply IH].
  destruct (truthy (Some k)); [|apply IH].
  destruct (ChatOpenAI w (llm_config k)); [done|].
  unfold mbind, M_bind, print. etrans; [|apply IH]. state_simpl.
  by apply prefix_app_r.
Qed.

(** X9. [load_resources] touches nothing but the chain and the log: it
    sends nothing to the model, reads no clock, draws no id and leaves
    the stored conversations alone, and what was printed before is a
    prefix of what is printed after. *)
Theorem load_resources_frame (w : World) (s : State) :
  conversations (load_resources w s).1 = conversations s
  ∧ model_calls (load_resources w s).1 = model_calls s
  ∧ clock_reads (load_resources w s).1 = clock_reads s
  ∧ ids_made (load_resources w s).1 = ids_made s
  ∧ stdout s `prefix_of` stdout (load_resources w s).1
  ∧ stdout (load_resources w s).1 ≠ stdout s.
Proof.
  rewrite load_resources_unfold.
  pose proof (load_llm_from_preserves conversations w
                [getenv w "PRIMARY_GROQ_API_KEY"; getenv w "FALLBACK_GROQ_API_KEY"]
                ltac:(done) s) as H1.
  pose proof (load_llm_from_preserves model_calls w
                [getenv w "PRIMARY_GROQ_API_KEY"; getenv w "FALLBACK_GROQ_API_KEY"]
                ltac:(done) s) as H2.
  pose proof (load_llm_from_preserves clock_reads w
                [getenv w "PRIMARY_GROQ_API_KEY"; getenv w "FALLBACK_GROQ_API_KEY"]
                ltac:(done) s) as H3.
  pose proof (load_llm_from_preserves ids_made w
                [getenv w "PRIMARY_GROQ_API_KEY"; getenv w "FALLBACK_GROQ_API_KEY"]
                ltac:(done) s) as H4.
  pose proof (load_llm_from_log w
                [getenv w "PRIMARY_GROQ_API_KEY"; getenv w "FALLBACK_GROQ_API_KEY"] s)
    as H5.
  fold (load_llm w) in H1, H2, H3, H4, H5.
  assert (Hgrow : ∀ (l : list string) x, stdout s `prefix_of` l →
                    stdout s `prefix_of` l ++ [x] ∧ l ++ [x] ≠ stdout s).
  { intros l x Hl. split; [by apply prefix_app_r|].
    intros Heq. apply prefix_length in Hl.
    apply (f_equal length) in Heq. rewrite length_app in Heq. simpl in Heq. lia. }
  destruct (load_llm w s) as [s1 [llm|e]]; state_simpl in H1; state_simpl in H2;
    state_simpl in H3; state_simpl in H4; state_simpl in H5.
  - destruct (HuggingFaceEmbeddings_raises _ _);
      [state_simpl; by destruct (Hgrow (stdout s1) (failed_message e) H5)|].
    destruct (FAISS_load_local _ _ _ _) as [db|e]; state_simpl.
    + by destruct (Hgrow (stdout s1) loaded_message H5).
    + by destruct (Hgrow (stdout s1) (failed_message e) H5).
  - state_simpl. by destruct (Hgrow (stdout s1) (failed_message e) H5).
Qed.

(** ** Listing conversations *)

Global Instance newer_first_trans : Transitive newer_first.
Proof. unfold newer_first. intros a b c. lia. Qed.

Global Instance newer_first_total : Total newer_first.
Proof. unfold newer_first. intros a b. lia. Qed.

Lemma str_oid_inj (a b : N) :
  (a < 2 ^ 96)%N → (b < 2 ^ 96)%N → str_oid a = str_oid b → a = b.
Proof.
  intros Ha Hb Hab. pose proof (ObjectId_str_oid a Ha) as H.
  rewrite Hab, (ObjectId_str_oid b Hb) in H. congruence.
Qed.

Lemma elem_of_find_by_username_sorted (user : string) (db : gmap N ConvDoc)
    (p : N * ConvDoc) :
  p ∈ find_by_username_sorted user db ↔ db !! p.1 = Some p.2 ∧ username p.2 = user.
Proof.
  unfold find_by_username_sorted.
  rewrite merge_sort_Permutation, list_elem_of_filter, elem_of_map_to_list'.
  tauto.
Qed.

Lemma get_conversations_unfold (user : User.t) (s : State) :
  get_conversations user s
  = (s, Ok ((as_Conversation ∘ serialize_summary)
              <$> find_by_username_sorted (User.username user) (conversations s))).
Proof.
  unfold get_conversations, get_user_conversations, mbind, M_bind, mret, M_ret.
  by rewrite list_fmap_compose.
Qed.

(** X10. [get_conversations] lists the requesting user's conversations,
    all of them and no other: an entry is in the list exactly when it
    carries the printed id, the title and the creation time of a stored
    conversation of that user.  The list is ordered newest first, nothing
    is written, and when the stored ids are ObjectIds no id is listed
    twice. *)
Theorem get_conversations_lists_own (user : User.t) (s : State) :
  ∃ listed,
    get_conversations user s = (s, Ok listed)
    ∧ (∀ c, c ∈ listed ↔
          ∃ oid d, conversations s !! oid = Some d
                   ∧ username d = User.username user
                   ∧ c = {| Conversation.id := str_oid oid;
                            Conversation.title := title d;
                            Conversation.created_at := created_at d |})
    ∧ StronglySorted
        (fun a b => (Conversation.created_at b ≤ Conversation.created_at a)%Z) listed
    ∧ (valid_ids (conversations s) → NoDup (Conversation.id <$> listed)).
Proof.
  eexists. split; [apply get_conversations_unfold|]. split; [|split].
  - intros c. rewrite list_elem_of_fmap. split.
    + intros ([oid d] & -> & Hin).
      apply elem_of_find_by_username_sorted in Hin as [Hd Hu].
      by exists oid, d.
    + intros (oid & d & Hd & Hu & ->). exists (oid, d). split; [done|].
      by apply elem_of_find_by_username_sorted.
  - eapply StronglySorted_fmap; [|apply StronglySorted_merge_sort; apply _].
    by intros [a da] [b db].
  - intros Hvalid. rewrite <- list_fmap_compose.
    apply NoDup_fmap_2_strong.
    + intros [a da] [b db] Ha Hb Hab.
      apply elem_of_find_by_username_sorted in Ha as [Ha _].
      apply elem_of_find_by_username_sorted in Hb as [Hb _].
      simpl in *. assert (a = b) as ->.
      { apply str_oid_inj; [by eapply Hvalid|by eapply Hvalid|done]. }
      congruence.
    + unfold find_by_username_sorted. rewrite merge_sort_Permutation.
      apply NoDup_filter, NoDup_map_to_list.
Qed.

(** Alice's two conversations, the later one first; bob's is not there. *)
Lemma get_conversations_lists_own_witness :
  get_conversations alice (initial_state busy_db)
  = (initial_state busy_db,
     Ok [ {| Conversation.id := "000000000000000000001000";
             Conversation.title := "I cannot sleep...";
             Conversation.created_at := 1690000201 |};
          {| Conversation.id := "000000000000000000000010";
             Conversation.title := "Is aspirin safe?...";
             Conversation.created_at := 1690000101 |} ]).
Proof.
  destruct (get_conversations_lists_own alice (initial_state busy_db))
    as (listed & Hrun & _).
  rewrite Hrun. f_equal.
  assert (H : (get_conversations alice (initial_state busy_db)).2
              = Ok [ {| Conversation.id := "000000000000000000001000";
                        Conversation.title := "I cannot sleep...";
                        Conversation.created_at := 1690000201 |};
                     {| Conversation.id := "000000000000000000000010";
                        Conversation.title := "Is aspirin safe?...";
                        Conversation.created_at := 1690000101 |} ])
    by (vm_compute; reflexivity).
  rewrite Hrun in H. exact H.
Defined.

(** X11. Every conversation [get_conversations] lists can be opened by
    the user it was listed for: when the stored ids are ObjectIds, a
    listed entry is the printed id, the title and the creation time of a
    conversation that is stored for that user, and [get_messages] with
    the listed id returns the messages of that stored conversation; the
    same id gives any other user 404. *)
Theorem listed_conversations_open (user : User.t) (s : State)
    (listed : list Conversation.t) (c : Conversation.t) :
  valid_ids (conversations s) →
  get_conversations user s = (s, Ok listed) →
  c ∈ listed →
  (∃ oid d,
     conversations s !! oid = Some d
     ∧ Conversation.id c = str_oid oid
     ∧ username d = User.username user
     ∧ title d = Conversation.title c
     ∧ created_at d = Conversation.created_at c
     ∧ get_messages (Conversation.id c) user s = (s, Ok [("messages", messages d)]))
  ∧ ∀ other,
      User.username other ≠ User.username user →
      get_messages (Conversation.id c) other s
      = (s, Raise (HTTPException 404 "Conversation not found")).
Proof.
  intros Hvalid Hrun Hc.
  rewrite get_conversations_unfold in Hrun. injection Hrun as <-.
  apply list_elem_of_fmap in Hc as ([oid d] & -> & Hin).
  apply elem_of_find_by_username_sorted in Hin as [Hd Hu]. simpl in Hd, Hu.
  cbn [Conversation.id Conversation.title Conversation.created_at as_Conversation
       serialize_summary Summary.id Summary.title Summary.created_at compose fst snd].
  assert (Hget : ∀ u, get_messages (str_oid oid) u s
                      = if decide (username d = User.username u)
                        then (s, Ok [("messages", messages d)])
                        else (s, Raise (HTTPException 404 "Conversation not found"))).
  { intros u. unfold get_messages, mbind, M_bind.
    rewrite get_conversation_by_id_unfold, (ObjectId_str_oid _ (Hvalid _ _ Hd)), Hd.
    by destruct (decide (username d = User.username u)). }
  split.
  - exists oid, d. rewrite Hget, decide_True by done. done.
  - intros other Hother. rewrite Hget, decide_False by congruence. done.
Qed.

(** Alice opens the newer of her two conversations and finds its one
    message; bob gets 404 for the same id. *)
Lemma listed_conversations_open_witness :
  get_messages "000000000000000000001000" alice (initial_state busy_db)
  = (initial_state busy_db,
     Ok [("messages", [ {| role := "user"; content := "I cannot sleep";
                           timestamp := 1690000200 |} ])])
  ∧ get_messages "000000000000000000001000" bob (initial_state busy_db)
    = (initial_state busy_db, Raise (HTTPException 404 "Conversation not found")).
Proof.
  assert (H1 : valid_ids (conversations (initial_state busy_db))).
  { intros oid d Hd. cbn [conversations initial_state] in Hd. unfold busy_db in Hd.
    repeat (apply lookup_insert_Some in Hd as [[<- _]|[_ Hd]]; [done|]).
    apply lookup_singleton_Some in Hd as [<- _]. done. }
  assert (H2 : get_conversations alice (initial_state busy_db)
               = (initial_state busy_db,
                  Ok [ {| Conversation.id := "000000000000000000001000";
                          Conversation.title := "I cannot sleep...";
                          Conversation.created_at := 1690000201 |};
                       {| Conversation.id := "000000000000000000000010";
                          Conversation.title := "Is aspirin safe?...";
                          Conversation.created_at := 1690000101 |} ])).
  { rewrite get_conversations_unfold. vm_compute. reflexivity. }
  destruct (listed_conversations_open alice (initial_state busy_db) _
              {| Conversation.id := "000000000000000000001000";
                 Conversation.title := "I cannot sleep...";
                 Conversation.created_at := 1690000201 |}
              H1 H2 ltac:(left)) as [(oid & d & Hd & Hid & Hu & Ht & Hc & Hget) Hother].
  split; [|exact (Hother bob ltac:(discriminate))].
  cbn [Conversation.id Conversation.title Conversation.created_at] in *.
  rewrite Hget. do 3 f_equal.
  cbn [conversations initial_state] in Hd. unfold busy_db in Hd.
  repeat (apply lookup_insert_Some in Hd as [[<- <-]|[_ Hd]];
          [first [done | by vm_compute in Hid]|]).
  apply lookup_singleton_Some in Hd as [<- <-]. by vm_compute in Hid.
Defined.

(** ** Accounts *)

Lemma account_None (name : string) (l : list UserDoc.t) :
  account name l = None ↔ name ∉ (fun d => User.username (UserDoc.user d)) <$> l.
Proof.
  unfold account. rewrite fmap_None, list_find_None, Forall_forall, list_elem_of_fmap.
  split.
  - intros H (d & -> & Hd). by apply (H d).
  - intros H d Hd Hname. apply H. by exists d.
Qed.

Lemma account_Some (name : string) (l : list UserDoc.t) (d : UserDoc.t) :
  account name l = Some d → d ∈ l ∧ User.username (UserDoc.user d) = name.
Proof.
  unfold account. intros ([i d'] & Hfind & ->)%fmap_Some.
  apply list_find_Some in Hfind as (Hi & Hname & _).
  split; [by eapply list_elem_of_lookup_2|done].
Qed.

Lemma account_snoc (name : string) (l : list UserDoc.t) (d : UserDoc.t) :
  account name (l ++ [d])
  = match account name l with
    | Some d' => Some d'
    | None => if decide (User.username (UserDoc.user d) = name) then Some d else None
    end.
Proof.
  unfold account.
  destruct (list_find _ l) as [[i d']|] eqn:Hfind.
  - by rewrite (list_find_app_l _ _ _ _ _ Hfind).
  - rewrite (list_find_app_r _ _ _ Hfind). simpl.
    by destruct (decide (User.username (UserDoc.user d) = name)).
Qed.

Lemma create_user_unfold (w : World) (name hashed : string) (x : Site) :
  create_user w name hashed x
  = let d := {| UserDoc._id := next_object_id w (app x);
                UserDoc.user := {| User.username := name;
                                   User.hashed_password := hashed |};
                UserDoc.created_at := utcnow w (clock_reads (app x)) |} in
    let s' := set_ids_made (S (ids_made (app x)))
                (set_clock_reads (S (clock_reads (app x))) (app x)) in
    if decide (UserDoc._id d ∈ UserDoc._id <$> users x) then
      ({| app := s'; users := users x; hashes_made := hashes_made x |},
       Raise (LibraryError "DuplicateKeyError" "E11000 duplicate key error"))
    else
      ({| app := s'; users := users x ++ [d]; hashes_made := hashes_made x |},
       Ok (UserDoc._id d)).
Proof.
  unfold create_user, mbind, SiteM_bind, on_app, datetime_utcnow, draw_object_id,
    insert_user.
  cbn [app users hashes_made UserDoc._id].
  change (next_object_id w (set_clock_reads (S (clock_reads (app x))) (app x)))
    with (next_object_id w (app x)).
  cbv zeta. by case_decide.
Qed.

Lemma register_free (lib : AuthLib) (w : World) (user : UserCreate.t) (x : Site)
    (hashed : string) :
  UserCreate.username user ∉ usernames x →
  pwd_context_hash lib (hashes_made x) (UserCreate.password user) = Ok hashed →
  next_object_id w (app x) ∉ UserDoc._id <$> users x →
  ∃ x',
    register lib w user x = (x', Ok [("message", "User registered successfully")])
    ∧ users x'
      = users x ++
        [ {| UserDoc._id := next_object_id w (app x);
             UserDoc.user := {| User.username := UserCreate.username user;
                                User.hashed_password := hashed |};
             UserDoc.created_at := utcnow w (clock_reads (app x)) |} ].
Proof.
  intros Hfree Hhash Hfresh. unfold register, mbind, SiteM_bind, get_user.
  apply account_None in Hfree. rewrite Hfree.
  unfold get_password_hash. rewrite Hhash.
  rewrite create_user_unfold. cbn [app users hashes_made UserDoc._id]. cbv zeta.
  rewrite decide_False by done.
  eexists. split; [reflexivity|]. by cbn [app users].
Qed.

(** X12. [register] refuses a user name that has an account with 400
    "Username already exists", changing nothing and hashing nothing.  For
    a free user name it appends one account, which holds the user name and
    what the hashing library returned for the password, and leaves the
    accounts already there and the conversations as they were. *)
Theorem register_outcomes (lib : AuthLib) (w : World) (user : UserCreate.t) (x : Site) :
  (UserCreate.username user ∈ usernames x →
   register lib w user x = (x, Raise (HTTPException 400 "Username already exists")))
  ∧ (∀ hashed,
       UserCreate.username user ∉ usernames x →
       pwd_context_hash lib (hashes_made x) (UserCreate.password user) = Ok hashed →
       next_object_id w (app x) ∉ UserDoc._id <$> users x →
       ∃ x',
         register lib w user x = (x', Ok [("message", "User registered successfully")])
         ∧ users x'
           = users x ++
             [ {| UserDoc._id := next_object_id w (app x);
                  UserDoc.user := {| User.username := UserCreate.username user;
                                     User.hashed_password := hashed |};
                  UserDoc.created_at := utcnow w (clock_reads (app x)) |} ]
         ∧ conversations (app x') = conversations (app x)).
Proof.
  split.
  - intros Htaken. unfold register, mbind, SiteM_bind, get_user.
    destruct (account (UserCreate.username user) (users x)) as [d|] eqn:Hacc; [done|].
    by apply account_None in Hacc.
  - intros hashed Hfree Hhash Hfresh. unfold register, mbind, SiteM_bind, get_user.
    apply account_None in Hfree. rewrite Hfree.
    unfold get_password_hash. rewrite Hhash.
    rewrite create_user_unfold. cbn [app users hashes_made UserDoc._id]. cbv zeta.
    rewrite decide_False by done.
    eexists. split; [reflexivity|]. by cbn [app users].
Qed.

Lemma register_outcomes_witness :
  register demo_auth demo_world
    {| UserCreate.username := "bob"; UserCreate.password := "hunter2" |} demo_site
  = (demo_site, Raise (HTTPException 400 "Username already exists"))
  ∧ ∃ x',
      register demo_auth demo_world
        {| UserCreate.username := "alice"; UserCreate.password := "hunter2" |} demo_site
      = (x', Ok [("message", "User registered successfully")])
      ∧ usernames x' = ["bob"; "alice"].
Proof.
  split.
  - apply (proj1 (register_outcomes demo_auth demo_world
                    {| UserCreate.username := "bob"; UserCreate.password := "hunter2" |}
                    demo_site)).
    vm_compute. left.
  - destruct (proj2 (register_outcomes demo_auth demo_world
                       {| UserCreate.username := "alice";
                          UserCreate.password := "hunter2" |} demo_site)
                    "[hunter2]") as (x' & Hrun & Husers & _).
    + vm_compute. intros H. inversion H as [|? ? ? H']. inversion H'.
    + reflexivity.
    + vm_compute. intros H. inversion H as [|? ? ? H']. inversion H'.
    + exists x'. split; [exact Hrun|]. unfold usernames. rewrite Husers. reflexivity.
Defined.

Lemma register_users (lib : AuthLib) (w : World) (user : UserCreate.t) (x : Site) :
  users (register lib w user x).1 = users x
  ∨ ((UserCreate.username user ∉ usernames x)
     ∧ ∃ d, users (register lib w user x).1 = users x ++ [d]
            ∧ User.username (UserDoc.user d) = UserCreate.username user).
Proof.
  unfold register, mbind, SiteM_bind, get_user.
  destruct (account (UserCreate.username user) (users x)) as [d|] eqn:Hacc;
    [by left|].
  apply account_None in Hacc.
  unfold get_password_hash.
  destruct (pwd_context_hash lib (hashes_made x) (UserCreate.password user))
    as [hashed|e]; [|by left].
  rewrite create_user_unfold. cbn [app users hashes_made UserDoc._id]. cbv zeta.
  case_decide; [by left|]. right. split; [done|]. eexists. by split.
Qed.

(** X13. Registration keeps user names unique and accounts in place:
    whatever [register] answers, the accounts that were there are still
    there, unchanged and in front, and if no two accounts shared a user
    name before, none do afterwards. *)
Theorem register_keeps_usernames_unique (lib : AuthLib) (w : World)
    (user : UserCreate.t) (x : Site) :
  NoDup (usernames x) →
  NoDup (usernames (register lib w user x).1)
  ∧ users x `prefix_of` users (register lib w user x).1.
Proof.
  intros Hnodup. unfold usernames in *.
  destruct (register_users lib w user x) as [->|(Hfree & d & -> & Hd)]; [done|].
  split; [|by apply prefix_app_r].
  rewrite fmap_app. apply NoDup_app. split; [done|]. split.
  - intros name Hname [->|[]%elem_of_nil]%elem_of_cons. simpl in *. by rewrite Hd in Hname.
  - simpl. apply NoDup_singleton.
Qed.

Lemma register_keeps_usernames_unique_witness :
  NoDup (usernames
           (register demo_auth demo_world
              {| UserCreate.username := "alice"; UserCreate.password := "hunter2" |}
              demo_site).1).
Proof.
  apply (register_keeps_usernames_unique demo_auth demo_world
           {| UserCreate.username := "alice"; UserCreate.password := "hunter2" |}
           demo_site).
  vm_compute. apply NoDup_singleton.
Defined.

(** ** Logging in *)

Lemma create_access_token_unfold (lib : AuthLib) (w : World) (data : Payload) (x : Site) :
  create_access_token lib w data x
  = (tick x,
     jwt_encode lib
       {| sub := sub data;
          exp := Some (utcnow w (clock_reads (app x)) + ACCESS_TOKEN_EXPIRE_SECONDS)%Z |}
       (SECRET_KEY lib) (ALGORITHM lib)).
Proof. reflexivity. Qed.

Lemma login_unfold (lib : AuthLib) (w : World) (form : Form.t) (x : Site) :
  login lib w form x
  = match account (Form.username form) (users x) with
    | None => (x, Raise invalid_credentials)
    | Some d =>
        match pwd_context_verify lib (Form.password form)
                (User.hashed_password (UserDoc.user d)) with
        | Ok true =>
            match jwt_encode lib
                    {| sub := Some (User.username (UserDoc.user d));
                       exp := Some (utcnow w (clock_reads (app x))
                                    + ACCESS_TOKEN_EXPIRE_SECONDS)%Z |}
                    (SECRET_KEY lib) (ALGORITHM lib) with
            | Ok token => (tick x, Ok [("access_token", token); ("token_type", "bearer")])
            | Raise e => (tick x, Raise e)
            end
        | Ok false => (x, Raise invalid_credentials)
        | Raise e => (x, Raise e)
        end
    end.
Proof.
  unfold login, mbind, SiteM_bind, get_user.
  destruct (account (Form.username form) (users x)) as [d|]; [|done].
  unfold verify_password.
  destruct (pwd_context_verify _ _ _) as [[]|e]; [|done..].
  rewrite create_access_token_unfold.
  by destruct (jwt_encode _ _ _ _).
Qed.

(** X14. [login] gives one and the same answer, 401 "Incorrect username
    or password", for a user name without account and for a wrong
    password; in both cases no token is made and nothing changes. *)
Theorem login_rejects (lib : AuthLib) (w : World) (form : Form.t) (x : Site) :
  (Form.username form ∉ usernames x)
  ∨ (∃ d, account (Form.username form) (users x) = Some d
          ∧ pwd_context_verify lib (Form.password form)
              (User.hashed_password (UserDoc.user d)) = Ok false) →
  login lib w form x = (x, Raise (HTTPException 401 "Incorrect username or password")).
Proof.
  rewrite login_unfold. intros [Hnone|(d & -> & ->)]; [|done].
  apply account_None in Hnone. by rewrite Hnone.
Qed.

Lemma login_rejects_witness :
  login demo_auth demo_world
    {| Form.username := "carol"; Form.password := "x" |} demo_site
  = (demo_site, Raise (HTTPException 401 "Incorrect username or password"))
  ∧ login demo_auth demo_world
      {| Form.username := "bob"; Form.password := "wrong" |} demo_site
    = (demo_site, Raise (HTTPException 401 "Incorrect username or password")).
Proof.
  split.
  - apply login_rejects. left. vm_compute.
    intros H. inversion H as [|? ? ? H']. inversion H'.
  - apply login_rejects. right. eexists. split; vm_compute; reflexivity.
Defined.

(** X15. Registering and then logging in.  After [register] has made an
    account, [login] with the same user name and a password that the
    library accepts against the stored hash answers with a bearer token:
    the token the library encodes for the claims [sub], the user name, and
    [exp], one hour after the time of the login. *)
Theorem register_then_login (lib : AuthLib) (w : World) (user : UserCreate.t)
    (x x1 : Site) (hashed token : string) :
  UserCreate.username user ∉ usernames x →
  pwd_context_hash lib (hashes_made x) (UserCreate.password user) = Ok hashed →
  next_object_id w (app x) ∉ UserDoc._id <$> users x →
  register lib w user x = (x1, Ok [("message", "User registered successfully")]) →
  pwd_context_verify lib (UserCreate.password user) hashed = Ok true →
  jwt_encode lib
    {| sub := Some (UserCreate.username user);
       exp := Some (utcnow w (clock_reads (app x1)) + 60 * 60)%Z |}
    (SECRET_KEY lib) (ALGORITHM lib) = Ok token →
  login lib w {| Form.username := UserCreate.username user;
                 Form.password := UserCreate.password user |} x1
  = (tick x1, Ok [("access_token", token); ("token_type", "bearer")]).
Proof.
  intros Hfree Hhash Hfresh Hreg Hverify Hencode.
  destruct (register_free lib w user x hashed Hfree Hhash Hfresh)
    as (x' & Hreg' & Husers).
  rewrite Hreg in Hreg'. injection Hreg' as <-.
  rewrite login_unfold. cbn [Form.username Form.password].
  rewrite Husers, account_snoc.
  apply account_None in Hfree. rewrite Hfree.
  cbn [UserDoc.user User.username User.hashed_password].
  rewrite decide_True by done.
  cbn [UserDoc.user User.username User.hashed_password].
  unfold ACCESS_TOKEN_EXPIRE_SECONDS. by rewrite Hverify, Hencode.
Qed.

Lemma register_then_login_witness :
  ∃ x1,
    login demo_auth demo_world
      {| Form.username := "alice"; Form.password := "hunter2" |} x1
    = (tick x1, Ok [("access_token", "jwt.alice"); ("token_type", "bearer")]).
Proof.
  exists (register demo_auth demo_world
            {| UserCreate.username := "alice"; UserCreate.password := "hunter2" |}
            demo_site).1.
  apply (register_then_login demo_auth demo_world
           {| UserCreate.username := "alice"; UserCreate.password := "hunter2" |}
           demo_site _ "[hunter2]" "jwt.alice").
  - vm_compute. intros H. inversion H as [|? ? ? H']. inversion H'.
  - reflexivity.
  - vm_compute. intros H. inversion H as [|? ? ? H']. inversion H'.
  - vm_compute. reflexivity.
  - reflexivity.
  - reflexivity.
Defined.

(** ** Who gets past [get_current_user] *)

Lemma verify_token_unfold (lib : AuthLib) (w : World) (token : string) (x : Site) :
  verify_token lib w token x
  = match jwt_decode lib (utcnow w (clock_reads (app x))) token
            (SECRET_KEY lib) [ALGORITHM lib] with
    | Ok payload =>
        (tick x, Ok (match sub payload with
                     | Some name => if decide (name = "") then None else Some name
                     | None => None
                     end))
    | Raise e => (tick x, if is_JWTError e then Ok None else Raise e)
    end.
Proof.
  unfold verify_token, mbind, SiteM_bind, on_app, datetime_utcnow.
  cbn [app users hashes_made]. fold (tick x).
  destruct (jwt_decode _ _ _ _ _) as [payload|e].
  - destruct (sub payload) as [name|]; [|done]. by destruct (decide (name = "")).
  - by destruct (is_JWTError e).
Qed.

(** X16. [get_current_user] lets a token through only if the library
    decodes it, its subject is a non-empty user name, and an account has
    that user name; it then hands over the first such account.  A token
    that does not decode, or without subject, or with the empty subject,
    gets 401 "Invalid token"; a subject without account gets 404 "User
    not found".  The accounts and the conversations are not touched. *)
Theorem get_current_user_outcomes (lib : AuthLib) (w : World) (token : string)
    (x : Site) :
  (∀ x' user,
     get_current_user lib w token x = (x', Ok user) →
     ∃ payload d,
       jwt_decode lib (utcnow w (clock_reads (app x))) token
         (SECRET_KEY lib) [ALGORITHM lib] = Ok payload
       ∧ sub payload = Some (User.username user)
       ∧ User.username user ≠ ""
       ∧ account (User.username user) (users x) = Some d
       ∧ UserDoc.user d = user)
  ∧ (∀ e,
       jwt_decode lib (utcnow w (clock_reads (app x))) token
         (SECRET_KEY lib) [ALGORITHM lib] = Raise e →
       is_JWTError e = true →
       get_current_user lib w token x = (tick x, Raise (HTTPException 401 "Invalid token")))
  ∧ (∀ payload,
       jwt_decode lib (utcnow w (clock_reads (app x))) token
         (SECRET_KEY lib) [ALGORITHM lib] = Ok payload →
       sub payload = None ∨ sub payload = Some "" →
       get_current_user lib w token x = (tick x, Raise (HTTPException 401 "Invalid token")))
  ∧ (∀ payload name,
       jwt_decode lib (utcnow w (clock_reads (app x))) token
         (SECRET_KEY lib) [ALGORITHM lib] = Ok payload →
       sub payload = Some name → name ≠ "" →
       get_current_user lib w token x
       = (tick x,
          match account name (users x) with
          | Some d => Ok (UserDoc.user d)
          | None => Raise (HTTPException 404 "User not found")
          end))
  ∧ users (get_current_user lib w token x).1 = users x
  ∧ conversations (app (get_current_user lib w token x).1) = conversations (app x).
Proof.
  unfold get_current_user, mbind, SiteM_bind. rewrite verify_token_unfold.
  unfold get_user. repeat split.
  - intros x' user.
    destruct (jwt_decode _ _ _ _ _) as [payload|e].
    + destruct (sub payload) as [name|] eqn:Hsub; [|discriminate].
      destruct (decide (name = "")) as [->|Hname]; [discriminate|].
      cbn [users tick].
      destruct (account name (users x)) as [d|] eqn:Hacc; [|discriminate].
      intros [= <- <-]. exists payload, d.
      apply account_Some in Hacc as Hd. destruct Hd as [_ Hd].
      rewrite Hd. by repeat split.
    + destruct (is_JWTError e); discriminate.
  - intros e -> He. by rewrite He.
  - intros payload -> [->| ->]; [done|]. by rewrite decide_True.
  - intros payload name -> -> Hname. rewrite decide_False by done.
    cbn [users tick]. by destruct (account name (users x)).
  - destruct (jwt_decode _ _ _ _ _) as [payload|e].
    + destruct (sub payload) as [name|]; [|done].
      destruct (decide (name = "")); [done|]. cbn [users tick].
      by destruct (account name (users x)).
    + by destruct (is_JWTError e).
  - destruct (jwt_decode _ _ _ _ _) as [payload|e].
    + destruct (sub payload) as [name|]; [|done].
      destruct (decide (name = "")); [done|]. cbn [users tick].
      by destruct (account name (users x)).
    + by destruct (is_JWTError e).
Qed.

Lemma get_current_user_outcomes_witness :
  get_current_user demo_auth demo_world "garbage" demo_site
  = (tick demo_site, Raise (HTTPException 401 "Invalid token"))
  ∧ get_current_user demo_auth demo_world "jwt." demo_site
    = (tick demo_site, Raise (HTTPException 401 "Invalid token"))
  ∧ get_current_user demo_auth demo_world "jwt.carol" demo_site
    = (tick demo_site, Raise (HTTPException 404 "User not found"))
  ∧ get_current_user demo_auth demo_world "jwt.bob" demo_site = (tick demo_site, Ok bob).
Proof.
  destruct (get_current_user_outcomes demo_auth demo_world "garbage" demo_site)
    as (_ & H1 & _).
  destruct (get_current_user_outcomes demo_auth demo_world "jwt." demo_site)
    as (_ & _ & H2 & _).
  destruct (get_current_user_outcomes demo_auth demo_world "jwt.carol" demo_site)
    as (_ & _ & _ & H3 & _).
  destruct (get_current_user_outcomes demo_auth demo_world "jwt.bob" demo_site)
    as (_ & _ & _ & H4 & _).
  split; [|split; [|split]].
  - exact (H1 _ eq_refl eq_refl).
  - exact (H2 _ eq_refl (or_intror eq_refl)).
  - exact (H3 _ "carol" eq_refl eq_refl ltac:(discriminate)).
  - exact (H4 _ "bob" eq_refl eq_refl ltac:(discriminate)).
Defined.

Lemma get_current_user_state (lib : AuthLib) (w : World) (token : string) (x : Site) :
  (get_current_user lib w token x).1 = tick x.
Proof.
  unfold get_current_user, mbind, SiteM_bind. rewrite verify_token_unfold.
  unfold get_user.
  destruct (jwt_decode _ _ _ _ _) as [payload|e].
  - destruct (sub payload) as [name|]; [|done].
    destruct (decide (name = "")); [done|]. cbn [users tick].
    by destruct (account name (users x)).
  - by destruct (is_JWTError e).
Qed.

(** X17. The token is checked before anything else.  When
    [get_current_user] refuses the token of a chat request, the request
    is answered with that refusal, also when the chain is not loaded; the
    chat endpoint is not entered, so no model call is made and nothing is
    stored.  When the token is accepted, the endpoint runs for the
    account found. *)
Theorem chat_needs_account (lib : AuthLib) (w : World) (token : string)
    (request : ChatRequest) (x : Site) :
  (∀ e,
     (get_current_user lib w token x).2 = Raise e →
     with_current_user lib w token (chat_endpoint w request) x = (tick x, Raise e)
     ∧ model_calls (app (tick x)) = model_calls (app x)
     ∧ conversations (app (tick x)) = conversations (app x))
  ∧ (∀ user,
       (get_current_user lib w token x).2 = Ok user →
       with_current_user lib w token (chat_endpoint w request) x
       = on_app (chat_endpoint w request user) (tick x)).
Proof.
  unfold with_current_user, mbind, SiteM_bind.
  pose proof (get_current_user_state lib w token x) as Hstate.
  destruct (get_current_user lib w token x) as [x' [user|e]]; simpl in Hstate; subst x'.
  - split; [discriminate|]. by intros user' [= <-].
  - split; [|discriminate]. by intros e' [= <-].
Qed.

Lemma chat_needs_account_witness :
  with_current_user demo_auth keyless_world "garbage" (chat_endpoint keyless_world fever_request)
    {| app := initial_state demo_db; users := users demo_site; hashes_made := 1 |}
  = (tick {| app := initial_state demo_db; users := users demo_site; hashes_made := 1 |},
     Raise (HTTPException 401 "Invalid token")).
Proof.
  exact (proj1 (proj1 (chat_needs_account demo_auth keyless_world "garbage" fever_request
                         {| app := initial_state demo_db; users := users demo_site;
                            hashes_made := 1 |})
                      (HTTPException 401 "Invalid token") eq_refl)).
Defined.

Lemma get_current_user_decoded (lib : AuthLib) (w : World) (token : string) (x : Site)
    (payload : Payload) (name : string) :
  jwt_decode lib (utcnow w (clock_reads (app x))) token (SECRET_KEY lib) [ALGORITHM lib]
  = Ok payload →
  sub payload = Some name →
  get_current_user lib w token x
  = (tick x,
     if decide (name = "") then Raise (HTTPException 401 "Invalid token")
     else match account name (users x) with
          | Some d => Ok (UserDoc.user d)
          | None => Raise (HTTPException 404 "User not found")
          end).
Proof.
  intros Hdecode Hsub.
  unfold get_current_user, mbind, SiteM_bind. rewrite verify_token_unfold.
  unfold get_user. rewrite Hdecode, Hsub.
  destruct (decide (name = "")); [done|].
  cbn [users tick]. by destruct (account name (users x)).
Qed.

(** ** The whole service *)

Lemma register_app (lib : AuthLib) (w : World) (user : UserCreate.t) (x : Site) :
  conversations (app (register lib w user x).1) = conversations (app x)
  ∧ qa_chain (app (register lib w user x).1) = qa_chain (app x)
  ∧ model_calls (app (register lib w user x).1) = model_calls (app x).
Proof.
  unfold register, mbind, SiteM_bind, get_user.
  destruct (account (UserCreate.username user) (users x)) as [d|]; [done|].
  unfold get_password_hash.
  destruct (pwd_context_hash lib (hashes_made x) (UserCreate.password user))
    as [hashed|e]; [|done].
  rewrite create_user_unfold. cbn [app users hashes_made UserDoc._id]. cbv zeta.
  by case_decide.
Qed.

Lemma login_app (lib : AuthLib) (w : World) (form : Form.t) (x : Site) :
  (login lib w form x).1 = x ∨ (login lib w form x).1 = tick x.
Proof.
  rewrite login_unfold.
  destruct (account (Form.username form) (users x)) as [d|]; [|by left].
  destruct (pwd_context_verify _ _ _) as [[]|e]; [|by left..].
  right. by destruct (jwt_encode _ _ _ _).
Qed.

(** What a request does to the state of [main.py]: it leaves the
    conversations, the chain and the record of model calls alone, or it
    is a chat request that got past the dependencies, and the state is
    the one [chat_endpoint] leaves. *)
Lemma call_effect (lib : AuthLib) (w : World) (c : Call) (x : Site) :
  (conversations (app (call lib w c x).1) = conversations (app x)
   ∧ qa_chain (app (call lib w c x).1) = qa_chain (app x)
   ∧ model_calls (app (call lib w c x).1) = model_calls (app x))
  ∨ ∃ authorization request user s0,
      c = PostChat authorization request
      ∧ conversations s0 = conversations (app x)
      ∧ qa_chain s0 = qa_chain (app x)
      ∧ model_calls s0 = model_calls (app x)
      ∧ app (call lib w c x).1 = (chat_endpoint w request user s0).1.
Proof.
  assert (Hdep : ∀ A (endpoint : User.t → M A) (k : A → Reply) authorization,
            (∀ user s, (endpoint user s).1 = s) →
            let x' := ((authenticated lib w authorization endpoint
                          ≫= fun body => mret (k body)) x).1 in
            conversations (app x') = conversations (app x)
            ∧ qa_chain (app x') = qa_chain (app x)
            ∧ model_calls (app x') = model_calls (app x)).
  { intros A endpoint k [token|] Hend; [|done].
    unfold authenticated, oauth2_scheme, with_current_user, mbind, SiteM_bind.
    pose proof (get_current_user_state lib w token x) as Hst.
    destruct (get_current_user lib w token x) as [x1 [user|e]]; simpl in Hst; subst x1;
      [|done].
    unfold on_app. specialize (Hend user (app (tick x))).
    destruct (endpoint user (app (tick x))) as [s' [body|e]]; simpl in Hend; by subst s'. }
  destruct c as [user|username password|authorization|authorization cid
                 |authorization request].
  - left. unfold call, mbind, SiteM_bind.
    pose proof (register_app lib w user x) as H.
    by destruct (register lib w user x) as [x1 [body|e]].
  - left. unfold call.
    destruct (OAuth2PasswordRequestForm username password) as [form|e]; [|done].
    unfold mbind, SiteM_bind.
    pose proof (login_app lib w form x) as H.
    destruct (login lib w form x) as [x1 [body|e]]; simpl in H;
      by destruct H as [->| ->].
  - left. apply (Hdep _ get_conversations Listed authorization).
    intros user s. by rewrite get_conversations_unfold.
  - left. apply (Hdep _ (get_messages cid) Opened authorization).
    intros user s. apply get_messages_state.
  - destruct authorization as [token|]; [|by left].
    unfold call, authenticated, oauth2_scheme, with_current_user, mbind, SiteM_bind.
    pose proof (get_current_user_state lib w token x) as Hst.
    destruct (get_current_user lib w token x) as [x1 [user|e]]; simpl in Hst; subst x1;
      [|by left].
    right. exists (Some token), request, user, (app (tick x)).
    split; [done|]. split; [done|]. split; [done|]. split; [done|].
    unfold on_app.
    by destruct (chat_endpoint w request user (app (tick x))) as [s' [body|e]].
Qed.

(** X4. Stored conversations are append-only.  Whatever requests the
    service answers, to any of its five routes, with or without a valid
    token, and however each of them ends, every conversation that was
    stored is still stored under the same id, with the same owner, title
    and creation time, and its earlier messages are a prefix of its
    messages now. *)
Theorem conversations_append_only (lib : AuthLib) (w : World) (calls : list Call)
    (x : Site) (oid : N) (d : ConvDoc) :
  conversations (app x) !! oid = Some d →
  ∃ d',
    conversations (app (run lib w calls x).1) !! oid = Some d'
    ∧ username d' = username d ∧ title d' = title d
    ∧ created_at d' = created_at d
    ∧ messages d `prefix_of` messages d'.
Proof.
  assert (Hrun : ∀ calls x,
            grows (conversations (app x)) (conversations (app (run lib w calls x).1))).
  { clear. intros calls. induction calls as [|c calls IH]; intros x; [done|].
    cbn [run]. specialize (IH (call lib w c x).1).
    assert (Hstep : grows (conversations (app x))
                      (conversations (app (call lib w c x).1))).
    { destruct (call_effect lib w c x)
        as [(Hdb & _)|(authorization & request & user & s0 & _ & Hdb & _ & _ & Happ)].
      - rewrite Hdb. reflexivity.
      - rewrite Happ, <- Hdb.
        apply (db_step_chat_endpoint grows grows_push grows_insert). }
    destruct (call lib w c x) as [x1 r]. cbn [fst] in *.
    destruct (run lib w calls x1) as [x2 rs]. cbn [fst] in *.
    etrans; [exact Hstep|exact IH]. }
  intros Hd. exact (Hrun calls x oid d Hd).
Qed.

(** Somebody registers, carol logs in and asks a follow-up question in
    bob's conversation, and a request without token asks for the list:
    the conversation is still bob's and starts with its old messages. *)
Lemma conversations_append_only_witness :
  ∃ d',
    conversations
      (app (run demo_auth demo_world
              [ PostRegister {| UserCreate.username := "dave"; UserCreate.password := "pw" |};
                PostToken "carol" "pw";
                PostChat (Some "jwt.carol") follow_up_request;
                GetConversations None ] carol_site).1) !! 255%N = Some d'
    ∧ username d' = "bob" ∧ title d' = "I have a headache..."
    ∧ created_at d' = 1690000002%Z
    ∧ messages bobs_conversation `prefix_of` messages d'.
Proof.
  assert (H : conversations (app carol_site) !! 255%N = Some bobs_conversation)
    by (vm_compute; reflexivity).
  exact (conversations_append_only demo_auth demo_world
           [ PostRegister {| UserCreate.username := "dave"; UserCreate.password := "pw" |};
             PostToken "carol" "pw";
             PostChat (Some "jwt.carol") follow_up_request;
             GetConversations None ] carol_site 255%N bobs_conversation H).
Defined.

(** X8. Answering requests never changes the chain, and costs at most one
    model call for each request to [/chat] and none for a request to any
    other route: the prompts sent before are a prefix of the prompts
    sent, and at most as many were added as there were chat requests. *)
Theorem run_model_calls (lib : AuthLib) (w : World) (calls : list Call) (x : Site) :
  qa_chain (app (run lib w calls x).1) = qa_chain (app x)
  ∧ model_calls (app x) `prefix_of` model_calls (app (run lib w calls x).1)
  ∧ length (model_calls (app (run lib w calls x).1))
    ≤ length (model_calls (app x)) + chat_calls calls.
Proof.
  revert x. induction calls as [|c calls IH]; intros x.
  - simpl. split; [done|]. split; [done|lia].
  - cbn [run]. specialize (IH (call lib w c x).1).
    assert (Hstep : qa_chain (app (call lib w c x).1) = qa_chain (app x)
                    ∧ model_calls (app x) `prefix_of` model_calls (app (call lib w c x).1)
                    ∧ length (model_calls (app (call lib w c x).1)) + chat_calls calls
                      ≤ length (model_calls (app x)) + chat_calls (c :: calls)).
    { destruct (call_effect lib w c x)
        as [(_ & Hqa & Hcalls)
           |(authorization & request & user & s0 & -> & _ & Hqa & Hcalls & Happ)].
      - rewrite Hqa, Hcalls. split; [done|]. split; [done|]. destruct c; simpl; lia.
      - rewrite Happ, <- Hqa, <- Hcalls.
        pose proof (chat_endpoint_preserves_chain w request user s0) as Hchain.
        split; [done|]. cbn [chat_calls].
        destruct (chat_endpoint_calls w request user s0) as [->|[p ->]];
          [split; [done|lia]|].
        split; [by apply prefix_app_r|]. rewrite length_app. simpl. lia. }
    destruct Hstep as (Hqa & Hpre & Hlen). destruct IH as (Hqa' & Hpre' & Hlen').
    destruct (call lib w c x) as [x1 r]. cbn [fst] in *.
    destruct (run lib w calls x1) as [x2 rs]. cbn [fst] in *.
    split; [congruence|]. split; [by etrans|lia].
Qed.

(** X18. A session, from logging in to the next request.  When the
    login form passes FastAPI's validation, [login] accepts the password
    and the library later decodes the issued token to the subject it was
    made for, the request to [/token] is answered with that token and
    [get_current_user] then hands over the account that logged in. *)
Theorem login_then_get_current_user (lib : AuthLib) (w : World)
    (username password : string) (form : Form.t)
    (x : Site) (d : UserDoc.t) (token : string) (payload : Payload) :
  OAuth2PasswordRequestForm username password = Ok form →
  account (Form.username form) (users x) = Some d →
  pwd_context_verify lib (Form.password form) (User.hashed_password (UserDoc.user d))
  = Ok true →
  jwt_encode lib
    {| sub := Some (User.username (UserDoc.user d));
       exp := Some (utcnow w (clock_reads (app x)) + 60 * 60)%Z |}
    (SECRET_KEY lib) (ALGORITHM lib) = Ok token →
  jwt_decode lib (utcnow w (S (clock_reads (app x)))) token (SECRET_KEY lib) [ALGORITHM lib]
  = Ok payload →
  sub payload = Some (User.username (UserDoc.user d)) →
  call lib w (PostToken username password) x
  = (tick x, Ok (Issued [("access_token", token); ("token_type", "bearer")]))
  ∧ get_current_user lib w token (tick x) = (tick (tick x), Ok (UserDoc.user d)).
Proof.
  intros Hform Hacc Hverify Hencode Hdecode Hsub.
  assert (Hname : User.username (UserDoc.user d) ≠ "").
  { apply account_Some in Hacc as [_ ->].
    unfold OAuth2PasswordRequestForm in Hform.
    case_decide as Hempty; [discriminate|]. injection Hform as <-. tauto. }
  split.
  - unfold call. rewrite Hform. unfold mbind, SiteM_bind.
    rewrite login_unfold, Hacc, Hverify. unfold ACCESS_TOKEN_EXPIRE_SECONDS.
    by rewrite Hencode.
  - rewrite (get_current_user_decoded lib w token (tick x) payload _ Hdecode Hsub).
    rewrite decide_False by done. cbn [tick users].
    apply account_Some in Hacc as Hd. destruct Hd as [_ Hd].
    by rewrite Hd, Hacc.
Qed.

Lemma login_then_get_current_user_witness :
  call demo_auth demo_world (PostToken "carol" "pw") carol_site
  = (tick carol_site, Ok (Issued [("access_token", "jwt.carol"); ("token_type", "bearer")]))
  ∧ get_current_user demo_auth demo_world "jwt.carol" (tick carol_site)
    = (tick (tick carol_site), Ok carol).
Proof.
  exact (login_then_get_current_user demo_auth demo_world "carol" "pw"
           {| Form.username := "carol"; Form.password := "pw" |} carol_site
           {| UserDoc._id := 2%N; UserDoc.user := carol;
              UserDoc.created_at := 1680000000 |}
           "jwt.carol" _ eq_refl eq_refl eq_refl eq_refl eq_refl eq_refl).
Defined.

(** ** The client's session *)

Lemma init_from_lookup (items : list (string * Ui.Val)) (sess : gmap string Ui.Val)
    (key : string) :
  init_from items sess !! key
  = match sess !! key with
    | Some v => Some v
    | None => (list_to_map items : gmap string Ui.Val) !! key
    end.
Proof.
  revert sess. induction items as [|[k v] items IH]; intros sess.
  - simpl. rewrite lookup_empty. by destruct (sess !! key).
  - simpl. rewrite IH. destruct (decide (k = key)) as [->|Hne].
    + rewrite lookup_insert_eq. destruct (sess !! key) as [v'|] eqn:Hkey.
      * by rewrite Hkey.
      * by rewrite lookup_insert_eq.
    + rewrite (lookup_insert_ne _ k key) by done.
      destruct (sess !! k); [done|]. by rewrite lookup_insert_ne.
Qed.

(** X19. [init_session_state] fills in what is missing and nothing else:
    a key the session has keeps its value, whatever it is; a missing key
    gets its default if it is one of the five keys, and stays missing
    otherwise.  So all five keys are there afterwards, and running it a
    second time changes nothing. *)
Theorem init_session_state_fills_missing (x : Screen) :
  (∀ key,
     session (init_session_state x).1 !! key
     = match session x !! key with
       | Some v => Some v
       | None => (list_to_map defaults : gmap string Ui.Val) !! key
       end)
  ∧ (∀ key, key ∈ default_keys → is_Some (session (init_session_state x).1 !! key))
  ∧ init_session_state (init_session_state x).1 = init_session_state x
  ∧ shown (init_session_state x).1 = shown x.
Proof.
  unfold init_session_state. cbn [fst session shown]. split; [|split; [|split]].
  - intros key. apply init_from_lookup.
  - intros key Hkey. rewrite init_from_lookup.
    destruct (session x !! key); [done|].
    unfold default_keys, defaults in *. simpl in Hkey.
    repeat (apply elem_of_cons in Hkey as [->|Hkey]; [by eexists|]).
    by apply elem_of_nil in Hkey.
  - f_equal. f_equal. apply map_eq. intros key. rewrite !init_from_lookup.
    destruct (session x !! key); [done|].
    by destruct ((list_to_map defaults : gmap string Ui.Val) !! key).
  - done.
Qed.

Lemma well_typed_set (sess : gmap string Ui.Val) (key : string) (v : Ui.Val) :
  well_typed sess →
  (key = "token" → v = Ui.VNone ∨ ∃ t, v = Ui.VStr t) →
  (key = "username" → v = Ui.VNone ∨ ∃ t, v = Ui.VStr t) →
  (key = "messages" → ∃ l, v = Ui.VMessages l) →
  (key = "conversations" → ∃ l, v = Ui.VConversations l) →
  (key = "current_conversation_id" → v = Ui.VNone ∨ ∃ t, v = Ui.VStr t) →
  well_typed (<[key := v]> sess).
Proof.
  intros (Ht & Hu & Hm & Hc & Hi) Hkt Hku Hkm Hkc Hki. unfold well_typed.
  rewrite !lookup_insert. repeat split.
  - case_decide as Hk; [exists v; split; [done|]; by apply Hkt|done].
  - case_decide as Hk; [exists v; split; [done|]; by apply Hku|done].
  - case_decide as Hk; [|done]. destruct (Hkm Hk) as [l ->]. by exists l.
  - case_decide as Hk; [|done]. destruct (Hkc Hk) as [l ->]. by exists l.
  - case_decide as Hk; [exists v; split; [done|]; by apply Hki|done].
Qed.

Lemma get_auth_headers_unfold (x : Screen) (token : Ui.Val) :
  session x !! "token" = Some token →
  get_auth_headers x = (x, Ok (auth_headers token)).
Proof.
  intros Htoken. unfold get_auth_headers, mbind, UiM_bind, session_get, auth_headers.
  rewrite Htoken. destruct (val_truthy token); [|done]. by rewrite Htoken.
Qed.

Lemma well_typed_init_empty : well_typed (init_from defaults ∅).
Proof.
  unfold well_typed. rewrite !init_from_lookup, !lookup_empty.
  repeat split; eexists; (split; [reflexivity|]) || reflexivity; by left.
Qed.


Lemma send_prompt_unfold (net : Network) (prompt : string) (x : Screen)
    (l : list Ui.Message) (cur tok : Ui.Val) :
  session x !! "messages" = Some (Ui.VMessages l) →
  session x !! "current_conversation_id" = Some cur →
  session x !! "token" = Some tok →
  send_prompt net prompt x =
    match http_post_chat net prompt cur (auth_headers tok) with
    | Ui.Replied data =>
        ({| session :=
              (match cur with
               | Ui.VNone => <["current_conversation_id" := Ui.VStr (Ui.conversation_id data)]>
               | _ => id
               end)
                (<["messages" := Ui.VMessages ((l ++ [user_says prompt])
                                               ++ [assistant_says (Ui.response data)])]>
                   (<["messages" := Ui.VMessages (l ++ [user_says prompt])]> (session x)));
            shown := shown x |}, Raise rerun)
    | Ui.Failed f =>
        ({| session := <["messages" := Ui.VMessages (l ++ [user_says prompt])]> (session x);
            shown := shown x ++ [("error", "Error: " +:+ Ui.failure_msg f)] |}, Raise rerun)
    end.
Proof.
  intros Hl Hcur Htok.
  unfold send_prompt, append_message.
  unfold mbind at 1, UiM_bind at 1. unfold mbind at 1, UiM_bind at 1.
  unfold session_get at 1. rewrite Hl. unfold session_set at 1.
  unfold mbind at 1, UiM_bind at 1. unfold session_get at 1. cbn [session].
  rewrite lookup_insert_ne by done. rewrite Hcur.
  unfold mbind at 1, UiM_bind at 1.
  rewrite (get_auth_headers_unfold _ tok) by (cbn [session]; by rewrite lookup_insert_ne).
  destruct (http_post_chat net prompt cur (auth_headers tok)) as [data|f].
  - unfold mbind at 1, UiM_bind at 1. unfold mbind at 1, UiM_bind at 1.
    unfold mbind at 1, UiM_bind at 1.
    unfold session_get at 1. cbn [session]. rewrite lookup_insert_eq.
    unfold session_set at 1. cbn [session shown].
    unfold mbind at 1, UiM_bind at 1.
    unfold session_get at 1. cbn [session].
    rewrite lookup_insert_ne by done. rewrite lookup_insert_ne by done. rewrite Hcur.
    destruct cur; reflexivity.
  - reflexivity.
Qed.

Ltac sess_simpl :=
  cbn [fst snd session shown];
  repeat (rewrite lookup_insert_eq || rewrite lookup_insert_ne by done).

Lemma select_conversation_callback_unfold (net : Network) (cid : string) (x : Screen)
    (tok : Ui.Val) :
  session x !! "token" = Some tok →
  select_conversation_callback net cid x =
    match http_get_messages net cid (auth_headers tok) with
    | Ui.Replied json =>
        ({| session := <["current_conversation_id" := Ui.VStr cid]>
                         (<["messages" := Ui.VMessages (default [] json)]> (session x));
            shown := shown x |}, Ok tt)
    | Ui.Failed _ =>
        ({| session := session x;
            shown := shown x ++ [("error", "Could not load chat history.")] |}, Ok tt)
    end.
Proof.
  intros Htok. unfold select_conversation_callback, mbind at 1, UiM_bind at 1.
  rewrite (get_auth_headers_unfold _ _ Htok).
  by destruct (http_get_messages net cid (auth_headers tok)).
Qed.

(** X20. The handlers keep the session in shape.  If each of the five
    keys holds a value of the kind the code expects, it still does after
    any handler has run, however the server answered; and a handler
    raises nothing but [st.rerun]'s exception, or, in the two forms of
    the login view, what reading the error response raises.  After the
    logout button, the next run of [init_session_state] finds an empty
    session and restores the defaults. *)
Theorem handlers_keep_session_well_typed (net : Network) (ev : Event) (x : Screen) :
  well_typed (session x) →
  well_typed (session (handle net ev x).1)
  ∧ (∀ e, (handle net ev x).2 = Raise e →
          e = rerun ∨ ∃ f, failure_detail f = Raise e)
  ∧ session (logout x).1 = ∅
  ∧ well_typed (session (init_session_state (logout x).1).1).
Proof.
  intros Hwt.
  pose proof Hwt as ((tok & Htok & _) & _ & (l & Hl) & _ & (cur & Hcur & Hcur')).
  split; [|split; [|split]].
  - destruct ev as [|cid| |prompt|u p|u p]; simpl.
    + unfold new_chat_callback, mbind, UiM_bind, session_set. cbn [fst session].
      apply well_typed_set; try done; [|by left].
      apply well_typed_set; try done. by eexists.
    + rewrite (select_conversation_callback_unfold _ _ _ _ Htok).
      destruct (http_get_messages net cid (auth_headers tok)) as [json|f]; [|done].
      cbn [fst session].
      apply well_typed_set; try done; [|right; by eexists].
      apply well_typed_set; try done. by eexists.
    + unfold refresh_conversations, mbind, UiM_bind.
      rewrite (get_auth_headers_unfold _ _ Htok).
      destruct (http_get_conversations net (auth_headers tok)) as [json|f];
        unfold session_set; cbn [fst session];
        apply well_typed_set; try done; by eexists.
    + rewrite (send_prompt_unfold _ _ _ _ _ _ Hl Hcur Htok).
      assert (Hwt1 : well_typed (<["messages" := Ui.VMessages (l ++ [user_says prompt])]>
                                   (session x))).
      { apply well_typed_set; try done. by eexists. }
      destruct (http_post_chat net prompt cur (auth_headers tok)) as [data|f]; [|done].
      cbn [fst session].
      assert (Hwt2 : well_typed
                (<["messages" := Ui.VMessages ((l ++ [user_says prompt])
                                               ++ [assistant_says (Ui.response data)])]>
                   (<["messages" := Ui.VMessages (l ++ [user_says prompt])]> (session x)))).
      { apply well_typed_set; try done. by eexists. }
      destruct Hcur' as [->|[t ->]]; [|done].
      apply well_typed_set; try done. right; by eexists.
    + unfold submit_login.
      destruct (http_post_token net u p) as [token|f].
      * unfold mbind, UiM_bind, session_set, st_rerun, ui_raise. cbn [fst session].
        apply well_typed_set; try done; [|right; by eexists].
        apply well_typed_set; try done. right; by eexists.
      * by destruct (failure_detail f).
    + unfold submit_register.
      destruct (http_post_register net u p) as [[]|f]; [done|].
      by destruct (failure_detail f).
  - intros e. destruct ev as [|cid| |prompt|u p|u p]; simpl.
    + discriminate.
    + rewrite (select_conversation_callback_unfold _ _ _ _ Htok).
      destruct (http_get_messages net cid (auth_headers tok)); discriminate.
    + unfold refresh_conversations, mbind, UiM_bind.
      rewrite (get_auth_headers_unfold _ _ Htok).
      destruct (http_get_conversations net (auth_headers tok)); discriminate.
    + rewrite (send_prompt_unfold _ _ _ _ _ _ Hl Hcur Htok).
      destruct (http_post_chat net prompt cur (auth_headers tok));
        intros [= <-]; by left.
    + unfold submit_login.
      destruct (http_post_token net u p) as [token|f].
      * intros [= <-]. by left.
      * destruct (failure_detail f) as [detail|e'] eqn:Hf; [discriminate|].
        intros [= <-]. right. by exists f.
    + unfold submit_register.
      destruct (http_post_register net u p) as [[]|f]; [discriminate|].
      destruct (failure_detail f) as [detail|e'] eqn:Hf; [discriminate|].
      intros [= <-]. right. by exists f.
  - done.
  - apply well_typed_init_empty.
Qed.

Lemma handlers_keep_session_well_typed_witness :
  well_typed (session (handle demo_network (Send "fail") demo_screen).1)
  ∧ well_typed (session (handle demo_network (Login "carol" "pw") demo_screen).1).
Proof.
  assert (H : well_typed (session demo_screen)).
  { unfold demo_screen. cbn [session].
    apply well_typed_set; try done; [|right; by eexists].
    apply well_typed_set; try done; [|right; by eexists].
    apply well_typed_init_empty. }
  split.
  - exact (proj1 (handlers_keep_session_well_typed demo_network (Send "fail")
                    demo_screen H)).
  - exact (proj1 (handlers_keep_session_well_typed demo_network (Login "carol" "pw")
                    demo_screen H)).
Defined.

(** X21. Sending a prompt.  The prompt is added to the transcript before
    the request is made and stays there when the request fails: then no
    answer is added and ["Error: "] followed by the exception's text is
    shown.  On success the answer follows the prompt.  The conversation
    id of the reply is adopted only when the session has none; an id the
    session already holds is never replaced.  The other keys of the
    session are left alone, and the block always ends in [st.rerun()]. *)
Theorem send_prompt_outcomes (net : Network) (prompt : string) (x : Screen)
    (l : list Ui.Message) (cur tok : Ui.Val) :
  session x !! "messages" = Some (Ui.VMessages l) →
  session x !! "current_conversation_id" = Some cur →
  session x !! "token" = Some tok →
  let r := http_post_chat net prompt cur (auth_headers tok) in
  let x' := (send_prompt net prompt x).1 in
  (send_prompt net prompt x).2 = Raise rerun
  ∧ transcript x'
    = l ++ user_says prompt
           :: match r with
              | Ui.Replied data => [assistant_says (Ui.response data)]
              | Ui.Failed _ => []
              end
  ∧ session x' !! "current_conversation_id"
    = Some match r, cur with
           | Ui.Replied data, Ui.VNone => Ui.VStr (Ui.conversation_id data)
           | _, _ => cur
           end
  ∧ (∀ key, key ≠ "messages" → key ≠ "current_conversation_id" →
            session x' !! key = session x !! key)
  ∧ shown x'
    = shown x ++ match r with
                 | Ui.Replied _ => []
                 | Ui.Failed f => [("error", "Error: " +:+ Ui.failure_msg f)]
                 end.
Proof.
  intros Hl Hcur Htok r x'. subst r x'.
  rewrite (send_prompt_unfold _ _ _ _ _ _ Hl Hcur Htok). unfold transcript.
  destruct (http_post_chat net prompt cur (auth_headers tok)) as [data|f].
  - assert (Hcases : cur = Ui.VNone ∨ cur ≠ Ui.VNone)
      by (destruct cur; (by left) || by right).
    destruct Hcases as [->|Hcur'].
    + sess_simpl. rewrite <- app_assoc. repeat split; [|by rewrite app_nil_r].
      intros key Hk1 Hk2. by rewrite !lookup_insert_ne.
    + assert (Hid : (match cur with
                     | Ui.VNone => <["current_conversation_id" :=
                                       Ui.VStr (Ui.conversation_id data)]>
                     | _ => id
                     end : gmap string Ui.Val → gmap string Ui.Val) = id)
        by (by destruct cur).
      rewrite Hid. unfold id. sess_simpl. rewrite <- app_assoc.
      repeat split.
      * rewrite Hcur. by destruct cur.
      * intros key Hk1 Hk2. by rewrite !lookup_insert_ne.
      * by rewrite app_nil_r.
  - sess_simpl. repeat split.
    + by rewrite Hcur.
    + intros key Hk1 Hk2. by rewrite !lookup_insert_ne.
Qed.

Lemma send_prompt_outcomes_witness :
  transcript (send_prompt demo_network "fail" demo_screen).1 = [user_says "fail"]
  ∧ session (send_prompt demo_network "fever" demo_screen).1 !! "current_conversation_id"
    = Some (Ui.VStr "0000000000000000000003e8").
Proof.
  assert (Hl : session demo_screen !! "messages" = Some (Ui.VMessages []))
    by (vm_compute; reflexivity).
  assert (Hcur : session demo_screen !! "current_conversation_id" = Some Ui.VNone)
    by (vm_compute; reflexivity).
  assert (Htok : session demo_screen !! "token" = Some (Ui.VStr "jwt.alice"))
    by (vm_compute; reflexivity).
  split.
  - exact (proj1 (proj2 (send_prompt_outcomes demo_network "fail" demo_screen
                           [] Ui.VNone (Ui.VStr "jwt.alice") Hl Hcur Htok))).
  - exact (proj1 (proj2 (proj2 (send_prompt_outcomes demo_network "fever" demo_screen
                                  [] Ui.VNone (Ui.VStr "jwt.alice") Hl Hcur Htok)))).
Defined.

(** X22. Two prompts, one conversation.  When the first prompt of a new
    chat is answered, the second request carries the conversation id of
    the first answer, whatever id the second answer names the session
    keeps the first, and the transcript holds both exchanges in order
    (without a second answer when the second request fails). *)
Theorem second_prompt_continues_conversation (net : Network) (p1 p2 : string)
    (x : Screen) (l : list Ui.Message) (tok : Ui.Val) (d1 : Ui.ChatReply) :
  session x !! "messages" = Some (Ui.VMessages l) →
  session x !! "current_conversation_id" = Some Ui.VNone →
  session x !! "token" = Some tok →
  http_post_chat net p1 Ui.VNone (auth_headers tok) = Ui.Replied d1 →
  let x1 := (send_prompt net p1 x).1 in
  let x2 := (send_prompt net p2 x1).1 in
  let r2 := http_post_chat net p2 (Ui.VStr (Ui.conversation_id d1)) (auth_headers tok) in
  transcript x2
  = l ++ [user_says p1; assistant_says (Ui.response d1); user_says p2]
      ++ match r2 with
         | Ui.Replied d2 => [assistant_says (Ui.response d2)]
         | Ui.Failed _ => []
         end
  ∧ session x2 !! "current_conversation_id" = Some (Ui.VStr (Ui.conversation_id d1)).
Proof.
  intros Hl Hcur Htok Hr1 x1 x2 r2.
  assert (Hx1 : x1 = {| session := <["current_conversation_id" :=
                                       Ui.VStr (Ui.conversation_id d1)]>
                         (<["messages" := Ui.VMessages ((l ++ [user_says p1])
                                            ++ [assistant_says (Ui.response d1)])]>
                            (<["messages" := Ui.VMessages (l ++ [user_says p1])]>
                               (session x)));
                       shown := shown x |}).
  { subst x1. rewrite (send_prompt_unfold _ _ _ _ _ _ Hl Hcur Htok). by rewrite Hr1. }
  assert (Hl1 : session x1 !! "messages"
                = Some (Ui.VMessages ((l ++ [user_says p1])
                                      ++ [assistant_says (Ui.response d1)])))
    by (rewrite Hx1; by sess_simpl).
  assert (Hcur1 : session x1 !! "current_conversation_id"
                  = Some (Ui.VStr (Ui.conversation_id d1)))
    by (rewrite Hx1; by sess_simpl).
  assert (Htok1 : session x1 !! "token" = Some tok)
    by (rewrite Hx1; by sess_simpl).
  subst x2. rewrite (send_prompt_unfold _ _ _ _ _ _ Hl1 Hcur1 Htok1).
  fold r2. unfold transcript.
  destruct r2 as [d2|f]; unfold id; sess_simpl; rewrite ?Hcur1;
    (split; [|done]); by rewrite <- !app_assoc.
Qed.

Lemma second_prompt_continues_conversation_witness :
  transcript (send_prompt demo_network "fail"
                (send_prompt demo_network "fever" demo_screen).1).1
  = [user_says "fever"; assistant_says "1. Rest. 2. Drink fluids."; user_says "fail"].
Proof.
  assert (Hl : session demo_screen !! "messages" = Some (Ui.VMessages []))
    by (vm_compute; reflexivity).
  assert (Hcur : session demo_screen !! "current_conversation_id" = Some Ui.VNone)
    by (vm_compute; reflexivity).
  assert (Htok : session demo_screen !! "token" = Some (Ui.VStr "jwt.alice"))
    by (vm_compute; reflexivity).
  assert (Hr : http_post_chat demo_network "fever" Ui.VNone
                 (auth_headers (Ui.VStr "jwt.alice"))
               = Ui.Replied {| Ui.response := "1. Rest. 2. Drink fluids.";
                               Ui.conversation_id := "0000000000000000000003e8" |})
    by (vm_compute; reflexivity).
  exact (proj1 (second_prompt_continues_conversation demo_network "fever" "fail"
                  demo_screen [] (Ui.VStr "jwt.alice") _ Hl Hcur Htok Hr)).
Defined.

(** X23. Which conversation a prompt goes to.  After the new-chat button
    the request carries no conversation id and starts from an empty
    transcript.  After a conversation was selected and could be loaded,
    the request carries the selected id and the prompt follows the
    loaded messages.  When the selected conversation could not be
    loaded, transcript and id stay as they were, so the prompt goes to
    the conversation that was open before. *)
Theorem prompt_goes_to_open_conversation (net : Network) (cid prompt : string)
    (x : Screen) (l : list Ui.Message) (cur tok : Ui.Val) :
  session x !! "messages" = Some (Ui.VMessages l) →
  session x !! "current_conversation_id" = Some cur →
  session x !! "token" = Some tok →
  let fresh := (new_chat_callback x).1 in
  let chosen := (select_conversation_callback net cid x).1 in
  let sent (l' : list Ui.Message) (cur' : Ui.Val) (x' : Screen) :=
    transcript (send_prompt net prompt x').1
    = l' ++ user_says prompt
            :: match http_post_chat net prompt cur' (auth_headers tok) with
               | Ui.Replied data => [assistant_says (Ui.response data)]
               | Ui.Failed _ => []
               end in
  sent [] Ui.VNone fresh
  ∧ match http_get_messages net cid (auth_headers tok) with
    | Ui.Replied json => sent (default [] json) (Ui.VStr cid) chosen
    | Ui.Failed _ =>
        sent l cur chosen
        ∧ session chosen = session x
        ∧ shown chosen = shown x ++ [("error", "Could not load chat history.")]
    end.
Proof.
  intros Hl Hcur Htok fresh chosen sent. subst sent. cbn beta. split.
  - assert (Hl1 : session fresh !! "messages" = Some (Ui.VMessages [])).
    { subst fresh. unfold new_chat_callback, mbind, UiM_bind, session_set.
      by sess_simpl. }
    assert (Hcur1 : session fresh !! "current_conversation_id" = Some Ui.VNone).
    { subst fresh. unfold new_chat_callback, mbind, UiM_bind, session_set.
      by sess_simpl. }
    assert (Htok1 : session fresh !! "token" = Some tok).
    { subst fresh. unfold new_chat_callback, mbind, UiM_bind, session_set.
      by sess_simpl. }
    rewrite (send_prompt_unfold _ _ _ _ _ _ Hl1 Hcur1 Htok1). unfold transcript.
    destruct (http_post_chat net prompt Ui.VNone (auth_headers tok));
      sess_simpl; [|done]. by rewrite <- app_assoc.
  - subst chosen. rewrite (select_conversation_callback_unfold _ _ _ _ Htok).
    destruct (http_get_messages net cid (auth_headers tok)) as [json|f].
    + cbn [fst].
      set (x1 := {| session := _; shown := _ |}).
      assert (Hl1 : session x1 !! "messages" = Some (Ui.VMessages (default [] json)))
        by (subst x1; by sess_simpl).
      assert (Hcur1 : session x1 !! "current_conversation_id" = Some (Ui.VStr cid))
        by (subst x1; by sess_simpl).
      assert (Htok1 : session x1 !! "token" = Some tok)
        by (subst x1; by sess_simpl).
      rewrite (send_prompt_unfold _ _ _ _ _ _ Hl1 Hcur1 Htok1). unfold transcript.
      destruct (http_post_chat net prompt (Ui.VStr cid) (auth_headers tok));
        unfold id; sess_simpl; [|done]. by rewrite <- app_assoc.
    + cbn [fst session shown]. split; [|done].
      set (x1 := {| session := _; shown := _ |}).
      rewrite (send_prompt_unfold net prompt x1 l cur tok Hl Hcur Htok).
      unfold transcript.
      destruct (http_post_chat net prompt cur (auth_headers tok)) as [data|f'];
        [|by sess_simpl].
      rewrite <- app_assoc.
      destruct cur; unfold id; by sess_simpl.
Qed.

Lemma prompt_goes_to_open_conversation_witness :
  transcript (send_prompt demo_network "fever" (new_chat_callback demo_screen).1).1
  = [user_says "fever"; assistant_says "1. Rest. 2. Drink fluids."].
Proof.
  assert (Hl : session demo_screen !! "messages" = Some (Ui.VMessages []))
    by (vm_compute; reflexivity).
  assert (Hcur : session demo_screen !! "current_conversation_id" = Some Ui.VNone)
    by (vm_compute; reflexivity).
  assert (Htok : session demo_screen !! "token" = Some (Ui.VStr "jwt.alice"))
    by (vm_compute; reflexivity).
  exact (proj1 (prompt_goes_to_open_conversation demo_network "0000000000000000000003e8"
                  "fever" demo_screen [] Ui.VNone (Ui.VStr "jwt.alice") Hl Hcur Htok)).
Defined.

(** X24. The two forms of the login view.  A failed request leaves the
    session as it was.  When the server refused with a JSON body, its
    ["detail"] is shown after ["Login failed: "] or
    ["Registration failed: "], and ["Connection Error"] when the body has
    no detail.  When there was no response at all, nothing is shown:
    reading [e.response.json()] raises [AttributeError] out of the
    handler; a body that is not JSON raises likewise.  A successful
    login stores the token and the name typed into the form and reruns;
    a successful registration stores nothing. *)
Theorem auth_forms_outcomes (net : Network) (u p : string) (x : Screen) :
  match http_post_token net u p with
  | Ui.Replied token =>
      submit_login net u p x
      = ({| session := <["username" := Ui.VStr u]> (<["token" := Ui.VStr token]> (session x));
            shown := shown x |}, Raise rerun)
  | Ui.Failed f =>
      session (submit_login net u p x).1 = session x
      ∧ match f with
        | Ui.Refused _ (Ui.Json detail) =>
            submit_login net u p x
            = ({| session := session x;
                  shown := shown x ++ [("error", "Login failed: "
                                                 +:+ default "Connection Error" detail)] |},
               Ok tt)
        | _ => shown (submit_login net u p x).1 = shown x
               ∧ ∃ cls msg, (submit_login net u p x).2 = Raise (LibraryError cls msg)
                            ∧ cls ≠ "RerunException"
        end
  end
  ∧ match http_post_register net u p with
    | Ui.Replied _ =>
        submit_register net u p x
        = ({| session := session x;
              shown := shown x ++ [("success", "Registration successful! Please login.")] |},
           Ok tt)
    | Ui.Failed f =>
        session (submit_register net u p x).1 = session x
        ∧ match f with
          | Ui.Refused _ (Ui.Json detail) =>
              submit_register net u p x
              = ({| session := session x;
                    shown := shown x ++ [("error", "Registration failed: "
                                                   +:+ default "Connection Error" detail)] |},
                 Ok tt)
          | _ => shown (submit_register net u p x).1 = shown x
                 ∧ ∃ cls msg, (submit_register net u p x).2 = Raise (LibraryError cls msg)
                              ∧ cls ≠ "RerunException"
          end
    end.
Proof.
  split.
  - unfold submit_login.
    destruct (http_post_token net u p) as [token|[msg [[detail|]|]|msg]]; try done;
      cbn [failure_detail]; (split; [done|]); (split; [done|]); by do 2 eexists.
  - unfold submit_register.
    destruct (http_post_register net u p) as [[]|[msg [[detail|]|]|msg]]; try done;
      cbn [failure_detail]; (split; [done|]); (split; [done|]); by do 2 eexists.
Qed.
